(** * IcePAPTriggerController: a shallow embedding and its properties

    The controller of [sardana_icepap/ctrl/IcePAPTriggerController.py] is
    embedded as state-passing functions over
    - the controller object (its private fields, a record),
    - the hardware link and the device proxy (external collaborators, given
      as an oracle whose answers may depend on every call made so far),
    - the trace of calls sent to them and the log.

    Positions are Python floats.  The arithmetic the controller performs is
    kept behind the interface [PyFloat], which has two instances:
    [B64.binary64] is IEEE 754 binary64 as Python and numpy compute it
    (round to nearest even, on [SpecFloat]), and [Exact.rational] is the
    same program run on exact rationals. *)

From Stdlib Require Import ZArith QArith Qround List String Ascii Bool Lia.
From Stdlib Require Import Floats.SpecFloat.
From Stdlib Require DecimalString.
Import ListNotations.

Set Implicit Arguments.
Local Open Scope Z_scope.

(* ================================================================== *)
(** ** Python values the controller manipulates *)

Module Py.

(** Exceptions that can leave a method of the controller.  [LinkError]
    stands for whatever the icepap / taurus libraries raise.  Messages
    built with [format] keep their template where the arguments vary. *)
Inductive exn :=
| ValueError (msg : string)
| RuntimeError (msg : string)
| KeyError
| IndexError
| ZeroDivisionError
| OverflowError
| LinkError.

(** [str.upper] on ASCII text: the letters a to z are raised, every other
    character is kept.  Where a property decides by it on a text that
    comes from outside, the text is taken to be ASCII ([is_ascii]). *)
Definition upper_ascii (c : ascii) : ascii :=
  let n := nat_of_ascii c in
  if (Nat.leb 97 n && Nat.leb n 122)%bool then ascii_of_nat (n - 32) else c.

Fixpoint upper (s : string) : string :=
  match s with
  | EmptyString => EmptyString
  | String c r => String (upper_ascii c) (upper r)
  end.

(** [x in l] for a list of strings. *)
Definition str_in (x : string) (l : list string) : bool :=
  existsb (String.eqb x) l.

(** [sub in s] for strings: substring test. *)
Fixpoint contains (sub s : string) : bool :=
  if String.prefix sub s then true
  else match s with
       | EmptyString => false
       | String _ r => contains sub r
       end.

Definition is_space (c : ascii) : bool :=
  let n := nat_of_ascii c in
  (Nat.eqb n 32 || (Nat.leb 9 n && Nat.leb n 13))%bool.

Fixpoint lstrip (s : string) : string :=
  match s with
  | String c r => if is_space c then lstrip r else s
  | EmptyString => EmptyString
  end.

Fixpoint rstrip (s : string) : string :=
  match s with
  | EmptyString => EmptyString
  | String c r =>
      match rstrip r with
      | EmptyString => if is_space c then EmptyString else String c EmptyString
      | r' => String c r'
      end
  end.

(** The trimming [int] applies to its text: blanks and the controls 9 to
    13 are skipped at both ends. *)
Definition strip (s : string) : string := rstrip (lstrip s).

(** [str.strip] on ASCII text: besides the blanks above, Python's
    [str.isspace] holds of the separators 28 to 31. *)
Definition is_blank (c : ascii) : bool :=
  let n := nat_of_ascii c in
  (is_space c || (Nat.leb 28 n && Nat.leb n 31))%bool.

Fixpoint lstrip_blank (s : string) : string :=
  match s with
  | String c r => if is_blank c then lstrip_blank r else s
  | EmptyString => EmptyString
  end.

Fixpoint rstrip_blank (s : string) : string :=
  match s with
  | EmptyString => EmptyString
  | String c r =>
      match rstrip_blank r with
      | EmptyString => if is_blank c then EmptyString else String c EmptyString
      | r' => String c r'
      end
  end.

Definition str_strip (s : string) : string := rstrip_blank (lstrip_blank s).

(** Texts made of ASCII characters only. *)
Fixpoint is_ascii (s : string) : bool :=
  match s with
  | EmptyString => true
  | String c r => (Nat.ltb (nat_of_ascii c) 128 && is_ascii r)%bool
  end.

(** [s.split(',')]: the fields between the commas, at least one. *)
Fixpoint split_on (sep : ascii) (s : string) : list string :=
  match s with
  | EmptyString => [EmptyString]
  | String c r =>
      if Ascii.eqb c sep then EmptyString :: split_on sep r
      else match split_on sep r with
           | f :: fs => String c f :: fs
           | [] => [String c EmptyString]
           end
  end.

(** [int(s)] on the decimal texts the IcePAP answers with: an optional
    sign and digits, blanks around them ignored.  [None] is the
    [ValueError] of [int]. *)
Definition digit_of (c : ascii) : option Z :=
  let n := nat_of_ascii c in
  if (Nat.leb 48 n && Nat.leb n 57)%bool then Some (Z.of_nat (n - 48)) else None.

Fixpoint digits_from (acc : Z) (s : string) : option Z :=
  match s with
  | EmptyString => Some acc
  | String c r =>
      match digit_of c with
      | Some d => digits_from (10 * acc + d) r
      | None => None
      end
  end.

Definition unsigned_of (s : string) : option Z :=
  match s with
  | EmptyString => None
  | _ => digits_from 0 s
  end.

Definition int_of_str (s : string) : option Z :=
  match strip s with
  | String "-"%char r => option_map Z.opp (unsigned_of r)
  | String "+"%char r => unsigned_of r
  | t => unsigned_of t
  end.

(** ['{0}'.format(n)] for an integer. *)
Definition str_of_int (n : Z) : string :=
  DecimalString.NilZero.string_of_int (Z.to_int n).

(** What [int(x)] and ['%d' % x] make of a float. *)
Inductive truncated :=
| TInt (z : Z)
| TInf      (* OverflowError: cannot convert float infinity to integer *)
| TNan.     (* ValueError: cannot convert float NaN to integer *)

End Py.

(* ================================================================== *)
(** ** The float arithmetic the controller uses *)

(** The operations of Python's [float] (and of numpy's float64 arrays)
    that occur in the controller.  The four operations are total, as in
    IEEE 754; Python's [ZeroDivisionError] on [/] and [//] is raised by the
    caller (see [py_truediv], [py_floordiv]). *)
Class PyFloat (F : Type) := {
  (** [float(n)] for an [int]; [None] is [OverflowError] *)
  f_of_int : Z -> option F;
  (** [a / b] for two [int]s, [b] not zero; [None] is [OverflowError] *)
  f_int_truediv : Z -> Z -> option F;
  (** the literals [0.0] and [0.1] *)
  f_zero : F;
  f_tenth : F;
  f_add : F -> F -> F;
  f_sub : F -> F -> F;
  f_mul : F -> F -> F;
  f_div : F -> F -> F;
  (** [x // y] on floats, [y] not zero *)
  f_floordiv : F -> F -> F;
  (** [x == y] *)
  f_eqb : F -> F -> bool;
  (** [int(x)], also what ['%d' % x] computes *)
  f_trunc : F -> Py.truncated
}.

(** *** IEEE 754 binary64 *)

Module B64.

Definition prec : Z := 53.
Definition emax : Z := 1024.

Definition float := spec_float.

Definition add : float -> float -> float := SFadd prec emax.
Definition sub : float -> float -> float := SFsub prec emax.
Definition mul : float -> float -> float := SFmul prec emax.
Definition div : float -> float -> float := SFdiv prec emax.
Definition eqb : float -> float -> bool := SFeqb.
Definition ltb : float -> float -> bool := SFltb.

Definition zero : float := S754_zero false.

(** The integer [n] rounded to the nearest float (ties to even). *)
Definition of_Z (n : Z) : float := binary_normalize prec emax n 0 false.

Definition is_finite (x : float) : bool :=
  match x with
  | S754_zero _ | S754_finite _ _ _ => true
  | _ => false
  end.

(** [float(n)]: CPython rounds to nearest even and raises
    [OverflowError] when the result is not finite. *)
Definition of_int (n : Z) : option float :=
  let x := of_Z n in if is_finite x then Some x else None.

(** [a / b] on ints is the correctly rounded quotient of the two
    integers: one rounding, whatever their size. *)
Definition int_operand (n : Z) : float :=
  match n with
  | Z0 => S754_zero false
  | Zpos p => S754_finite false p 0
  | Zneg p => S754_finite true p 0
  end.

Definition int_truediv (a b : Z) : option float :=
  let x := div (int_operand a) (int_operand b) in
  if is_finite x then Some x else None.

(** The literal [0.1]: 0x1.999999999999ap-4. *)
Definition tenth : float := S754_finite false 7205759403792794 (-56).

(** The rational a finite float denotes; [0] for the others. *)
Definition to_Q (x : float) : Q :=
  match x with
  | S754_finite s m e =>
      let v := match e with
               | Zneg p => Qmake (Zpos m) (2 ^ p)%positive
               | _ => inject_Z (Zpos m * 2 ^ e)
               end in
      if s then Qopp v else v
  | _ => 0%Q
  end.

(** [int(x)]: truncation toward zero. *)
Definition trunc (x : float) : Py.truncated :=
  match x with
  | S754_nan => Py.TNan
  | S754_infinity _ => Py.TInf
  | S754_zero _ => Py.TInt 0
  | S754_finite s m e =>
      let a := match e with
               | Zneg p => Z.shiftr (Zpos m) (Zpos p)
               | _ => Z.shiftl (Zpos m) e
               end in
      Py.TInt (if s then - a else a)
  end.

(** [x // y] for [y] not zero: the floor of the mathematical quotient
    (Python reference, binary arithmetic operations), as a float.  The
    non-finite cases follow CPython's [float_divmod]. *)
Definition floordiv (x y : float) : float :=
  match x, y with
  | S754_nan, _ | _, S754_nan => S754_nan
  | S754_infinity _, _ => S754_nan
  | S754_zero s, S754_infinity t => S754_zero (xorb s t)
  | S754_finite s _ _, S754_infinity t =>
      if xorb s t then of_Z (-1) else S754_zero false
  | _, S754_zero _ => S754_nan
  | S754_zero s, S754_finite t _ _ => S754_zero (xorb s t)
  | S754_finite s _ _, S754_finite t _ _ =>
      match Qfloor (to_Q x / to_Q y) with
      | Z0 => S754_zero (xorb s t)
      | q => of_Z q
      end
  end.

#[global] Instance binary64 : PyFloat float := {
  f_of_int := of_int;
  f_int_truediv := int_truediv;
  f_zero := zero;
  f_tenth := tenth;
  f_add := add;
  f_sub := sub;
  f_mul := mul;
  f_div := div;
  f_floordiv := floordiv;
  f_eqb := eqb;
  f_trunc := trunc
}.

End B64.

(** *** Exact rationals *)

Module Exact.

Definition trunc (x : Q) : Py.truncated :=
  Py.TInt (if Qle_bool 0 x then Qfloor x else Qceiling x).

#[global] Instance rational : PyFloat Q := {
  f_of_int := fun n => Some (inject_Z n);
  f_int_truediv := fun a b => Some (inject_Z a / inject_Z b)%Q;
  f_zero := 0%Q;
  f_tenth := (1 # 10)%Q;
  f_add := Qplus;
  f_sub := Qminus;
  f_mul := Qmult;
  f_div := Qdiv;
  f_floordiv := fun x y => inject_Z (Qfloor (x / y));
  f_eqb := Qeq_bool;
  f_trunc := trunc
}.

End Exact.


(* ================================================================== *)
(** ** The controller and its collaborators *)

Definition LOW : string := "low".
Definition HIGH : string := "high".
Definition ECAM : string := "ecam".

Definition MAX_ECAM_VALUES : Z := 20477.
Definition ECAM_SOURCE_VALUES : list string := ["ENCIN"; "ABSENC"; "INPOS"]%string.

(** [ActivePeriod] and the dwell of [StartOne] are durations; the embedding
    keeps the order of the calls, not their timing. *)

(** [sardana.State], the members the controller returns. *)
Inductive State := On | Alarm | Moving.

(** One synchronization group of a configuration: a dict from [SynchParam]
    to a value, the positional parameters being dicts from [SynchDomain]
    to a float.  A missing key is [None]. *)
Record domain_values (F : Type) := {
  Position : option F;
  Time : option F
}.

Record synch_group (F : Type) := {
  Repeats : option Z;
  Initial : option (domain_values F);
  Total : option (domain_values F)
}.

(** What [self._ipap[axis].state] answers. *)
Record hw_state := {
  is_poweron : bool;
  is_moving : bool;
  is_settling : bool
}.

Section Controller.

Context {F : Type} {PF : PyFloat F}.

(** Calls that go out to the IcePAP (the [icepap] library) and to the
    motor device proxy ([taurus]). *)
Inductive call :=
| ReadState (axis : option Z)
| GetCfg (axis : option Z) (key : string)
| SetAttr (axis : option Z) (name : string) (value : list string)
| SetEcamTable (axis : option Z) (table : list F) (source : string)
| Esync (axis : option Z)
| ReadName (axis : option Z)
| GetPmux
| ClearPmux (line : string)
| AddPmux (axis : option Z) (line : string) (pos aux hard : bool)
| OpenDevice (alias : string) (id : Z)
| ReadAttribute (alias : string) (id : Z) (attr : string).

Inductive reply :=
| Failed                       (* the call raises *)
| Done
| Text (s : string)
| Lines (l : list string)
| Status (st : hw_state)
| Number (x : F).

(** The collaborators: each call is answered from the calls made so far;
    [has_axis] tells whether [self._ipap[axis]] yields an axis object. *)
Record link := {
  answer : list call -> call -> reply;
  has_axis : option Z -> bool
}.

Inductive level := Debug | Info | Warning | Error.

(** The instance fields set by [__init__], with the properties it reads. *)
Record controller := {
  IcepapCtrlAlias : string;
  Timeout : F;
  _time_mode : bool;
  _start_trigger_only : bool;
  _axis_info_list : list string;
  _retries_nr : Z;
  _last_id : option Z;
  _motor_axis : option Z;
  _motor_spu : F;
  _is_tgtenc : bool;
  _ecam_source_dict : option (list (Z * string));
  _ecam_source : string
}.

Record world := {
  ctl : controller;
  trace : list call;          (* oldest call first *)
  log : list (level * string)
}.

Inductive outcome (A : Type) :=
| Ret (a : A)
| Raise (e : Py.exn).
Arguments Ret {A} a.
Arguments Raise {A} e.

(** A method body: it runs against the collaborators, from a world, to an
    outcome and a world.  Field updates made before an exception stay. *)
Definition M (A : Type) : Type := link -> world -> outcome A * world.

Definition ret {A} (a : A) : M A := fun _ w => (Ret a, w).
Definition raise {A} (e : Py.exn) : M A := fun _ w => (Raise e, w).
Definition bind {A B} (m : M A) (k : A -> M B) : M B :=
  fun hw w =>
    match m hw w with
    | (Ret a, w') => k a hw w'
    | (Raise e, w') => (Raise e, w')
    end.
(** [try: m except Exception: h] *)
Definition try_except {A} (m : M A) (h : Py.exn -> M A) : M A :=
  fun hw w =>
    match m hw w with
    | (Ret a, w') => (Ret a, w')
    | (Raise e, w') => h e hw w'
    end.

Notation "x <- m ;; k" := (bind m (fun x => k))
  (at level 61, m at next level, right associativity).
Notation "m ;;; k" := (bind m (fun _ => k))
  (at level 61, right associativity).
Notation "' pat <- m ;; k" := (bind m (fun x => let 'pat := x in k))
  (at level 61, pat pattern, m at next level, right associativity).

Definition self : M controller := fun _ w => (Ret (ctl w), w).
Definition set_self (f : controller -> controller) : M unit :=
  fun _ w => (Ret tt, {| ctl := f (ctl w); trace := trace w; log := log w |}).
(** A call to [self._log]; the message keeps its text, the formatted
    arguments are left out. *)
Definition log_msg (l : level) (msg : string) : M unit :=
  fun _ w => (Ret tt, {| ctl := ctl w; trace := trace w; log := log w ++ [(l, msg)] |}).

(** Sends a call and records it. *)
Definition send (c : call) : M reply :=
  fun hw w =>
    (Ret (answer hw (trace w) c),
     {| ctl := ctl w; trace := trace w ++ [c]; log := log w |}).

(** [self._ipap[axis]] *)
Definition ipap_axis (axis : option Z) : M unit :=
  fun hw w => if has_axis hw axis then (Ret tt, w) else (Raise Py.LinkError, w).

Definition expect_done (c : call) : M unit :=
  r <- send c ;; match r with Done => ret tt | _ => raise Py.LinkError end.
Definition expect_text (c : call) : M string :=
  r <- send c ;; match r with Text s => ret s | _ => raise Py.LinkError end.
Definition expect_lines (c : call) : M (list string) :=
  r <- send c ;; match r with Lines l => ret l | _ => raise Py.LinkError end.
Definition expect_status (c : call) : M hw_state :=
  r <- send c ;; match r with Status s => ret s | _ => raise Py.LinkError end.
Definition expect_number (c : call) : M F :=
  r <- send c ;; match r with Number x => ret x | _ => raise Py.LinkError end.

(** [self._ipap[axis].get_cfg(key)[key]] *)
Definition get_cfg (axis : option Z) (key : string) : M string :=
  ipap_axis axis ;;; expect_text (GetCfg axis key).

(** [int(motor.get_cfg(key)[key])], the axis object being at hand *)
Definition get_cfg_int (axis : option Z) (key : string) : M Z :=
  s <- expect_text (GetCfg axis key) ;;
  match Py.int_of_str s with
  | Some n => ret n
  | None => raise (Py.ValueError "invalid literal for int()")
  end.

(** Python's operators on the numbers at hand. *)
Definition py_float (n : Z) : M F :=
  match f_of_int n with Some x => ret x | None => raise Py.OverflowError end.
Definition py_truediv (x y : F) : M F :=
  if f_eqb y f_zero then raise Py.ZeroDivisionError else ret (f_div x y).
Definition py_floordiv (x y : F) : M F :=
  if f_eqb y f_zero then raise Py.ZeroDivisionError else ret (f_floordiv x y).
Definition py_int_truediv (a b : Z) : M F :=
  if Z.eqb b 0 then raise Py.ZeroDivisionError
  else match f_int_truediv a b with
       | Some x => ret x
       | None => raise Py.OverflowError
       end.
(** [int(x)]; ['%d' % x] raises the same way *)
Definition py_int (x : F) : M Z :=
  match f_trunc x with
  | Py.TInt z => ret z
  | Py.TInf => raise Py.OverflowError
  | Py.TNan => raise (Py.ValueError "cannot convert float NaN to integer")
  end.

(** *** [numpy.linspace(start, stop, num)]

    numpy is not part of the repository; this follows
    [numpy.linspace] with [endpoint=True]: the samples are
    [arange(num) * step + start] with [step = (stop - start) / (num - 1)],
    computed as [arange(num) / (num - 1) * (stop - start)] when the step
    is zero, and the last one is set to [stop]. *)
Fixpoint arange_from (i : Z) (num : nat) : list Z :=
  match num with
  | O => []
  | S k => i :: arange_from (i + 1) k
  end.

Definition np_float (n : Z) : F :=
  match f_of_int n with Some x => x | None => f_zero end.

Fixpoint set_last (l : list F) (x : F) : list F :=
  match l with
  | [] => []
  | [_] => [x]
  | y :: r => y :: set_last r x
  end.

Definition linspace (start stop : F) (num : Z) : list F :=
  let div := num - 1 in
  let y := map np_float (arange_from 0 (Z.to_nat num)) in
  let delta := f_sub stop start in
  let y :=
    if 0 <? div then
      let step := f_div delta (np_float div) in
      if f_eqb step f_zero
      then map (fun v => f_mul (f_div v (np_float div)) delta) y
      else map (fun v => f_mul v step) y
    else map (fun v => f_mul v delta) y in
  let y := map (fun v => f_add v start) y in
  if 1 <? num then set_last y stop else y.

(** *** Field updates and the [EcamSource] dict *)

Definition set_time_mode (b : bool) (c : controller) : controller :=
  {| IcepapCtrlAlias := IcepapCtrlAlias c; Timeout := Timeout c;
     _time_mode := b; _start_trigger_only := _start_trigger_only c;
     _axis_info_list := _axis_info_list c; _retries_nr := _retries_nr c;
     _last_id := _last_id c; _motor_axis := _motor_axis c;
     _motor_spu := _motor_spu c; _is_tgtenc := _is_tgtenc c;
     _ecam_source_dict := _ecam_source_dict c; _ecam_source := _ecam_source c |}.

Definition set_start_trigger_only (b : bool) (c : controller) : controller :=
  {| IcepapCtrlAlias := IcepapCtrlAlias c; Timeout := Timeout c;
     _time_mode := _time_mode c; _start_trigger_only := b;
     _axis_info_list := _axis_info_list c; _retries_nr := _retries_nr c;
     _last_id := _last_id c; _motor_axis := _motor_axis c;
     _motor_spu := _motor_spu c; _is_tgtenc := _is_tgtenc c;
     _ecam_source_dict := _ecam_source_dict c; _ecam_source := _ecam_source c |}.

Definition set_last_id (i : option Z) (c : controller) : controller :=
  {| IcepapCtrlAlias := IcepapCtrlAlias c; Timeout := Timeout c;
     _time_mode := _time_mode c; _start_trigger_only := _start_trigger_only c;
     _axis_info_list := _axis_info_list c; _retries_nr := _retries_nr c;
     _last_id := i; _motor_axis := _motor_axis c;
     _motor_spu := _motor_spu c; _is_tgtenc := _is_tgtenc c;
     _ecam_source_dict := _ecam_source_dict c; _ecam_source := _ecam_source c |}.

Definition set_motor_axis (i : option Z) (c : controller) : controller :=
  {| IcepapCtrlAlias := IcepapCtrlAlias c; Timeout := Timeout c;
     _time_mode := _time_mode c; _start_trigger_only := _start_trigger_only c;
     _axis_info_list := _axis_info_list c; _retries_nr := _retries_nr c;
     _last_id := _last_id c; _motor_axis := i;
     _motor_spu := _motor_spu c; _is_tgtenc := _is_tgtenc c;
     _ecam_source_dict := _ecam_source_dict c; _ecam_source := _ecam_source c |}.

Definition set_motor_spu (x : F) (c : controller) : controller :=
  {| IcepapCtrlAlias := IcepapCtrlAlias c; Timeout := Timeout c;
     _time_mode := _time_mode c; _start_trigger_only := _start_trigger_only c;
     _axis_info_list := _axis_info_list c; _retries_nr := _retries_nr c;
     _last_id := _last_id c; _motor_axis := _motor_axis c;
     _motor_spu := x; _is_tgtenc := _is_tgtenc c;
     _ecam_source_dict := _ecam_source_dict c; _ecam_source := _ecam_source c |}.

Definition set_is_tgtenc (b : bool) (c : controller) : controller :=
  {| IcepapCtrlAlias := IcepapCtrlAlias c; Timeout := Timeout c;
     _time_mode := _time_mode c; _start_trigger_only := _start_trigger_only c;
     _axis_info_list := _axis_info_list c; _retries_nr := _retries_nr c;
     _last_id := _last_id c; _motor_axis := _motor_axis c;
     _motor_spu := _motor_spu c; _is_tgtenc := b;
     _ecam_source_dict := _ecam_source_dict c; _ecam_source := _ecam_source c |}.

Definition set_ecam_source_dict (d : option (list (Z * string)))
    (c : controller) : controller :=
  {| IcepapCtrlAlias := IcepapCtrlAlias c; Timeout := Timeout c;
     _time_mode := _time_mode c; _start_trigger_only := _start_trigger_only c;
     _axis_info_list := _axis_info_list c; _retries_nr := _retries_nr c;
     _last_id := _last_id c; _motor_axis := _motor_axis c;
     _motor_spu := _motor_spu c; _is_tgtenc := _is_tgtenc c;
     _ecam_source_dict := d; _ecam_source := _ecam_source c |}.

Definition set_ecam_source (src : string) (c : controller) : controller :=
  {| IcepapCtrlAlias := IcepapCtrlAlias c; Timeout := Timeout c;
     _time_mode := _time_mode c; _start_trigger_only := _start_trigger_only c;
     _axis_info_list := _axis_info_list c; _retries_nr := _retries_nr c;
     _last_id := _last_id c; _motor_axis := _motor_axis c;
     _motor_spu := _motor_spu c; _is_tgtenc := _is_tgtenc c;
     _ecam_source_dict := _ecam_source_dict c; _ecam_source := src |}.

Fixpoint dict_get (k : Z) (d : list (Z * string)) : option string :=
  match d with
  | [] => None
  | (k', v) :: r => if Z.eqb k k' then Some v else dict_get k r
  end.

Fixpoint dict_set (k : Z) (v : string) (d : list (Z * string)) : list (Z * string) :=
  match d with
  | [] => [(k, v)]
  | (k', v') :: r => if Z.eqb k k' then (k, v) :: r else (k', v') :: dict_set k v r
  end.

(** [self._ecam_source_dict and self._motor_axis in self._ecam_source_dict],
    with the entry found *)
Definition ecam_entry (c : controller) : option (Z * string) :=
  match _ecam_source_dict c, _motor_axis c with
  | Some d, Some a => option_map (pair a) (dict_get a d)
  | _, _ => None
  end.

(** *** [__init__]

    The retry count, lines 115-120.  [int] of the int [1] is [1]. *)
Definition init_retries_nr (timeout : F) : M Z :=
  three <- py_float 3 ;;
  q <- py_floordiv three (f_add timeout f_tenth) ;;
  (if f_eqb q f_zero then ret 1 else py_int q).

(** [EcamSource] is given as the dict its text evaluates to, [None] for
    the empty text. *)
Definition init (AxisInfos alias : string) (timeout : F)
    (EcamSource : option (list (Z * string))) : M unit :=
  log_msg Debug "IcePAPTriggerCtr init...." ;;;
  retries <- init_retries_nr timeout ;;
  one <- py_float 1 ;;
  set_self (fun _ =>
    {| IcepapCtrlAlias := alias;
       Timeout := timeout;
       _time_mode := false;
       _start_trigger_only := false;
       _axis_info_list := map Py.str_strip (Py.split_on "," AxisInfos);
       _retries_nr := retries;
       _last_id := None;
       _motor_axis := None;
       _motor_spu := one;
       _is_tgtenc := false;
       _ecam_source_dict := EcamSource;
       _ecam_source := "AXIS" |}).

(** *** [_set_out] *)

Fixpoint set_infos (axis : option Z) (infos : list string) (value : list string)
    : M unit :=
  match infos with
  | [] => ret tt
  | info_out :: r =>
      expect_done (SetAttr axis info_out value) ;;; set_infos axis r value
  end.

Definition _set_out (out : string) (axis : Z) : M unit :=
  s <- self ;;
  let motor := _motor_axis s in
  ipap_axis motor ;;;
  let value := [out; "normal"%string] in
  if axis =? 0 then
    expect_done (SetAttr motor "syncaux" value) ;;;
    match ecam_entry s with
    | Some (a, configured) =>
        let enc := Py.upper configured in
        enc <- (if String.eqb enc "TGTENC" then
                  e <- expect_text (GetCfg motor "TGTENC") ;;
                  set_self (fun c =>
                    set_ecam_source_dict
                      (option_map (dict_set a e) (_ecam_source_dict c)) c) ;;;
                  ret e
                else ret enc) ;;
        if Py.str_in enc ECAM_SOURCE_VALUES then
          s' <- self ;;
          match ecam_entry s' with
          | Some (_, src) => set_self (set_ecam_source src)
          | None => raise Py.KeyError
          end
        else
          log_msg Error "Ecam source {} not supported, AXIS will be used" ;;;
          set_self (set_ecam_source "AXIS")
    | None => set_self (set_ecam_source "AXIS")
    end
  else set_infos motor (_axis_info_list s) value.

(** *** [_configureMotor] *)

Fixpoint clear_e0 (pmux : list string) : M unit :=
  match pmux with
  | [] => ret tt
  | p :: r =>
      if Py.contains "E0" p then expect_done (ClearPmux "e0")
      else clear_e0 r
  end.

Definition _configureMotor (id_ : Z) (axis : Z) : M unit :=
  s <- self ;;
  expect_done (OpenDevice (IcepapCtrlAlias s) id_) ;;;
  set_self (set_motor_axis (Some id_)) ;;;
  spu <- expect_number (ReadAttribute (IcepapCtrlAlias s) id_ "step_per_unit") ;;
  set_self (set_motor_spu spu) ;;;
  s <- self ;;
  if match _last_id s with Some l => id_ =? l | None => false end then ret tt
  else
    set_self (set_last_id (Some id_)) ;;;
    if axis =? 0 then
      pmux <- expect_lines GetPmux ;;
      clear_e0 pmux ;;;
      s <- self ;;
      expect_done (AddPmux (_motor_axis s) "e0" false true true) ;;;
      pmux <- expect_lines GetPmux ;;
      log_msg Debug "_connectMotor PMUX={0}"
    else ret tt.

(** *** [StateOne] *)

(** The loop of lines 207-212: [attempts] iterations are left, [i] is the
    loop index.  The result is [hw_state]. *)
Fixpoint StateOne_read (attempts : nat) (i : Z) : M (option hw_state) :=
  match attempts with
  | O => ret None
  | S k =>
      r <- try_except
             (s <- self ;;
              ipap_axis (_motor_axis s) ;;;
              st <- expect_status (ReadState (_motor_axis s)) ;;
              ret (Some st))
             (fun _ =>
                log_msg Error "State reading error retry: {0}" ;;; ret None) ;;
      match r with
      | Some st => ret (Some st)
      | None => StateOne_read k (i + 1)
      end
  end.

Definition StateOne (axis : Z) : M (State * string) :=
  s <- self ;;
  match _motor_axis s with
  | None => ret (On, "No synchronization in progress"%string)
  | Some _ =>
      hw_state <- StateOne_read (Z.to_nat (_retries_nr s)) 0 ;;
      match hw_state with
      | None =>
          ret (Alarm, "The motor is power off or not possible to read State"%string)
      | Some st =>
          if negb (is_poweron st) then
            ret (Alarm, "The motor is power off or not possible to read State"%string)
          else if (is_moving st || is_settling st)%bool then
            ret (Moving, "Moving"%string)
          else ret (On, "Motor is not generating triggers."%string)
      end
  end.

(** *** [PreStartOne], [StartOne], [AbortOne] *)

Definition PreStartOne (axis : Z) : M bool :=
  s <- self ;;
  (if _time_mode s then _set_out LOW axis else _set_out ECAM axis) ;;;
  ret true.

Definition StartOne (axis : Z) : M unit :=
  s <- self ;;
  if _time_mode s then
    _set_out HIGH axis ;;;
    (* time.sleep(0.01) *)
    _set_out LOW axis
  else if _is_tgtenc s then
    ipap_axis (_motor_axis s) ;;;
    name <- expect_text (ReadName (_motor_axis s)) ;;
    log_msg Info "Send ESYNC to motor: %s" ;;;
    ipap_axis (_motor_axis s) ;;;
    expect_done (Esync (_motor_axis s))
  else ret tt.

Definition AbortOne (axis : Z) : M unit :=
  log_msg Debug "AbortOne(%d): entering..." ;;;
  _set_out LOW axis.

Definition setStartTriggerOnly (axis : Z) (value : bool) : M unit :=
  set_self (set_start_trigger_only value).

Definition getStartTriggerOnly (axis : Z) : M bool :=
  s <- self ;; ret (_start_trigger_only s).

Definition SetAxisPar (axis : Z) (par : string) (value : Z) : M unit :=
  if ((axis =? 0) && String.eqb par "active_input")%bool
  then _configureMotor value axis
  else raise (Py.ValueError "unsupported axis par {} for axis {}").

(** *** [SynchOne] *)

(** The errors [SynchOne] raises itself, under the names the
    specification gives them. *)
Definition UnsupportedMultiplePulses : Py.exn :=
  Py.ValueError
    ("The IcePAP Trigger Controller is not allowed to " ++
     "generate multiple trigger synchronized by time").
Definition TableTooLarge : Py.exn :=
  Py.RuntimeError
    ("The Trigger by position not accept more than " ++
     Py.str_of_int MAX_ECAM_VALUES ++ " positions (points)").
Definition TableLoadFailed : Py.exn :=
  Py.RuntimeError "Can not send trigger table.".

(** [d[key]] on a dict *)
Definition item {A} (v : option A) : M A :=
  match v with Some a => ret a | None => raise Py.KeyError end.

(** Lines 290-302: the registers holding the resolution of the source. *)
Definition resolution_keys (enc : string) : string * string :=
  if String.eqb enc "ENCIN" then ("EINNSTEP", "EINNTURN")%string
  else if String.eqb enc "ABSENC" then ("ABSNSTEP", "ABSNTURN")%string
  else if String.eqb enc "INPOS" then ("INPNSTEP", "INPNTURN")%string
  else ("ANSTEP", "ANTURN")%string.

(** Lines 279-313: [start], [delta] and [end] in the units of the
    selected source.  The debug line formats [delta] with [%d]. *)
Definition SynchOne_bounds (synch_group : synch_group F) (nr_points : Z)
    : M (F * F * F) :=
  initial <- item (Initial synch_group) ;;
  start_user <- item (Position initial) ;;
  total <- item (Total synch_group) ;;
  delta_user <- item (Position total) ;;
  s <- self ;;
  let start := f_mul start_user (_motor_spu s) in
  let delta := f_mul delta_user (_motor_spu s) in
  n <- py_float nr_points ;;
  let end_ := f_add start (f_mul delta n) in
  let motor := _motor_axis s in
  ipap_axis motor ;;;
  let enc := Py.upper (_ecam_source s) in
  '(start, delta, end_) <-
    (if negb (String.eqb enc "AXIS") then
       let '(cfgstep, cfgturn) := resolution_keys enc in
       estep <- get_cfg_int motor cfgstep ;;
       eturn <- get_cfg_int motor cfgturn ;;
       enc_resol <- py_int_truediv estep eturn ;;
       astep <- get_cfg_int motor "ANSTEP" ;;
       aturn <- get_cfg_int motor "ANTURN" ;;
       motor_resol <- py_int_truediv astep aturn ;;
       start' <- py_truediv start motor_resol ;;
       delta' <- py_truediv delta motor_resol ;;
       end' <- py_truediv end_ motor_resol ;;
       ret (f_mul start' enc_resol, f_mul delta' enc_resol, f_mul end' enc_resol)
     else ret (start, delta, end_)) ;;
  py_int delta ;;;
  log_msg Debug "IcepapTriggerCtr configuration: %f %f %d %d" ;;;
  ret (start, delta, end_).

(** [numpy.linspace] refuses a negative number of samples. *)
Definition np_linspace (start stop : F) (num : Z) : M (list F) :=
  if num <? 0
  then raise (Py.ValueError "Number of samples, %s, must be non-negative.")
  else ret (linspace start stop num).

(** Lines 323-334 *)
Definition SynchOne_table (start delta end_ : F) (nr_points : Z) : M (list F) :=
  s <- self ;;
  if _start_trigger_only s then
    log_msg Debug "Start trigger only flag is active." ;;;
    ret [start]
  else if MAX_ECAM_VALUES <? nr_points then raise TableTooLarge
  else
    trigger_table <- np_linspace start (f_sub end_ delta) nr_points ;;
    log_msg Debug "Table generated by numpy.linspace({0},{1},{2})" ;;;
    ret trigger_table.

(** The loop of lines 337-345; the result is [table_loaded]. *)
Fixpoint SynchOne_load (attempts : nat) (i : Z) (trigger_table : list F) : M bool :=
  match attempts with
  | O => ret false
  | S k =>
      loaded <- try_except
                  (s <- self ;;
                   ipap_axis (_motor_axis s) ;;;
                   expect_done
                     (SetEcamTable (_motor_axis s) trigger_table (_ecam_source s)) ;;;
                   ret true)
                  (fun _ =>
                     log_msg Warning "Send trigger table error retry: {0}" ;;;
                     ret false) ;;
      if (loaded : bool) then ret true else SynchOne_load k (i + 1) trigger_table
  end.

(** The result is [None] for a plain return and [Some false] for
    [return False]. *)
Definition SynchOne (axis : Z) (configuration : list (synch_group F))
    : M (option bool) :=
  match configuration with
  | [] => raise Py.IndexError
  | synch_group :: _ =>
      nr_points <- item (Repeats synch_group) ;;
      match Initial synch_group with
      | None =>
          if 1 <? nr_points then raise UnsupportedMultiplePulses
          else set_self (set_time_mode true) ;;; ret None
      | Some _ =>
          set_self (set_time_mode false) ;;;
          read <- try_except
                    (s <- self ;;
                     tgtenc_cfg <- get_cfg (_motor_axis s) "TGTENC" ;;
                     set_self (set_is_tgtenc (String.eqb tgtenc_cfg "NONE")) ;;;
                     ret true)
                    (fun _ =>
                       log_msg Error "SynchOne(%d).\nException:\n%s" ;;;
                       ret false) ;;
          if negb read then ret (Some false)
          else
            '(start, delta, end_) <- SynchOne_bounds synch_group nr_points ;;
            trigger_table <- SynchOne_table start delta end_ nr_points ;;
            s <- self ;;
            table_loaded <-
              SynchOne_load (Z.to_nat (_retries_nr s)) 0 trigger_table ;;
            if (table_loaded : bool) then ret None else raise TableLoadFailed
      end
  end.

End Controller.

Arguments Ret {A} a.
Arguments Raise {A} e.

Notation "x <- m ;; k" := (bind m (fun x => k))
  (at level 61, m at next level, right associativity).
Notation "m ;;; k" := (bind m (fun _ => k))
  (at level 61, right associativity).

(* ================================================================== *)
(** ** Observations on a run *)

Section Observations.

Context {F : Type} {PF : PyFloat F}.

(** The calls a run added to the trace. *)
Definition calls_since (before after : @world F) : list (@call F) :=
  skipn (List.length (trace before)) (trace after).

Definition is_pmux_call (c : @call F) : bool :=
  match c with
  | GetPmux | ClearPmux _ | AddPmux _ _ _ _ _ => true
  | _ => false
  end.

(** The tables handed to [set_ecam_table], oldest first. *)
Fixpoint loaded_tables (calls : list (@call F)) : list (list F) :=
  match calls with
  | [] => []
  | SetEcamTable _ table _ :: r => table :: loaded_tables r
  | _ :: r => loaded_tables r
  end.

Definition is_cfg_read (c : @call F) : bool :=
  match c with
  | GetCfg _ _ => true
  | _ => false
  end.

Definition alarm_status : State * string :=
  (Alarm, "The motor is power off or not possible to read State"%string).


(** A computation that leaves the controller as it is and sends
    configuration reads only. *)
Definition reads_cfg_only {A} (m : @M F A) : Prop :=
  forall hw w,
    ctl (snd (m hw w)) = ctl w /\
    exists l, trace (snd (m hw w)) = trace w ++ l /\
              forallb is_cfg_read l = true.

(** The world [SynchOne] is in once the target encoder has been read
    as [t]. *)
Definition after_tgtenc (w : @world F) (t : string) : @world F :=
  {| ctl := set_is_tgtenc (String.eqb t "NONE") (set_time_mode false (ctl w));
     trace := trace w ++ [GetCfg (_motor_axis (ctl w)) "TGTENC"];
     log := log w |}.

(** The world after the table has been built from the world [w2] the
    bounds were computed in, and the call that loads [table]. *)
Definition table_built (w2 : @world F) : @world F :=
  {| ctl := ctl w2;
     trace := trace w2;
     log := log w2 ++ [(Debug, "Table generated by numpy.linspace({0},{1},{2})"%string)] |}.

Definition load_call (w : @world F) (table : list F) : @call F :=
  SetEcamTable (_motor_axis (ctl w)) table (_ecam_source (ctl w)).

(** What [SynchOne] does once the target encoder has been read. *)
Definition SynchOne_rest (g : synch_group F) (n : Z) : @M F (option bool) :=
  b <- SynchOne_bounds g n ;;
  let '(start, delta, end_) := b in
  trigger_table <- SynchOne_table start delta end_ n ;;
  s <- self ;;
  table_loaded <- SynchOne_load (Z.to_nat (_retries_nr s)) 0 trigger_table ;;
  if (table_loaded : bool) then ret None else raise TableLoadFailed.

(** A status read on [axis] that does not deliver a state. *)
Definition read_fails (hw : @link F) (history : list call) (axis : option Z) : Prop :=
  has_axis hw axis = false \/
  forall st, answer hw history (ReadState axis) <> Status st.

End Observations.

(* ================================================================== *)
(** ** Links and specifications used as examples *)

Module Examples.

Definition position_spec {F} (start step : F) (n : Z) : synch_group F :=
  {| Repeats := Some n;
     Initial := Some {| Position := Some start; Time := None |};
     Total := Some {| Position := Some step; Time := None |} |}.

Definition time_spec {F} (n : Z) : synch_group F :=
  {| Repeats := Some n;
     Initial := None;
     Total := Some {| Position := None; Time := None |} |}.

Definition bound_axes (a : option Z) : bool :=
  match a with Some _ => true | None => false end.

(** An IcePAP that accepts every write, whose external encoder has
    10000 steps per turn and whose axis has 8000. *)
Definition healthy : @link B64.float :=
  {| answer := fun _ c =>
       match c with
       | GetCfg _ "TGTENC" => Text "ENCIN"
       | GetCfg _ "EINNSTEP" => Text "10000"
       | GetCfg _ "EINNTURN" => Text "1"
       | GetCfg _ "ANSTEP" => Text "8000"
       | GetCfg _ "ANTURN" => Text "1"
       | GetCfg _ _ => Failed
       | ReadState _ =>
           Status {| is_poweron := true; is_moving := false; is_settling := false |}
       | ReadName _ => Text "mot01"
       | GetPmux => Lines []
       | ReadAttribute _ _ _ => Number (B64.of_Z 100)
       | _ => Done
       end;
     has_axis := bound_axes |}.

(** An IcePAP that answers no call. *)
Definition dead : @link B64.float :=
  {| answer := fun _ _ => Failed; has_axis := bound_axes |}.

(** A freshly built controller with the default properties, and the same
    one with motor 1 bound. *)
Definition fresh : @controller B64.float :=
  {| IcepapCtrlAlias := "ipap"; Timeout := S754_finite false 1 (-1);
     _time_mode := false; _start_trigger_only := false;
     _axis_info_list := ["InfoA"%string]; _retries_nr := 5; _last_id := None;
     _motor_axis := None; _motor_spu := B64.of_Z 1; _is_tgtenc := false;
     _ecam_source_dict := None; _ecam_source := "AXIS" |}.

Definition bound : @controller B64.float :=
  set_last_id (Some 1) (set_motor_axis (Some 1) fresh).

Definition world_of {F} (c : @controller F) : @world F :=
  {| ctl := c; trace := []; log := [] |}.

(** The same IcePAP refusing every attribute write. *)
Definition refusing_writes : @link B64.float :=
  {| answer := fun h c =>
       match c with
       | SetAttr _ _ _ => Failed
       | _ => answer healthy h c
       end;
     has_axis := bound_axes |}.

(** Motor 1 bound with 100 steps per unit, the external encoder
    selected. *)
Definition on_encoder : @controller B64.float :=
  set_ecam_source "ENCIN" (set_motor_spu (B64.of_Z 100) bound).

(** Motor 1 bound, only the first trigger asked for. *)
Definition first_trigger_only : @controller B64.float :=
  set_start_trigger_only true bound.

(** The healthy IcePAP and the encoder-bound controller again, run on
    exact rationals. *)
Definition exact_healthy : @link Q :=
  {| answer := fun _ c =>
       match c with
       | GetCfg _ "TGTENC" => Text "ENCIN"
       | GetCfg _ "EINNSTEP" => Text "10000"
       | GetCfg _ "EINNTURN" => Text "1"
       | GetCfg _ "ANSTEP" => Text "8000"
       | GetCfg _ "ANTURN" => Text "1"
       | GetCfg _ _ => Failed
       | _ => Done
       end;
     has_axis := bound_axes |}.

Definition exact_on_encoder : @controller Q :=
  {| IcepapCtrlAlias := "ipap"; Timeout := (1 # 2)%Q;
     _time_mode := false; _start_trigger_only := false;
     _axis_info_list := ["InfoA"%string]; _retries_nr := 5; _last_id := Some 1;
     _motor_axis := Some 1; _motor_spu := inject_Z 100; _is_tgtenc := false;
     _ecam_source_dict := None; _ecam_source := "ENCIN" |}.

(** Positions and steps given as integers. *)
Definition spec_of_ints (start step n : Z) : synch_group B64.float :=
  position_spec (B64.of_Z start) (B64.of_Z step) n.

End Examples.

(* ================================================================== *)
(** ** Further observations and examples *)

Section Frames.

Context {F : Type} {PF : PyFloat F}.

(** A property of the controller fields that a computation keeps,
    whatever the link answers and whether it returns or raises. *)
Definition keeps {A} (P : @controller F -> Prop) (m : @M F A) : Prop :=
  forall hw w, P (ctl w) -> P (ctl (snd (m hw w))).

(** The fields of [c'] are those of [c], the synchronization mode
    ([_time_mode], [_is_tgtenc]) apart. *)
Definition same_but_mode (c c' : @controller F) : Prop :=
  IcepapCtrlAlias c' = IcepapCtrlAlias c /\
  Timeout c' = Timeout c /\
  _start_trigger_only c' = _start_trigger_only c /\
  _axis_info_list c' = _axis_info_list c /\
  _retries_nr c' = _retries_nr c /\
  _last_id c' = _last_id c /\
  _motor_axis c' = _motor_axis c /\
  _motor_spu c' = _motor_spu c /\
  _ecam_source_dict c' = _ecam_source_dict c /\
  _ecam_source c' = _ecam_source c.

(** The fields of [c'] are those of [c], the selected source
    ([_ecam_source], [_ecam_source_dict]) apart. *)
Definition same_but_source (c c' : @controller F) : Prop :=
  IcepapCtrlAlias c' = IcepapCtrlAlias c /\
  Timeout c' = Timeout c /\
  _time_mode c' = _time_mode c /\
  _start_trigger_only c' = _start_trigger_only c /\
  _axis_info_list c' = _axis_info_list c /\
  _retries_nr c' = _retries_nr c /\
  _last_id c' = _last_id c /\
  _motor_axis c' = _motor_axis c /\
  _motor_spu c' = _motor_spu c /\
  _is_tgtenc c' = _is_tgtenc c.

(** The fields [__init__] derives from the properties are those of
    [c]. *)
Definition same_config (c c' : @controller F) : Prop :=
  IcepapCtrlAlias c' = IcepapCtrlAlias c /\
  Timeout c' = Timeout c /\
  _axis_info_list c' = _axis_info_list c /\
  _retries_nr c' = _retries_nr c.

(** The selected source is one [SynchOne] has registers for. *)
Definition source_ok (c : @controller F) : Prop :=
  Py.str_in (Py.upper (_ecam_source c)) ("AXIS"%string :: ECAM_SOURCE_VALUES) = true.

Definition is_state_read (c : @call F) : bool :=
  match c with
  | ReadState _ => true
  | _ => false
  end.

Definition is_table_load (c : @call F) : bool :=
  match c with
  | SetEcamTable _ _ _ => true
  | _ => false
  end.

(** The state [StateOne] derives from a state it could read. *)
Definition state_of (st : hw_state) : State :=
  if negb (is_poweron st) then Alarm
  else if (is_moving st || is_settling st)%bool then Moving
  else On.

(** What the loading loop logs for a refused load. *)
Definition retry_warning : level * string :=
  (Warning, "Send trigger table error retry: {0}"%string).

(** The write of an output level on the trigger line. *)
Definition level_write (c : @controller F) (out : string) : @call F :=
  SetAttr (_motor_axis c) "syncaux" [out; "normal"%string].

End Frames.

Module Cases.

(** The healthy IcePAP, refusing the first [k] table loads. *)
Definition loads_from (k : nat) : @link B64.float :=
  {| answer := fun h c =>
       match c with
       | SetEcamTable _ _ _ =>
           if (List.length (filter is_table_load h) <? k)%nat then Failed else Done
       | _ => answer Examples.healthy h c
       end;
     has_axis := Examples.bound_axes |}.

(** The healthy IcePAP, failing the first [k] state reads, then reporting
    [st]. *)
Definition reads_from (k : nat) (st : hw_state) : @link B64.float :=
  {| answer := fun h c =>
       match c with
       | ReadState _ =>
           if (List.length (filter is_state_read h) <? k)%nat then Failed
           else Status st
       | _ => answer Examples.healthy h c
       end;
     has_axis := Examples.bound_axes |}.

Definition moving : hw_state :=
  {| is_poweron := true; is_moving := true; is_settling := false |}.

(** The healthy IcePAP with no target encoder. *)
Definition no_target_encoder : @link B64.float :=
  {| answer := fun h c =>
       match c with
       | GetCfg _ "TGTENC" => Text "NONE"
       | _ => answer Examples.healthy h c
       end;
     has_axis := Examples.bound_axes |}.

(** Motor 1 bound, with [name] configured as its source. *)
Definition configured (name : string) : @controller B64.float :=
  set_ecam_source_dict (Some [(1, name)]) Examples.bound.

(** Motor 1 bound, the controller in time mode. *)
Definition timed : @controller B64.float := set_time_mode true Examples.bound.

(** A position-driven group with a start and no step. *)
Definition no_step : synch_group B64.float :=
  {| Repeats := Some 3;
     Initial := Some {| Position := Some (B64.of_Z 0); Time := None |};
     Total := None |}.


End Cases.

(* ================================================================== *)
(** *** The retry count as the specification states it

    [max(1, floor(3 / (timeout + 0.1)))], the sum and the quotient being
    those of binary64 and the floor that of the float quotient. *)
Definition spec_retries_nr (timeout : B64.float) : Z :=
  Z.max 1 (Qfloor (B64.to_Q (B64.div (B64.of_Z 3) (B64.add timeout B64.tenth)))).

(** *** Numbers binary64 holds exactly

    [dyadic k p] is the float nearest to [k * 2^p]; for [k] below 2^53 in
    size and [p] on the [grid] it is that number itself, written
    [scaled s |k| p]: a mantissa of 53 bits, and the exponent the number of
    bits of [k] asks for.  Whole numbers are the case [p = 0]. *)
Definition scaled (s : bool) (k p : Z) : B64.float :=
  S754_finite s (Z.to_pos (k * 2 ^ (53 - Zdigits2 k))) (Zdigits2 k - 53 + p).

Definition dyadic (k p : Z) : B64.float :=
  binary_normalize B64.prec B64.emax k p false.

Definition grid (p : Z) : Prop := -1021 <= p <= 971.


(** ** Properties *)

Unset Implicit Arguments.

(** Runs the monadic plumbing of a goal and projects the fields. *)
Ltac run_prims :=
  cbv beta iota delta
    [bind self set_self ret raise log_msg send ipap_axis try_except item
     expect_done expect_text expect_lines expect_status expect_number
     get_cfg get_cfg_int].
Ltac run_fields :=
  cbn [ctl trace log fst snd
       IcepapCtrlAlias Timeout _time_mode _start_trigger_only _axis_info_list
       _retries_nr _last_id _motor_axis _motor_spu _is_tgtenc
       _ecam_source_dict _ecam_source
       set_time_mode set_start_trigger_only set_last_id set_motor_axis
       set_motor_spu set_is_tgtenc set_ecam_source_dict set_ecam_source].
Ltac run := run_prims; run_fields.

Section Generic.

Context {F : Type} {PF : PyFloat F}.

(** C5. A time-driven group (no [Initial] entry) with more than one
    repeat makes [SynchOne] raise the multiple-pulses [ValueError]; the
    world is the one it started from: no call was sent, no field
    changed, nothing was logged. *)
Theorem SynchOne_time_multiple_pulses :
  forall (hw : @link F) (w : world) (axis : Z)
         (g : synch_group F) (rest : list (synch_group F)) (n : Z),
    Repeats g = Some n ->
    Initial g = None ->
    1 < n ->
    SynchOne axis (g :: rest) hw w = (Raise UnsupportedMultiplePulses, w).
Proof.
  intros hw w axis g rest n Hn Hi Hlt.
  unfold SynchOne. rewrite Hn, Hi.
  apply Z.ltb_lt in Hlt.
  cbv [bind item ret raise]. rewrite Hlt. reflexivity.
Qed.

(** C10. With no motor bound ([_motor_axis] is [None]) [StateOne] answers
    [On] with the message "No synchronization in progress" and leaves the
    world as it was: no read was sent. *)
Theorem StateOne_unbound :
  forall (hw : @link F) (w : world) (axis : Z),
    _motor_axis (ctl w) = None ->
    StateOne axis hw w = (Ret (On, "No synchronization in progress"%string), w).
Proof.
  intros hw w axis H.
  unfold StateOne. cbv [bind self]. rewrite H. reflexivity.
Qed.

End Generic.

(** A witness for C5: three pulses by time on a healthy link. *)
Lemma SynchOne_time_multiple_pulses_witness :
  SynchOne 0 [Examples.time_spec 3] Examples.healthy (Examples.world_of Examples.bound)
  = (Raise UnsupportedMultiplePulses, Examples.world_of Examples.bound).
Proof.
  apply (SynchOne_time_multiple_pulses Examples.healthy (Examples.world_of Examples.bound)
           0 (Examples.time_spec 3) [] 3); reflexivity.
Defined.

(** A witness for C10: the fresh controller. *)
Lemma StateOne_unbound_witness :
  StateOne 0 Examples.healthy (Examples.world_of Examples.fresh)
  = (Ret (On, "No synchronization in progress"%string), Examples.world_of Examples.fresh).
Proof.
  apply (StateOne_unbound Examples.healthy (Examples.world_of Examples.fresh) 0).
  reflexivity.
Defined.

Section StatusRetry.

Context {F : Type} {PF : PyFloat F}.

Lemma StateOne_read_exhausted :
  forall (hw : @link F) (attempts : nat) (i : Z) (w : world),
    (forall k, (k < attempts)%nat ->
       read_fails hw (trace w ++ repeat (ReadState (_motor_axis (ctl w))) k)
                  (_motor_axis (ctl w))) ->
    exists w',
      StateOne_read attempts i hw w = (Ret None, w') /\ ctl w' = ctl w.
Proof.
  intros hw attempts. induction attempts as [|n IH]; intros i w Hfail.
  - exists w. split; reflexivity.
  - cbn [StateOne_read].
    pose proof (Hfail O (Nat.lt_0_succ n)) as H0.
    cbn [repeat] in H0. rewrite app_nil_r in H0.
    unfold bind at 1. unfold try_except.
    cbv [bind self ipap_axis expect_status send ret raise log_msg].
    destruct (has_axis hw (_motor_axis (ctl w))) eqn:Hax.
    + destruct H0 as [H0 | H0]; [congruence |].
      cbn [ctl trace log].
      destruct (answer hw (trace w) (ReadState (_motor_axis (ctl w)))) eqn:Hans;
        try (specialize (H0 st); congruence).
      all: match goal with
           | |- exists _, StateOne_read _ ?j _ ?w1 = _ /\ _ =>
               destruct (IH j w1) as [w' [E1 E2]];
               [ | exists w'; split; [exact E1 | exact E2] ]
           end.
      all: cbn [ctl trace log]; intros k Hk;
        rewrite <- app_assoc; apply (Hfail (S k)); lia.
    + match goal with
      | |- exists _, StateOne_read _ ?j _ ?w1 = _ /\ _ =>
          destruct (IH j w1) as [w' [E1 E2]];
          [ | exists w'; split; [exact E1 | exact E2] ]
      end.
      cbn [ctl trace log]. intros k Hk. left. exact Hax.
Qed.

(** C7. A motor is bound and none of the [_retries_nr] attempts to read
    the hardware state succeeds (attempt [k] is made after [k] failed
    reads): [StateOne] answers [Alarm], neither [Moving] nor [On]. *)
Theorem StateOne_unreadable_is_alarm :
  forall (hw : @link F) (w : world) (axis a : Z),
    _motor_axis (ctl w) = Some a ->
    (forall k, (k < Z.to_nat (_retries_nr (ctl w)))%nat ->
       read_fails hw (trace w ++ repeat (ReadState (Some a)) k) (Some a)) ->
    fst (StateOne axis hw w) = Ret alarm_status.
Proof.
  intros hw w axis a Ha Hfail.
  unfold StateOne. unfold bind at 1. unfold self at 1. rewrite Ha.
  destruct (StateOne_read_exhausted hw (Z.to_nat (_retries_nr (ctl w))) 0 w)
    as [w' [E _]].
  { rewrite Ha. exact Hfail. }
  unfold bind. rewrite E. reflexivity.
Qed.

End StatusRetry.

(** A witness for C7: a bound motor on a link that answers nothing. *)
Lemma StateOne_unreadable_is_alarm_witness :
  fst (StateOne 0 Examples.dead (Examples.world_of Examples.bound)) = Ret alarm_status.
Proof.
  apply (StateOne_unreadable_is_alarm Examples.dead
           (Examples.world_of Examples.bound) 0 1).
  - reflexivity.
  - intros k _. right. intros st. cbn. discriminate.
Defined.

Section Rebinding.

Context {F : Type} {PF : PyFloat F}.

Lemma calls_since_app :
  forall (w w' : @world F) (l : list call),
    trace w' = trace w ++ l -> calls_since w w' = l.
Proof.
  intros w w' l H. unfold calls_since. rewrite H.
  rewrite skipn_app, skipn_all, Nat.sub_diag. reflexivity.
Qed.

Lemma clear_e0_ctl :
  forall (pmux : list string) (hw : @link F) (w : world),
    ctl (snd (clear_e0 pmux hw w)) = ctl w.
Proof.
  induction pmux as [|p r IH]; intros hw w; cbn [clear_e0].
  - reflexivity.
  - destruct (Py.contains "E0" p).
    + run. destruct (answer hw (trace w) (ClearPmux "e0")); reflexivity.
    + apply IH.
Qed.

(** The part of [_configureMotor] after the id has been recorded. *)
Lemma _configureMotor_pmux_ctl :
  forall (hw : @link F) (w w1 : world) (axis : Z) (o : outcome unit),
    (if axis =? 0 then
       pmux <- expect_lines GetPmux ;;
       clear_e0 pmux ;;;
       s <- self ;;
       expect_done (AddPmux (_motor_axis s) "e0" false true true) ;;;
       pmux <- expect_lines GetPmux ;;
       log_msg Debug "_connectMotor PMUX={0}"
     else ret tt) hw w = (o, w1) ->
    ctl w1 = ctl w.
Proof.
  intros hw w w1 axis o.
  destruct (axis =? 0); run.
  2: { intros H; inversion H; reflexivity. }
  destruct (answer hw (trace w) GetPmux);
    try (intros H; inversion H; reflexivity).
  match goal with
  | |- context [clear_e0 ?l ?h ?w0] =>
      pose proof (clear_e0_ctl l h w0) as Hc;
      destruct (clear_e0 l h w0) as [[[]|] wc]
  end; cbn [snd ctl] in Hc.
  2: { intros H; inversion H; subst; exact Hc. }
  destruct (answer hw _ (AddPmux _ _ _ _ _)); run;
    try (intros H; inversion H; subst; exact Hc).
  destruct (answer hw _ GetPmux); run;
    intros H; inversion H; subst; exact Hc.
Qed.

(** Binding records the motor id once the device proxy has answered. *)
Lemma _configureMotor_records_id :
  forall (hw : @link F) (w w1 : world) (id_ axis : Z),
    _configureMotor id_ axis hw w = (Ret tt, w1) ->
    _last_id (ctl w1) = Some id_.
Proof.
  intros hw w w1 id_ axis.
  unfold _configureMotor.
  run.
  destruct (answer hw (trace w) (OpenDevice (IcepapCtrlAlias (ctl w)) id_));
    run; try discriminate.
  destruct (answer hw _ (ReadAttribute _ _ _)); run; try discriminate.
  destruct (_last_id (ctl w)) as [l|] eqn:Hl.
  - destruct (id_ =? l) eqn:E.
    + intros H. inversion H; subst. run. rewrite Hl.
      apply Z.eqb_eq in E. congruence.
    + match goal with
      | |- ?m ?h ?w0 = _ -> _ =>
          intros H;
          pose proof (_configureMotor_pmux_ctl h w0 w1 axis (Ret tt)) as Hc
      end.
      rewrite Hc; [reflexivity | run; exact H].
  - match goal with
    | |- ?m ?h ?w0 = _ -> _ =>
        intros H;
        pose proof (_configureMotor_pmux_ctl h w0 w1 axis (Ret tt)) as Hc
    end.
    rewrite Hc; [reflexivity | run; exact H].
Qed.

(** With the id already recorded, binding talks to the device proxy
    only. *)
Lemma _configureMotor_known_id :
  forall (hw : @link F) (w : world) (id_ axis : Z),
    _last_id (ctl w) = Some id_ ->
    forallb (fun c => negb (is_pmux_call c))
            (calls_since w (snd (_configureMotor id_ axis hw w))) = true.
Proof.
  intros hw w id_ axis Hl.
  unfold _configureMotor. run.
  destruct (answer hw (trace w) (OpenDevice (IcepapCtrlAlias (ctl w)) id_));
    run;
    try (erewrite calls_since_app by (cbn [trace]; reflexivity);
         reflexivity).
  destruct (answer hw _ (ReadAttribute _ _ _)); run;
    try (erewrite calls_since_app
           by (cbn [trace]; rewrite <- app_assoc; reflexivity);
         reflexivity).
  rewrite Hl, Z.eqb_refl. run.
  erewrite calls_since_app
    by (cbn [trace]; rewrite <- app_assoc; reflexivity).
  reflexivity.
Qed.

(** C8. When a first binding of motor [id_] has gone through, binding the
    same id again (on any axis argument, whatever the link answers) sends
    no multiplexer call: no [get_pmux], no [clear_pmux], no [add_pmux]. *)
Theorem configureMotor_twice_no_pmux :
  forall (hw hw' : @link F) (w w1 : world) (id_ axis axis' : Z),
    _configureMotor id_ axis hw w = (Ret tt, w1) ->
    forallb (fun c => negb (is_pmux_call c))
            (calls_since w1 (snd (_configureMotor id_ axis' hw' w1))) = true.
Proof.
  intros hw hw' w w1 id_ axis axis' H.
  apply _configureMotor_known_id.
  exact (_configureMotor_records_id hw w w1 id_ axis H).
Qed.

End Rebinding.

(** A witness for C8: motor 1 bound on the fresh controller; the first
    binding itself did reconfigure the multiplexer. *)
Lemma configureMotor_twice_no_pmux_witness :
  let w := Examples.world_of Examples.fresh in
  let w1 := snd (_configureMotor 1 0 Examples.healthy w) in
  existsb is_pmux_call (calls_since w w1) = true /\
  forallb (fun c => negb (is_pmux_call c))
          (calls_since w1 (snd (_configureMotor 1 0 Examples.healthy w1))) = true.
Proof.
  split.
  - reflexivity.
  - apply (configureMotor_twice_no_pmux Examples.healthy Examples.healthy
             (Examples.world_of Examples.fresh) _ 1 0 0).
    reflexivity.
Defined.

(** C2. External encoder with 10000 steps per turn, axis with 8000, 100
    steps per unit, start 0, step 1, three repeats, all triggers asked
    for: [SynchOne] returns normally and the one table it loads, computed
    in binary64, is [0, 125, 250] on source ENCIN. *)
Theorem SynchOne_encoder_scenario :
  let w := Examples.world_of Examples.on_encoder in
  let r := SynchOne 0 [Examples.spec_of_ints 0 1 3] Examples.healthy w in
  fst r = Ret None /\
  filter (fun c => negb (is_cfg_read c)) (trace (snd r))
  = [SetEcamTable (Some 1) (map B64.of_Z [0; 125; 250]) "ENCIN"].
Proof. vm_compute. split; reflexivity. Qed.

(** C9 fails as stated: when the IcePAP refuses the write of the output
    level, [AbortOne] raises the error of the link. *)
Lemma AbortOne_write_failure_raises :
  AbortOne 0 Examples.refusing_writes (Examples.world_of Examples.bound)
  = (Raise Py.LinkError,
     {| ctl := Examples.bound;
        trace := [SetAttr (Some 1) "syncaux" [LOW; "normal"%string]];
        log := [(Debug, "AbortOne(%d): entering..."%string)] |}).
Proof. vm_compute. reflexivity. Qed.

(** C4 fails as stated: with [StartTriggerOnly] set, 20478 repeats are
    accepted; the one-point table is loaded and [SynchOne] returns. *)
Lemma SynchOne_too_many_points_first_trigger_only :
  let w := Examples.world_of Examples.first_trigger_only in
  let r := SynchOne 0 [Examples.spec_of_ints 0 1 20478] Examples.healthy w in
  MAX_ECAM_VALUES < 20478 /\
  fst r = Ret None /\
  loaded_tables (trace (snd r)) = [[B64.of_Z 0]].
Proof. vm_compute. repeat split; reflexivity. Qed.

(** C3 fails as stated: a step of zero with two repeats raises nothing;
    the table [5, 5] is loaded and [SynchOne] returns. *)
Lemma SynchOne_zero_step_is_loaded :
  let w := Examples.world_of Examples.bound in
  let r := SynchOne 0 [Examples.spec_of_ints 5 0 2] Examples.healthy w in
  fst r = Ret None /\
  loaded_tables (trace (snd r)) = [[B64.of_Z 5; B64.of_Z 5]].
Proof. vm_compute. split; reflexivity. Qed.


Section Abort.

Context {F : Type} {PF : PyFloat F}.

(** C9, amended. On line 0 [AbortOne] sends one write of the level
    [low] to [syncaux] and never retries.  When the IcePAP accepts it (no
    feedback source being configured for the motor) [AbortOne] returns;
    when the IcePAP does not, the error of the link leaves [AbortOne]. *)
Theorem AbortOne_single_write :
  forall (hw : @link F) (w : world),
    has_axis hw (_motor_axis (ctl w)) = true ->
    let c := SetAttr (_motor_axis (ctl w)) "syncaux" [LOW; "normal"%string] in
    let entering := (Debug, "AbortOne(%d): entering..."%string) in
    (answer hw (trace w) c = Done ->
     ecam_entry (ctl w) = None ->
     AbortOne 0 hw w
     = (Ret tt, {| ctl := set_ecam_source "AXIS" (ctl w);
                   trace := trace w ++ [c];
                   log := log w ++ [entering] |})) /\
    (answer hw (trace w) c <> Done ->
     AbortOne 0 hw w
     = (Raise Py.LinkError, {| ctl := ctl w;
                               trace := trace w ++ [c];
                               log := log w ++ [entering] |})).
Proof.
  intros hw w Hax c entering. subst c entering.
  unfold AbortOne, _set_out. run. rewrite Hax. cbn [Z.eqb]. run.
  split.
  - intros Hd He. rewrite Hd. run. rewrite He. reflexivity.
  - intros Hd.
    destruct (answer hw (trace w) _); run; try reflexivity.
    congruence.
Qed.

End Abort.

(** A witness for C9 amended: the bound motor, on an IcePAP that accepts
    the write and on one that refuses it. *)
Lemma AbortOne_single_write_witness :
  fst (AbortOne 0 Examples.healthy (Examples.world_of Examples.bound)) = Ret tt /\
  fst (AbortOne 0 Examples.refusing_writes (Examples.world_of Examples.bound))
  = Raise Py.LinkError.
Proof.
  split.
  - rewrite (proj1 (AbortOne_single_write Examples.healthy
                      (Examples.world_of Examples.bound) eq_refl));
      reflexivity.
  - rewrite (proj2 (AbortOne_single_write Examples.refusing_writes
                      (Examples.world_of Examples.bound) eq_refl)).
    + reflexivity.
    + cbn. discriminate.
Defined.

Section PositionMode.

Context {F : Type} {PF : PyFloat F}.

(** *** Computations that only read the configuration *)

Lemma reads_ret : forall A (a : A), reads_cfg_only (@ret F A a).
Proof.
  intros A a hw w. split; [reflexivity|].
  exists []. rewrite app_nil_r. split; reflexivity.
Qed.

Lemma reads_raise : forall A e, reads_cfg_only (@raise F A e).
Proof.
  intros A e hw w. split; [reflexivity|].
  exists []. rewrite app_nil_r. split; reflexivity.
Qed.

Lemma reads_bind :
  forall A B (m : @M F A) (k : A -> @M F B),
    reads_cfg_only m -> (forall a, reads_cfg_only (k a)) ->
    reads_cfg_only (bind m k).
Proof.
  intros A B m k Hm Hk hw w. unfold bind.
  destruct (Hm hw w) as [Hc [l [Ht Hl]]].
  destruct (m hw w) as [[a|e] w']; cbn [snd] in *.
  - destruct (Hk a hw w') as [Hc' [l' [Ht' Hl']]].
    split; [congruence|].
    exists (l ++ l'). rewrite Ht', Ht, app_assoc. split; [reflexivity|].
    rewrite forallb_app, Hl, Hl'. reflexivity.
  - split; [exact Hc|]. exists l. split; assumption.
Qed.

Lemma reads_self : reads_cfg_only (@self F).
Proof.
  intros hw w. split; [reflexivity|].
  exists []. rewrite app_nil_r. split; reflexivity.
Qed.

Lemma reads_log : forall l msg, reads_cfg_only (@log_msg F l msg).
Proof.
  intros l msg hw w. split; [reflexivity|].
  exists []. cbn. rewrite app_nil_r. split; reflexivity.
Qed.

Lemma reads_ipap_axis : forall a, reads_cfg_only (@ipap_axis F a).
Proof.
  intros a hw w. unfold ipap_axis.
  destruct (has_axis hw a); (split; [reflexivity|]);
    exists []; rewrite app_nil_r; split; reflexivity.
Qed.

Lemma reads_get_cfg_int : forall a key, reads_cfg_only (@get_cfg_int F a key).
Proof.
  intros a key hw w. unfold get_cfg_int. run.
  destruct (answer hw (trace w) (GetCfg a key)); run;
    try (split; [reflexivity|]; exists [GetCfg a key]; split; reflexivity).
  destruct (Py.int_of_str s);
    (split; [reflexivity|]; exists [GetCfg a key]; split; reflexivity).
Qed.

Lemma reads_item : forall A (v : option A), reads_cfg_only (@item F A v).
Proof. intros A [a|]; [apply reads_ret | apply reads_raise]. Qed.

Lemma reads_py_float : forall n, reads_cfg_only (py_float n).
Proof.
  intros n. unfold py_float.
  destruct (f_of_int n); [apply reads_ret | apply reads_raise].
Qed.

Lemma reads_py_truediv : forall x y, reads_cfg_only (py_truediv x y).
Proof.
  intros x y. unfold py_truediv.
  destruct (f_eqb y f_zero); [apply reads_raise | apply reads_ret].
Qed.

Lemma reads_py_int_truediv : forall a b, reads_cfg_only (py_int_truediv a b).
Proof.
  intros a b. unfold py_int_truediv.
  destruct (b =? 0); [apply reads_raise|].
  destruct (f_int_truediv a b); [apply reads_ret | apply reads_raise].
Qed.

Lemma reads_py_int : forall x, reads_cfg_only (py_int x).
Proof.
  intros x. unfold py_int.
  destruct (f_trunc x); [apply reads_ret | apply reads_raise | apply reads_raise].
Qed.

Lemma SynchOne_bounds_reads :
  forall g n, reads_cfg_only (SynchOne_bounds g n).
Proof.
  intros g n. unfold SynchOne_bounds.
  repeat first
    [ apply reads_item | apply reads_self | apply reads_py_float
    | apply reads_ipap_axis | apply reads_py_int | apply reads_log
    | apply reads_ret | apply reads_get_cfg_int | apply reads_py_int_truediv
    | apply reads_py_truediv
    | apply reads_bind; [| intros]
    | match goal with
      | |- reads_cfg_only (if ?b then _ else _) => destruct b
      | |- reads_cfg_only (let '(_, _) := ?p in _) => destruct p
      end ].
Qed.

Lemma loaded_tables_cfg_reads :
  forall l : list (@call F), forallb is_cfg_read l = true -> loaded_tables l = [].
Proof.
  induction l as [|c r IH]; [reflexivity|].
  cbn [forallb]. intros H. apply andb_prop in H. destruct H as [Hc Hr].
  destruct c; try discriminate. cbn [loaded_tables]. exact (IH Hr).
Qed.

(** *** The shape of a position-driven [SynchOne] *)

Lemma SynchOne_position_eq :
  forall (hw : @link F) (w : world) (axis : Z) (g : synch_group F) rest n i t,
    Repeats g = Some n ->
    Initial g = Some i ->
    has_axis hw (_motor_axis (ctl w)) = true ->
    answer hw (trace w) (GetCfg (_motor_axis (ctl w)) "TGTENC") = Text t ->
    SynchOne axis (g :: rest) hw w = SynchOne_rest g n hw (after_tgtenc w t).
Proof.
  intros hw w axis g rest n i t Hn Hi Hax Hans.
  unfold SynchOne. rewrite Hn, Hi. run. rewrite Hax. run. rewrite Hans. run.
  reflexivity.
Qed.

Lemma arange_from_length :
  forall num i, List.length (arange_from i num) = num.
Proof.
  induction num as [|k IH]; intros i; cbn [arange_from List.length];
    [reflexivity | rewrite IH; reflexivity].
Qed.

Lemma set_last_length :
  forall (l : list F) x, List.length (set_last l x) = List.length l.
Proof.
  induction l as [|y r IH]; intros x; [reflexivity|].
  destruct r as [|z r']; [reflexivity|].
  change (set_last (y :: z :: r') x) with (y :: set_last (z :: r') x).
  cbn [List.length]. rewrite IH. reflexivity.
Qed.

Lemma linspace_length :
  forall start stop num,
    List.length (linspace start stop num) = Z.to_nat num.
Proof.
  intros start stop num. unfold linspace.
  destruct (1 <? num); [rewrite set_last_length|];
    rewrite length_map;
    destruct (0 <? num - 1); try destruct (f_eqb _ f_zero);
    rewrite !length_map; apply arange_from_length.
Qed.

(** The loading loop sends the same call each time, at most [attempts]
    times, and at least once when there is an attempt to make. *)
Lemma SynchOne_load_effects :
  forall (hw : @link F) (table : list F) (attempts : nat) (i : Z) (w : world),
    let r := SynchOne_load attempts i table hw w in
    ctl (snd r) = ctl w /\
    (exists b, fst r = Ret b) /\
    exists k,
      (k <= attempts)%nat /\
      trace (snd r) = trace w ++ repeat (load_call w table) k /\
      (has_axis hw (_motor_axis (ctl w)) = true -> (0 < attempts)%nat ->
       (0 < k)%nat).
Proof.
  intros hw table attempts. induction attempts as [|n IH]; intros i w r.
  - subst r. cbn. split; [reflexivity|]. split; [eexists; reflexivity|].
    exists 0%nat. rewrite app_nil_r. repeat split; auto; lia.
  - subst r. cbn [SynchOne_load]. run.
    destruct (has_axis hw (_motor_axis (ctl w))) eqn:Hax; run.
    + destruct (answer hw (trace w) _) eqn:Hans; run;
        try (match goal with
             | |- context [SynchOne_load n ?j table hw ?w1] =>
                 destruct (IH j w1) as [Hc [Hb [k [Hk [Ht Hpos]]]]]
             end;
             cbn [ctl trace log] in Hc, Ht;
             split; [exact Hc|]; split; [exact Hb|];
             exists (S k); split; [lia|]; split; [|intros; lia];
             rewrite Ht; unfold load_call; cbn [ctl];
             rewrite <- app_assoc; reflexivity).
      split; [reflexivity|]. split; [eexists; reflexivity|].
      exists 1%nat. split; [lia|]. split; [reflexivity | intros; lia].
    + match goal with
      | |- context [SynchOne_load n ?j table hw ?w1] =>
          destruct (IH j w1) as [Hc [Hb [k [Hk [Ht Hpos]]]]]
      end.
      cbn [ctl trace log] in Hc, Ht.
      split; [exact Hc|]. split; [exact Hb|].
      exists k. split; [lia|]. split; [exact Ht | intros; discriminate].
Qed.

Lemma loaded_tables_repeat :
  forall (w : @world F) table k,
    loaded_tables (repeat (load_call w table) k) = repeat table k.
Proof.
  intros w table k. induction k as [|k IH]; [reflexivity|].
  cbn [repeat]. unfold load_call at 1. cbn [loaded_tables].
  rewrite IH. reflexivity.
Qed.

Lemma loaded_tables_app :
  forall l l' : list (@call F),
    loaded_tables (l ++ l') = loaded_tables l ++ loaded_tables l'.
Proof.
  induction l as [|c r IH]; intros l'; [reflexivity|].
  destruct c; cbn [app loaded_tables]; rewrite ?IH; reflexivity.
Qed.

Lemma SynchOne_bounds_ctl :
  forall (hw : @link F) (w w2 : world) g n o,
    SynchOne_bounds g n hw w = (o, w2) -> ctl w2 = ctl w.
Proof.
  intros hw w w2 g n o H.
  pose proof (proj1 (SynchOne_bounds_reads g n hw w)) as Hc.
  rewrite H in Hc. exact Hc.
Qed.

Lemma SynchOne_bounds_no_load :
  forall (hw : @link F) (w w2 : world) g n o,
    SynchOne_bounds g n hw w = (o, w2) ->
    loaded_tables (calls_since w w2) = [].
Proof.
  intros hw w w2 g n o H.
  destruct (proj2 (SynchOne_bounds_reads g n hw w)) as [l [Ht Hl]].
  rewrite H in Ht. cbn [snd] in Ht.
  rewrite (calls_since_app w w2 l Ht).
  apply loaded_tables_cfg_reads. exact Hl.
Qed.

(** With all triggers asked for and a number of points the IcePAP
    takes, what remains after the bounds is the loading of the
    [linspace] table. *)
Lemma SynchOne_rest_eq :
  forall (hw : @link F) (w1 w2 : world) g n start delta end_,
    SynchOne_bounds g n hw w1 = (Ret (start, delta, end_), w2) ->
    _start_trigger_only (ctl w1) = false ->
    0 <= n <= MAX_ECAM_VALUES ->
    SynchOne_rest g n hw w1
    = (table_loaded <-
         SynchOne_load (Z.to_nat (_retries_nr (ctl w2))) 0
           (linspace start (f_sub end_ delta) n) ;;
       if (table_loaded : bool) then ret None else raise TableLoadFailed)
        hw (table_built w2).
Proof.
  intros hw w1 w2 g n start delta end_ Hb Hst Hn.
  pose proof (SynchOne_bounds_ctl hw w1 w2 g n _ Hb) as Hc.
  unfold SynchOne_rest. unfold bind at 1. rewrite Hb.
  unfold SynchOne_table, np_linspace. run.
  rewrite <- Hc in Hst. rewrite Hst.
  replace (MAX_ECAM_VALUES <? n) with false by (symmetry; apply Z.ltb_ge; lia).
  replace (n <? 0) with false by (symmetry; apply Z.ltb_ge; lia).
  run. reflexivity.
Qed.

(** Every load attempt carries the [linspace] table. *)
Lemma SynchOne_rest_table :
  forall (hw : @link F) (w1 w2 : world) g n start delta end_,
    SynchOne_bounds g n hw w1 = (Ret (start, delta, end_), w2) ->
    _start_trigger_only (ctl w1) = false ->
    0 <= n <= MAX_ECAM_VALUES ->
    let table := linspace start (f_sub end_ delta) n in
    let r := SynchOne_rest g n hw w1 in
    (fst r = Ret None \/ fst r = Raise TableLoadFailed) /\
    exists k,
      (k <= Z.to_nat (_retries_nr (ctl w1)))%nat /\
      trace (snd r) = trace w2 ++ repeat (load_call w2 table) k /\
      (has_axis hw (_motor_axis (ctl w1)) = true ->
       0 < _retries_nr (ctl w1) -> (0 < k)%nat).
Proof.
  intros hw w1 w2 g n start delta end_ Hb Hst Hn table r.
  pose proof (SynchOne_bounds_ctl hw w1 w2 g n _ Hb) as Hc.
  subst r. rewrite (SynchOne_rest_eq hw w1 w2 g n start delta end_ Hb Hst Hn).
  fold table. unfold bind.
  destruct (SynchOne_load_effects hw table
              (Z.to_nat (_retries_nr (ctl w2))) 0 (table_built w2))
    as [Hc' [[b Hb'] [k [Hk [Ht Hpos]]]]].
  destruct (SynchOne_load _ 0 table hw (table_built w2)) as [o w4].
  cbn [fst snd ctl trace log table_built] in *. subst o.
  split.
  - destruct b; [left | right]; reflexivity.
  - exists k. rewrite <- Hc. split; [exact Hk|]. split.
    + destruct b; cbv [ret raise]; cbn [snd]; rewrite Ht; reflexivity.
    + intros Hax Hr. apply Hpos; [exact Hax | lia].
Qed.

(** C4, amended. A position-driven group asking for more than
    [MAX_ECAM_VALUES] points while [StartTriggerOnly] is off: once the
    target encoder has been read and the bounds have been converted,
    whatever the feedback source, [SynchOne] raises the too-many-points
    [RuntimeError]; it has sent configuration reads only, no table. *)
Theorem SynchOne_too_many_points :
  forall (hw : @link F) (w w2 : world) (axis : Z)
         (g : synch_group F) (rest : list (synch_group F))
         (n : Z) (i : domain_values F) (t : string) (start delta end_ : F),
    Repeats g = Some n ->
    Initial g = Some i ->
    MAX_ECAM_VALUES < n ->
    _start_trigger_only (ctl w) = false ->
    has_axis hw (_motor_axis (ctl w)) = true ->
    answer hw (trace w) (GetCfg (_motor_axis (ctl w)) "TGTENC") = Text t ->
    SynchOne_bounds g n hw (after_tgtenc w t) = (Ret (start, delta, end_), w2) ->
    SynchOne axis (g :: rest) hw w = (Raise TableTooLarge, w2) /\
    loaded_tables (calls_since w w2) = [].
Proof.
  intros hw w w2 axis g rest n i t start delta end_
         Hn Hi Hmax Hst Hax Hans Hb.
  rewrite (SynchOne_position_eq hw w axis g rest n i t Hn Hi Hax Hans).
  pose proof (SynchOne_bounds_ctl hw _ w2 g n _ Hb) as Hc.
  destruct (proj2 (SynchOne_bounds_reads g n hw (after_tgtenc w t)))
    as [l [Ht Hl]].
  rewrite Hb in Ht. cbn [snd after_tgtenc trace] in Ht.
  split.
  - unfold SynchOne_rest. unfold bind at 1. rewrite Hb.
    unfold SynchOne_table. run. rewrite Hc. cbn [after_tgtenc ctl]. run.
    rewrite Hst.
    replace (MAX_ECAM_VALUES <? n) with true by (symmetry; apply Z.ltb_lt; lia).
    reflexivity.
  - rewrite <- app_assoc in Ht.
    rewrite (calls_since_app w w2 _ Ht).
    cbn [app loaded_tables].
    apply loaded_tables_cfg_reads. exact Hl.
Qed.

End PositionMode.

(** A witness for C4 amended: 20478 points on the external encoder. *)
Lemma SynchOne_too_many_points_witness :
  let w := Examples.world_of Examples.on_encoder in
  let g := Examples.spec_of_ints 0 1 20478 in
  fst (SynchOne 0 [g] Examples.healthy w) = Raise TableTooLarge /\
  loaded_tables (trace (snd (SynchOne 0 [g] Examples.healthy w))) = [].
Proof.
  intros w g.
  destruct (SynchOne_too_many_points Examples.healthy w
              (snd (SynchOne_bounds g 20478 Examples.healthy (after_tgtenc w "ENCIN")))
              0 g [] 20478 {| Position := Some (B64.of_Z 0); Time := None |}
              "ENCIN" (B64.of_Z 0) (B64.of_Z 125) (B64.of_Z 2559750))
    as [H1 H2]; try reflexivity.
  rewrite H1. split; [reflexivity|].
  vm_compute. reflexivity.
Defined.

(* ================================================================== *)
(** ** Exact arithmetic *)

Section ExactArithmetic.

Local Open Scope Q_scope.

Lemma nth_error_arange :
  forall (num k : nat) (i : Z),
    (k < num)%nat ->
    nth_error (arange_from i num) k = Some (i + Z.of_nat k)%Z.
Proof.
  induction num as [|m IH]; intros k i Hk; [lia|].
  destruct k as [|k]; cbn [arange_from nth_error].
  - f_equal. lia.
  - rewrite IH by lia. f_equal. lia.
Qed.

Lemma nth_error_set_last :
  forall (F : Type) (l : list F) (x : F) (k : nat),
    (k < List.length l)%nat ->
    nth_error (set_last l x) k
    = if Nat.eqb (S k) (List.length l) then Some x else nth_error l k.
Proof.
  intros F l x. induction l as [|y r IH]; intros k Hk; [cbn in Hk; lia|].
  destruct r as [|z r'].
  - destruct k; [reflexivity | cbn in Hk; lia].
  - change (set_last (y :: z :: r') x) with (y :: set_last (z :: r') x).
    destruct k as [|k]; [reflexivity|].
    cbn [nth_error]. rewrite IH by (cbn in *; lia).
    reflexivity.
Qed.

Lemma inject_Z_pred_nonzero :
  forall n : Z, (1 < n)%Z -> ~ inject_Z (n - 1) == 0.
Proof.
  intros n Hn H. unfold Qeq in H. cbn in H. lia.
Qed.

(** In exact arithmetic the points of [linspace] are
    [start + k * step]. *)
Lemma linspace_exact_nth :
  forall (start stop : Q) (n : Z) (k : nat),
    (1 < n)%Z ->
    (k < Z.to_nat n)%nat ->
    exists x,
      nth_error (linspace start stop n) k = Some x /\
      x == start + inject_Z (Z.of_nat k) * ((stop - start) / inject_Z (n - 1)).
Proof.
  intros start stop n k Hn Hk.
  pose proof (inject_Z_pred_nonzero n Hn) as Hdiv.
  unfold linspace.
  replace (1 <? n)%Z with true by (symmetry; apply Z.ltb_lt; lia).
  replace (0 <? n - 1)%Z with true by (symmetry; apply Z.ltb_lt; lia).
  cbn [f_sub f_div f_mul f_add f_eqb f_zero Exact.rational].
  change (@np_float Q Exact.rational) with inject_Z.
  rewrite nth_error_set_last.
  2: { destruct (Qeq_bool _ 0); rewrite !length_map, arange_from_length; exact Hk. }
  destruct (Nat.eqb (S k) _) eqn:Elast.
  - exists stop. split; [reflexivity|].
    apply Nat.eqb_eq in Elast.
    assert (Hk' : Z.of_nat k = (n - 1)%Z).
    { destruct (Qeq_bool _ 0); rewrite !length_map, arange_from_length in Elast;
        lia. }
    rewrite Hk'. field. exact Hdiv.
  - destruct (Qeq_bool ((stop - start) / inject_Z (n - 1)) 0) eqn:Estep.
    + rewrite !nth_error_map, nth_error_arange by exact Hk.
      cbn [option_map]. eexists. split; [reflexivity|].
      apply Qeq_bool_iff in Estep.
      cbn [Z.add].
      assert (Hd : stop - start == 0).
      { setoid_replace (stop - start)
          with ((stop - start) / inject_Z (n - 1) * inject_Z (n - 1))
          by (field; exact Hdiv).
        rewrite Estep. ring. }
      rewrite Estep, Hd. ring.
    + rewrite !nth_error_map, nth_error_arange by exact Hk.
      cbn [option_map]. eexists. split; [reflexivity|].
      cbn [Z.add]. ring.
Qed.

Lemma bind_inv :
  forall (F : Type) (A B : Type) (m : @M F A) (k : A -> @M F B) hw w b w',
    bind m k hw w = (Ret b, w') ->
    exists a w1, m hw w = (Ret a, w1) /\ k a hw w1 = (Ret b, w').
Proof.
  intros F A B m k hw w b w'. unfold bind.
  destruct (m hw w) as [[a|e] w1]; intros H; [eauto | discriminate].
Qed.

(** Splits a successful bind in a hypothesis into its two steps. *)
Ltac inv_bind H :=
  let a := fresh "a" in
  let w := fresh "w" in
  let H1 := fresh "Hstep" in
  apply bind_inv in H; destruct H as (a & w & H1 & H); cbv beta in H.

Lemma py_float_exact :
  forall (n : Z) (hw : @link Q) w x w',
    py_float n hw w = (Ret x, w') -> x = inject_Z n.
Proof. intros n hw w x w' H. inversion H. reflexivity. Qed.

Lemma py_truediv_exact :
  forall (x y : Q) (hw : @link Q) w z w',
    py_truediv x y hw w = (Ret z, w') -> ~ y == 0 /\ z = x / y.
Proof.
  intros x y hw w z w'. unfold py_truediv.
  cbn [f_eqb f_zero f_div Exact.rational].
  destruct (Qeq_bool y 0) eqn:E; [discriminate|].
  intros H. inversion H. split; [|reflexivity].
  apply Qeq_bool_neq. exact E.
Qed.

(** In exact arithmetic the converted bounds keep
    [end = start + delta * nr_points]. *)
Lemma SynchOne_bounds_exact :
  forall (hw : @link Q) (w w2 : world) (g : synch_group Q) (n : Z)
         (start delta end_ : Q),
    SynchOne_bounds g n hw w = (Ret (start, delta, end_), w2) ->
    end_ == start + delta * inject_Z n.
Proof.
  intros hw w w2 g n start delta end_ H.
  unfold SynchOne_bounds in H.
  do 5 inv_bind H.
  inv_bind H.
  match goal with
  | Hf : py_float _ _ _ = (Ret ?x, _) |- _ =>
      apply py_float_exact in Hf; subst x
  end.
  inv_bind H. inv_bind H.
  match goal with
  | Hc : (if negb _ then _ else _) _ _ = (Ret ?p, _) |- _ =>
      rename Hc into Hconv; destruct p as [[s1 d1] e1]
  end.
  inv_bind H. inv_bind H. inversion H; subst; clear H.
  cbn [f_add f_mul Exact.rational] in Hconv.
  destruct (negb _) in Hconv.
  - destruct (resolution_keys _) as [cfgstep cfgturn] in Hconv.
    do 9 inv_bind Hconv.
    repeat match goal with
           | Hd : py_truediv _ _ _ _ = (Ret ?z, _) |- _ =>
               apply py_truediv_exact in Hd; destruct Hd as [? ->]
           end.
    inversion Hconv; subst; clear Hconv.
    cbn [f_mul Exact.rational]. field. assumption.
  - inversion Hconv; subst. reflexivity.
Qed.

(** In exact arithmetic the points of the table are
    [start + k * delta]. *)
Lemma position_table_exact_nth :
  forall (hw : @link Q) (w w2 : world) (g : synch_group Q) (n : Z)
         (start delta end_ : Q) (k : nat),
    SynchOne_bounds g n hw w = (Ret (start, delta, end_), w2) ->
    (1 < n)%Z ->
    (k < Z.to_nat n)%nat ->
    exists x,
      nth_error (linspace start (f_sub end_ delta) n) k = Some x /\
      x == start + inject_Z (Z.of_nat k) * delta.
Proof.
  intros hw w w2 g n start delta end_ k Hb Hn Hk.
  pose proof (SynchOne_bounds_exact hw w w2 g n start delta end_ Hb) as He.
  destruct (linspace_exact_nth start (f_sub end_ delta) n k Hn Hk)
    as [x [Hx Hv]].
  exists x. split; [exact Hx|].
  rewrite Hv. cbn [f_sub Exact.rational]. rewrite He.
  unfold Z.sub. rewrite inject_Z_plus.
  pose proof (inject_Z_pred_nonzero n Hn) as Hdiv.
  unfold Z.sub in Hdiv. rewrite inject_Z_plus in Hdiv.
  change (inject_Z (- (1))) with (- (1)) in *.
  field. exact Hdiv.
Qed.

Lemma position_table_exact_order :
  forall (hw : @link Q) (w w2 : world) (g : synch_group Q) (n : Z)
         (start delta end_ : Q) (i j : nat) (x y : Q),
    SynchOne_bounds g n hw w = (Ret (start, delta, end_), w2) ->
    (1 < n)%Z ->
    (i < j)%nat ->
    nth_error (linspace start (f_sub end_ delta) n) i = Some x ->
    nth_error (linspace start (f_sub end_ delta) n) j = Some y ->
    y - x == inject_Z (Z.of_nat j - Z.of_nat i) * delta /\
    0 < inject_Z (Z.of_nat j - Z.of_nat i).
Proof.
  intros hw w w2 g n start delta end_ i j x y Hb Hn Hij Hx Hy.
  assert (Hj : (j < Z.to_nat n)%nat).
  { rewrite <- (linspace_length start (f_sub end_ delta) n).
    apply nth_error_Some. congruence. }
  destruct (position_table_exact_nth hw w w2 g n start delta end_ i Hb Hn)
    as [x' [Hx' Hvx]]; [lia|].
  destruct (position_table_exact_nth hw w w2 g n start delta end_ j Hb Hn Hj)
    as [y' [Hy' Hvy]].
  assert (x' = x) by congruence. assert (y' = y) by congruence. subst x' y'.
  split.
  - rewrite Hvx, Hvy. unfold Z.sub. rewrite inject_Z_plus, inject_Z_opp. ring.
  - change 0 with (inject_Z 0). rewrite <- Zlt_Qlt. lia.
Qed.

End ExactArithmetic.

Section TableShape.

Context {F : Type} {PF : PyFloat F}.

(** A position-driven [SynchOne] with all triggers asked for hands the
    [linspace] table, and nothing else, to [set_ecam_table]; it does so
    at least once when it has a retry to make. *)
Lemma SynchOne_position_loads :
  forall (hw : @link F) (w w2 : world) (axis : Z)
         (g : synch_group F) (rest : list (synch_group F))
         (n : Z) (i : domain_values F) (t : string) (start delta end_ : F),
    Repeats g = Some n ->
    Initial g = Some i ->
    0 <= n <= MAX_ECAM_VALUES ->
    _start_trigger_only (ctl w) = false ->
    has_axis hw (_motor_axis (ctl w)) = true ->
    answer hw (trace w) (GetCfg (_motor_axis (ctl w)) "TGTENC") = Text t ->
    SynchOne_bounds g n hw (after_tgtenc w t) = (Ret (start, delta, end_), w2) ->
    0 < _retries_nr (ctl w) ->
    let r := SynchOne axis (g :: rest) hw w in
    (fst r = Ret None \/ fst r = Raise TableLoadFailed) /\
    exists k,
      (0 < k)%nat /\
      loaded_tables (calls_since w (snd r))
      = repeat (linspace start (f_sub end_ delta) n) k.
Proof.
  intros hw w w2 axis g rest n i t start delta end_
         Hn Hi Hrange Hst Hax Hans Hb Hretries r.
  subst r.
  rewrite (SynchOne_position_eq hw w axis g rest n i t Hn Hi Hax Hans).
  destruct (SynchOne_rest_table hw (after_tgtenc w t) w2 g n start delta end_
              Hb Hst Hrange) as [Hres [k [Hk [Ht Hpos]]]].
  split; [exact Hres|].
  exists k. split; [apply Hpos; assumption|].
  destruct (proj2 (SynchOne_bounds_reads g n hw (after_tgtenc w t)))
    as [l [Ht2 Hl]].
  rewrite Hb in Ht2. cbn [snd after_tgtenc trace] in Ht2.
  rewrite Ht2, <- !app_assoc in Ht.
  rewrite (calls_since_app w _ _ Ht).
  rewrite !loaded_tables_app, loaded_tables_repeat.
  rewrite (loaded_tables_cfg_reads l Hl). reflexivity.
Qed.

End TableShape.


(** C3, amended. A position-driven group whose converted [delta] is zero,
    with [1 < nr_points <= 20477] and all triggers asked for, is not
    refused:
    - in any arithmetic, once the IcePAP accepts the first load,
      [SynchOne] returns normally having sent the [nr_points] points of
      [linspace(start, end - delta, nr_points)] to [set_ecam_table];
    - in exact arithmetic every point of that table equals [start]. *)
Theorem SynchOne_zero_step_loads :
  (forall (F : Type) (PF : PyFloat F) (hw : @link F) (w w2 : world) (axis : Z)
          (g : synch_group F) (rest : list (synch_group F))
          (n : Z) (i : domain_values F) (t : string) (start delta end_ : F),
      Repeats g = Some n ->
      Initial g = Some i ->
      1 < n <= MAX_ECAM_VALUES ->
      _start_trigger_only (ctl w) = false ->
      has_axis hw (_motor_axis (ctl w)) = true ->
      answer hw (trace w) (GetCfg (_motor_axis (ctl w)) "TGTENC") = Text t ->
      SynchOne_bounds g n hw (after_tgtenc w t) = (Ret (start, delta, end_), w2) ->
      f_eqb delta f_zero = true ->
      0 < _retries_nr (ctl w) ->
      let table := linspace start (f_sub end_ delta) n in
      answer hw (trace w2) (load_call w2 table) = Done ->
      SynchOne axis (g :: rest) hw w
      = (Ret None, {| ctl := ctl w2;
                      trace := trace w2 ++ [load_call w2 table];
                      log := log (table_built w2) |}) /\
      List.length table = Z.to_nat n)
  /\
  (forall (hw : @link Q) (w w2 : world) (g : synch_group Q) (n : Z)
          (start delta end_ : Q),
      SynchOne_bounds g n hw w = (Ret (start, delta, end_), w2) ->
      1 < n ->
      (delta == 0)%Q ->
      forall (k : nat) (x : Q),
        nth_error (linspace start (f_sub end_ delta) n) k = Some x ->
        (x == start)%Q).
Proof.
  split.
  - intros F PF hw w w2 axis g rest n i t start delta end_
           Hn Hi Hrange Hst Hax Hans Hb Hzero Hretries table Hload.
    split; [|apply linspace_length].
    rewrite (SynchOne_position_eq hw w axis g rest n i t Hn Hi Hax Hans).
    rewrite (SynchOne_rest_eq hw (after_tgtenc w t) w2 g n start delta end_ Hb Hst)
      by lia.
    pose proof (SynchOne_bounds_ctl hw _ w2 g n _ Hb) as Hc.
    assert (Hr : _retries_nr (ctl w2) = _retries_nr (ctl w))
      by (rewrite Hc; reflexivity).
    assert (Hm : _motor_axis (ctl w2) = _motor_axis (ctl w))
      by (rewrite Hc; reflexivity).
    destruct (Z.to_nat (_retries_nr (ctl w2))) as [|m] eqn:Hnat; [lia|].
    fold table. unfold bind at 1. cbn [SynchOne_load]. unfold table_built. run.
    rewrite <- Hm in Hax. rewrite Hax. run.
    unfold load_call in Hload. rewrite Hload. run.
    reflexivity.
  - intros hw w w2 g n start delta end_ Hb Hn Hd k x Hx.
    assert (Hk : (k < Z.to_nat n)%nat).
    { rewrite <- (linspace_length start (f_sub end_ delta) n).
      apply nth_error_Some. congruence. }
    destruct (position_table_exact_nth hw w w2 g n start delta end_ k Hb Hn Hk)
      as [x' [Hx' Hv]].
    assert (x' = x) by congruence. subst x'.
    rewrite Hv, Hd. ring.
Qed.

(** A witness for C3 amended: two points from 5 with a step of 0, in
    binary64 and on exact rationals. *)
Lemma SynchOne_zero_step_loads_witness :
  (let w := Examples.world_of Examples.bound in
   fst (SynchOne 0 [Examples.spec_of_ints 5 0 2] Examples.healthy w) = Ret None /\
   List.length (linspace (B64.of_Z 5) (f_sub (B64.of_Z 5) B64.zero) 2) = 2%nat)
  /\
  (forall (k : nat) (x : Q),
      nth_error (linspace (5000000 # 8000)%Q
                   (f_sub (5000000 # 8000) (0 # 8000))%Q 2) k = Some x ->
      (x == 5000000 # 8000)%Q).
Proof.
  split.
  - cbv zeta.
    destruct (proj1 SynchOne_zero_step_loads _ _ Examples.healthy
                (Examples.world_of Examples.bound)
                (snd (SynchOne_bounds (Examples.spec_of_ints 5 0 2) 2 Examples.healthy
                        (after_tgtenc (Examples.world_of Examples.bound) "ENCIN")))
                0 (Examples.spec_of_ints 5 0 2) [] 2
                {| Position := Some (B64.of_Z 5); Time := None |} "ENCIN"%string
                (B64.of_Z 5) B64.zero (B64.of_Z 5)) as [H1 H2];
      try reflexivity.
    + unfold MAX_ECAM_VALUES. lia.
    + rewrite H1. split; [reflexivity | exact H2].
  - apply (proj2 SynchOne_zero_step_loads Examples.exact_healthy
             (after_tgtenc (Examples.world_of Examples.exact_on_encoder) "ENCIN")
             (snd (SynchOne_bounds (Examples.position_spec 5%Q 0%Q 2) 2
                     Examples.exact_healthy
                     (after_tgtenc (Examples.world_of Examples.exact_on_encoder) "ENCIN")))
             (Examples.position_spec 5%Q 0%Q 2) 2
             (5000000 # 8000)%Q (0 # 8000)%Q (5000000 # 8000)%Q).
    + reflexivity.
    + lia.
    + reflexivity.
Defined.

(* ================================================================== *)
(** ** Rounding in binary64: what is needed of it *)

Section Binary64Rounding.

Lemma digits_log2 :
  forall p : positive, Zpos (digits2_pos p) = Z.log2 (Zpos p) + 1.
Proof.
  induction p as [p IH | p IH |]; cbn [digits2_pos]; try reflexivity.
  - rewrite Pos2Z.inj_succ, IH.
    change (Zpos p~1) with (2 * Zpos p + 1).
    rewrite Z.log2_succ_double by lia. lia.
  - rewrite Pos2Z.inj_succ, IH.
    change (Zpos p~0) with (2 * Zpos p).
    rewrite Z.log2_double by lia. lia.
Qed.

Lemma Zdigits2_log2 :
  forall m : Z, 0 < m -> Zdigits2 m = Z.log2 m + 1.
Proof.
  intros [|p|p] H; try lia. cbn [Zdigits2]. apply digits_log2.
Qed.

Lemma shr_1_m :
  forall r : shr_record, 0 <= shr_m r -> shr_m (shr_1 r) = Z.div2 (shr_m r).
Proof.
  intros [m b s] H. cbn [shr_m] in H.
  destruct m as [|[p|p|]|p]; try lia; reflexivity.
Qed.

Lemma iter_pos_shr_m :
  forall (n : positive) (r : shr_record),
    0 <= shr_m r ->
    shr_m (iter_pos shr_1 n r) = Z.shiftr (shr_m r) (Zpos n).
Proof.
  assert (Hnn : forall r, 0 <= shr_m r -> 0 <= shr_m (shr_1 r)).
  { intros r H. rewrite shr_1_m by exact H. apply Z.div2_nonneg. exact H. }
  induction n as [n IH | n IH |]; intros r H; cbn [iter_pos].
  - rewrite IH.
    2: { rewrite IH by (apply Hnn; exact H).
         apply Z.shiftr_nonneg. apply Hnn. exact H. }
    rewrite IH by (apply Hnn; exact H).
    rewrite shr_1_m by exact H.
    rewrite Z.div2_spec, !Z.shiftr_shiftr by lia.
    f_equal. lia.
  - rewrite IH.
    2: { rewrite IH by exact H. apply Z.shiftr_nonneg. exact H. }
    rewrite IH by exact H.
    rewrite Z.shiftr_shiftr by lia. f_equal. lia.
  - rewrite shr_1_m by exact H. apply Z.div2_spec.
Qed.

Lemma shr_record_of_loc_m :
  forall m l, shr_m (shr_record_of_loc m l) = m.
Proof. intros m [|[| |]]; reflexivity. Qed.

(** Above the subnormal range, the normalising shift keeps a positive
    mantissa and the magnitude [digits + exponent]. *)
Lemma shr_fexp_magnitude :
  forall (m e : Z) (l : location),
    0 < m ->
    emin B64.prec B64.emax + B64.prec <= Zdigits2 m + e ->
    0 < shr_m (fst (shr_fexp B64.prec B64.emax m e l)) /\
    Zdigits2 (shr_m (fst (shr_fexp B64.prec B64.emax m e l)))
    + snd (shr_fexp B64.prec B64.emax m e l)
    = Zdigits2 m + e.
Proof.
  intros m e l Hm Hmag.
  unfold shr_fexp, shr, fexp.
  rewrite Z.max_l by lia.
  rewrite (Zdigits2_log2 m Hm) in *.
  destruct (Z.log2 m + 1 + e - B64.prec - e) as [|n|n] eqn:Hn;
    cbn [fst snd]; rewrite ?shr_record_of_loc_m.
  - rewrite Zdigits2_log2 by exact Hm. split; [exact Hm | reflexivity].
  - rewrite iter_pos_shr_m by (rewrite shr_record_of_loc_m; lia).
    rewrite shr_record_of_loc_m.
    assert (Hlog : Z.log2 (Z.shiftr m (Zpos n)) = Z.log2 m - Zpos n).
    { rewrite Z.log2_shiftr by exact Hm. unfold B64.prec in Hn. lia. }
    assert (Hpos : 0 < Z.shiftr m (Zpos n)).
    { apply Z.log2_lt_cancel. rewrite Hlog.
      unfold B64.prec in Hn. cbn [Z.log2]. lia. }
    split; [exact Hpos|].
    rewrite Zdigits2_log2 by exact Hpos. rewrite Hlog. lia.
  - rewrite Zdigits2_log2 by exact Hm. split; [exact Hm | reflexivity].
Qed.

Lemma round_nearest_even_bounds :
  forall m l,
    0 < m ->
    m <= round_nearest_even m l <= m + 1.
Proof.
  intros m [|[| |]] H; cbn [round_nearest_even]; try lia.
  destruct (Z.even m); lia.
Qed.

(** Rounding a positive number of magnitude at least [K], above the
    subnormal range, gives infinity or a positive float of magnitude
    at least [K]. *)
Lemma binary_round_aux_magnitude :
  forall (m e : Z) (l : location) (K : Z),
    0 < m ->
    emin B64.prec B64.emax + B64.prec <= K ->
    K <= Zdigits2 m + e ->
    binary_round_aux B64.prec B64.emax false m e l = S754_infinity false \/
    exists m' e',
      binary_round_aux B64.prec B64.emax false m e l = S754_finite false m' e' /\
      K <= Zpos (digits2_pos m') + e'.
Proof.
  intros m e l K Hm HK Hmag.
  unfold binary_round_aux.
  destruct (shr_fexp_magnitude m e l Hm) as [Hp1 Hm1]; [lia|].
  destruct (shr_fexp B64.prec B64.emax m e l) as [mrs' e'].
  cbn [fst snd] in Hp1, Hm1.
  pose proof (round_nearest_even_bounds (shr_m mrs') (loc_of_shr_record mrs') Hp1)
    as Hr.
  set (m1 := round_nearest_even (shr_m mrs') (loc_of_shr_record mrs')) in *.
  assert (Hm1pos : 0 < m1) by lia.
  assert (Hd1 : Zdigits2 (shr_m mrs') <= Zdigits2 m1).
  { rewrite !Zdigits2_log2 by assumption.
    pose proof (Z.log2_le_mono (shr_m mrs') m1). lia. }
  destruct (shr_fexp_magnitude m1 e' loc_Exact Hm1pos) as [Hp2 Hm2]; [lia|].
  destruct (shr_fexp B64.prec B64.emax m1 e' loc_Exact) as [mrs'' e''].
  cbn [fst snd] in Hp2, Hm2.
  destruct (shr_m mrs'') as [|m2|m2]; try lia.
  destruct (e'' <=? B64.emax - B64.prec).
  - right. exists m2, e''. split; [reflexivity|].
    cbn [Zdigits2] in Hm2. lia.
  - left. reflexivity.
Qed.

Lemma digits_iter_xO :
  forall (d p : positive),
    Zpos (digits2_pos (Pos.iter xO p d)) = Zpos (digits2_pos p) + Zpos d.
Proof.
  intros d p. induction d as [|d IH] using Pos.peano_ind.
  - cbn [Pos.iter digits2_pos]. lia.
  - rewrite Pos.iter_succ. cbn [digits2_pos]. lia.
Qed.

Lemma shl_align_magnitude :
  forall (p : positive) (e e' : Z),
    Zpos (digits2_pos (fst (shl_align p e e'))) + snd (shl_align p e e')
    = Zpos (digits2_pos p) + e.
Proof.
  intros p e e'. unfold shl_align.
  destruct (e' - e) as [|d|d] eqn:Hd; cbn [fst snd]; try reflexivity.
  rewrite digits_iter_xO. lia.
Qed.

Lemma shl_align_exponent :
  forall (p : positive) (e e' : Z),
    e' <= e -> snd (shl_align p e e') = e'.
Proof.
  intros p e e' H. unfold shl_align.
  destruct (e' - e) as [|d|d] eqn:Hd; cbn [snd]; lia.
Qed.

Lemma binary_round_magnitude :
  forall (p : positive) (e K : Z),
    emin B64.prec B64.emax + B64.prec <= K ->
    K <= Zpos (digits2_pos p) + e ->
    binary_round B64.prec B64.emax false p e = S754_infinity false \/
    exists m' e',
      binary_round B64.prec B64.emax false p e = S754_finite false m' e' /\
      K <= Zpos (digits2_pos m') + e'.
Proof.
  intros p e K HK Hmag. unfold binary_round.
  pose proof (shl_align_magnitude p e
                (fexp B64.prec B64.emax (Zpos (digits2_pos p) + e))) as Hs.
  destruct (shl_align p e _) as [mz ez]. cbn [fst snd] in Hs.
  apply binary_round_aux_magnitude; [lia | exact HK |].
  cbn [Zdigits2]. lia.
Qed.

(** Adding [0.1] to a positive finite float gives infinity or a float of
    magnitude at least that of [0.1], which is [-3]. *)
Lemma add_tenth_magnitude :
  forall (mt : positive) (et : Z),
    B64.add (S754_finite false mt et) B64.tenth = S754_infinity false \/
    exists m e,
      B64.add (S754_finite false mt et) B64.tenth = S754_finite false m e /\
      -3 <= Zpos (digits2_pos m) + e.
Proof.
  intros mt et. unfold B64.add, B64.tenth, SFadd.
  set (ez := Z.min et (-56)).
  pose proof (shl_align_magnitude 7205759403792794 (-56) ez) as Hc.
  pose proof (shl_align_exponent 7205759403792794 (-56) ez
                (Z.le_min_r et (-56))) as Hce.
  rewrite Hce in Hc.
  set (a := fst (shl_align mt et ez)).
  set (b := fst (shl_align 7205759403792794 (-56) ez)) in *.
  cbn [cond_Zopp Z.add binary_normalize].
  apply binary_round_magnitude; [unfold emin, B64.prec, B64.emax; lia|].
  assert (Hb : Z.log2 (Zpos b) <= Z.log2 (Zpos (a + b)))
    by (apply Z.log2_le_mono; lia).
  rewrite !digits_log2 in *.
  change (Z.log2 (Zpos 7205759403792794)) with 52 in Hc. lia.
Qed.

End Binary64Rounding.

Section WholeNumbers.

(** A right shift that drops zero bits only is exact. *)
Lemma shr_1_exact :
  forall q : Z,
    0 <= q ->
    shr_1 {| shr_m := 2 * q; shr_r := false; shr_s := false |}
    = {| shr_m := q; shr_r := false; shr_s := false |}.
Proof. intros [|p|p] H; try lia; reflexivity. Qed.

Lemma iter_pos_shr_exact :
  forall (n : positive) (q : Z),
    0 <= q ->
    iter_pos shr_1 n {| shr_m := q * 2 ^ Zpos n; shr_r := false; shr_s := false |}
    = {| shr_m := q; shr_r := false; shr_s := false |}.
Proof.
  induction n as [n IH | n IH |]; intros q Hq; cbn [iter_pos].
  - replace (q * 2 ^ Zpos n~1) with (2 * ((q * 2 ^ Zpos n) * 2 ^ Zpos n)).
    2: { rewrite Pos2Z.inj_xI, Z.pow_add_r, Z.pow_mul_r by lia.
         change (2 ^ 2) with 4. change (2 ^ 1) with 2.
         replace (4 ^ Zpos n) with (2 ^ Zpos n * 2 ^ Zpos n).
         - ring.
         - rewrite <- Z.pow_add_r by lia. replace (Zpos n + Zpos n) with (2 * Zpos n) by lia.
           rewrite Z.pow_mul_r by lia. reflexivity. }
    rewrite shr_1_exact by (apply Z.mul_nonneg_nonneg; [apply Z.mul_nonneg_nonneg|]; lia).
    rewrite IH by (apply Z.mul_nonneg_nonneg; lia).
    apply IH. exact Hq.
  - replace (q * 2 ^ Zpos n~0) with ((q * 2 ^ Zpos n) * 2 ^ Zpos n).
    2: { rewrite Pos2Z.inj_xO, <- Z.mul_assoc, <- Z.pow_add_r by lia.
         f_equal. f_equal. lia. }
    rewrite IH by (apply Z.mul_nonneg_nonneg; lia).
    apply IH. exact Hq.
  - replace (q * 2 ^ 1) with (2 * q) by (change (2 ^ 1) with 2; ring).
    apply shr_1_exact. exact Hq.
Qed.

Lemma Zdigits2_mul_pow2 :
  forall k t : Z, 0 < k -> 0 <= t -> Zdigits2 (k * 2 ^ t) = Zdigits2 k + t.
Proof.
  intros k t Hk Ht.
  assert (0 < k * 2 ^ t) by (apply Z.mul_pos_pos; [lia | apply Z.pow_pos_nonneg; lia]).
  rewrite !Zdigits2_log2 by assumption.
  rewrite Z.log2_mul_pow2 by lia. lia.
Qed.

(** Rounding a mantissa of 53 bits followed by [j] zero bits. *)
Lemma binary_round_aux_exact :
  forall (s : bool) (M : positive) (j e : Z),
    Zpos (digits2_pos M) = 53 ->
    0 <= j ->
    -1074 <= e + j <= 971 ->
    binary_round_aux B64.prec B64.emax s (Zpos M * 2 ^ j) e loc_Exact
    = S754_finite s M (e + j).
Proof.
  intros s M j e HM Hj He.
  assert (Hfix : shr_fexp B64.prec B64.emax (Zpos M) (e + j) loc_Exact
                 = ({| shr_m := Zpos M; shr_r := false; shr_s := false |}, e + j)).
  { unfold shr_fexp, fexp, emin, B64.prec, B64.emax. cbn [Zdigits2]. rewrite HM.
    rewrite Z.max_l by lia.
    replace (53 + (e + j) - 53 - (e + j)) with 0 by lia. reflexivity. }
  unfold binary_round_aux.
  assert (Hfirst : shr_fexp B64.prec B64.emax (Zpos M * 2 ^ j) e loc_Exact
                   = ({| shr_m := Zpos M; shr_r := false; shr_s := false |}, e + j)).
  { unfold shr_fexp, fexp, emin, B64.prec, B64.emax.
    rewrite Zdigits2_mul_pow2 by lia. cbn [Zdigits2]. rewrite HM.
    rewrite Z.max_l by lia.
    replace (53 + j + e - 53 - e) with j by lia.
    destruct j as [|pj|pj]; try lia.
    - cbn [shr shr_record_of_loc]. rewrite Z.mul_1_r, Z.add_0_r. reflexivity.
    - cbn [shr shr_record_of_loc]. rewrite iter_pos_shr_exact by lia. reflexivity. }
  rewrite Hfirst. cbn [shr_m loc_of_shr_record round_nearest_even].
  rewrite Hfix. cbn [shr_m].
  unfold B64.prec, B64.emax.
  replace (e + j <=? 1024 - 53) with true by (symmetry; apply Z.leb_le; lia).
  reflexivity.
Qed.

Lemma Zdigits2_whole :
  forall k : Z, 0 < k < 2 ^ 53 -> 1 <= Zdigits2 k <= 53.
Proof.
  intros k Hk. rewrite Zdigits2_log2 by lia.
  pose proof (Z.log2_nonneg k).
  assert (Z.log2 k < 53) by (apply Z.log2_lt_pow2; lia).
  lia.
Qed.

Lemma whole_mantissa :
  forall k : Z,
    0 < k < 2 ^ 53 ->
    Zpos (Z.to_pos (k * 2 ^ (53 - Zdigits2 k))) = k * 2 ^ (53 - Zdigits2 k) /\
    Zpos (digits2_pos (Z.to_pos (k * 2 ^ (53 - Zdigits2 k)))) = 53.
Proof.
  intros k Hk. pose proof (Zdigits2_whole k Hk) as HD.
  assert (Hpos : 0 < k * 2 ^ (53 - Zdigits2 k))
    by (apply Z.mul_pos_pos; [lia | apply Z.pow_pos_nonneg; lia]).
  split; [apply Z2Pos.id; exact Hpos|].
  change (Zpos (digits2_pos (Z.to_pos (k * 2 ^ (53 - Zdigits2 k)))))
    with (Zdigits2 (Zpos (Z.to_pos (k * 2 ^ (53 - Zdigits2 k))))).
  rewrite Z2Pos.id by exact Hpos.
  rewrite Zdigits2_mul_pow2 by lia. lia.
Qed.

Lemma iter_xO_value :
  forall (d p : positive), Zpos (Pos.iter xO p d) = Zpos p * 2 ^ Zpos d.
Proof.
  intros d p. rewrite Z.mul_comm.
  exact (Zpower.shift_pos_correct d p).
Qed.

(** Every way of writing [k * 2^p], [k] below 2^53, rounds to
    [scaled s k p]: nothing is lost. *)
Lemma binary_round_scaled :
  forall (s : bool) (p0 : positive) (k t p : Z),
    0 < k < 2 ^ 53 ->
    0 <= t ->
    grid p ->
    Zpos p0 = k * 2 ^ t ->
    binary_round B64.prec B64.emax s p0 (p - t) = scaled s k p.
Proof.
  intros s p0 k t p Hk Ht Hp Hp0. unfold grid in Hp.
  pose proof (Zdigits2_whole k Hk) as HD.
  destruct (whole_mantissa k Hk) as [HM HMd].
  unfold binary_round, scaled.
  change (Zpos (digits2_pos p0)) with (Zdigits2 (Zpos p0)).
  rewrite Hp0, Zdigits2_mul_pow2 by lia.
  unfold fexp, emin, B64.prec, B64.emax.
  rewrite Z.max_l by lia.
  unfold shl_align.
  destruct (Zdigits2 k + t + (p - t) - 53 - (p - t)) as [|x|x] eqn:Hx.
  - replace (Zpos p0) with (Zpos (Z.to_pos (k * 2 ^ (53 - Zdigits2 k)))
                            * 2 ^ (Zdigits2 k - 53 + t)).
    2: { rewrite HM, Hp0, <- Z.mul_assoc, <- Z.pow_add_r by lia.
         f_equal. f_equal. lia. }
    rewrite binary_round_aux_exact by lia.
    f_equal. lia.
  - replace (Zpos p0) with (Zpos (Z.to_pos (k * 2 ^ (53 - Zdigits2 k)))
                            * 2 ^ (Zdigits2 k - 53 + t)).
    2: { rewrite HM, Hp0, <- Z.mul_assoc, <- Z.pow_add_r by lia.
         f_equal. f_equal. lia. }
    rewrite binary_round_aux_exact by lia.
    f_equal. lia.
  - assert (Hmz : Pos.iter xO p0 x = Z.to_pos (k * 2 ^ (53 - Zdigits2 k))).
    { apply Pos2Z.inj. rewrite iter_xO_value, HM, Hp0, <- Z.mul_assoc,
        <- Z.pow_add_r by lia.
      f_equal. f_equal. lia. }
    rewrite Hmz.
    replace (Zpos (Z.to_pos (k * 2 ^ (53 - Zdigits2 k))))
      with (Zpos (Z.to_pos (k * 2 ^ (53 - Zdigits2 k))) * 2 ^ 0) at 1
      by (rewrite Z.pow_0_r, Z.mul_1_r; reflexivity).
    rewrite binary_round_aux_exact by lia.
    f_equal. lia.
Qed.

Lemma dyadic_scaled :
  forall c p : Z,
    c <> 0 ->
    - 2 ^ 53 < c < 2 ^ 53 ->
    grid p ->
    dyadic c p = scaled (c <? 0) (Z.abs c) p.
Proof.
  intros c p Hc Hr Hp. unfold dyadic.
  destruct c as [|q|q]; try lia; cbn [binary_normalize Z.ltb Z.compare Z.abs].
  - replace p with (p - 0) at 1 by lia.
    apply binary_round_scaled;
      [lia | lia | exact Hp | rewrite Z.pow_0_r, Z.mul_1_r; reflexivity].
  - replace p with (p - 0) at 1 by lia.
    apply binary_round_scaled;
      [lia | lia | exact Hp | rewrite Z.pow_0_r, Z.mul_1_r; reflexivity].
Qed.

(** [dyadic c p] is the number [c * 2^p] itself: multiplied by [2^-p]
    when [p] is negative, it is the whole number [c * 2^p] or [c]. *)
Lemma to_Q_dyadic :
  forall c p : Z,
    - 2 ^ 53 < c < 2 ^ 53 ->
    grid p ->
    (B64.to_Q (dyadic c p) * inject_Z (2 ^ Z.max 0 (- p))
     == inject_Z (c * 2 ^ Z.max 0 p))%Q.
Proof.
  intros c p Hc Hp.
  destruct (Z.eq_dec c 0) as [-> | Hz].
  - change (dyadic 0 p) with (S754_zero false). cbn [B64.to_Q].
    rewrite Z.mul_0_l. reflexivity.
  - rewrite (dyadic_scaled c p Hz Hc Hp).
    assert (Hk : 0 < Z.abs c < 2 ^ 53) by lia.
    pose proof (Zdigits2_whole _ Hk) as HD.
    destruct (whole_mantissa _ Hk) as [HM _].
    unfold scaled, B64.to_Q.
    set (D := Zdigits2 (Z.abs c)) in *.
    assert (Hval :
              ((match (D - 53 + p)%Z with
                | Zneg q => Qmake (Zpos (Z.to_pos (Z.abs c * 2 ^ (53 - D))%Z)) (2 ^ q)%positive
                | _ => inject_Z (Zpos (Z.to_pos (Z.abs c * 2 ^ (53 - D))) * 2 ^ (D - 53 + p))%Z
                end) * inject_Z (2 ^ Z.max 0 (- p))%Z
               == inject_Z (Z.abs c * 2 ^ Z.max 0 p)%Z)%Q).
    { destruct (D - 53 + p) as [|e|e] eqn:He;
        rewrite HM; unfold Qeq, Qmult, inject_Z; cbn [Qnum Qden];
        rewrite ?Pos.mul_1_r, ?Z.mul_1_r, ?Pos2Z.inj_pow;
        try change (Zpos 2) with 2;
        try replace (Zpos e) with (53 - D - p) by lia;
        destruct (Z.max_spec 0 (- p)) as [[H1 ->] | [H1 ->]];
        destruct (Z.max_spec 0 p) as [[H2 ->] | [H2 ->]]; try lia;
        rewrite <- ?Z.mul_assoc; rewrite <- ?Z.pow_add_r by lia;
        f_equal; f_equal; lia. }
    destruct (Z.ltb_spec c 0) as [Hneg | Hpos]; cbv iota.
    + setoid_replace (inject_Z (c * 2 ^ Z.max 0 p))
        with (- inject_Z (Z.abs c * 2 ^ Z.max 0 p))%Q.
      * rewrite <- Hval. ring.
      * unfold Qeq, Qopp, inject_Z. cbn [Qnum Qden].
        rewrite Z.abs_neq by lia. ring.
    + etransitivity; [exact Hval|]. rewrite Z.abs_eq by lia. reflexivity.
Qed.




















End WholeNumbers.



(** The first point needs the finiteness: from 10^308 in steps of 10^308
    the end overflows, the spacing is infinite, and the table loaded is
    [nan, inf, inf]. *)
Lemma SynchOne_overflowing_step :
  let w := Examples.world_of Examples.bound in
  let r := SynchOne 0 [Examples.spec_of_ints (10 ^ 308) (10 ^ 308) 3]
             Examples.healthy w in
  fst r = Ret None /\
  loaded_tables (trace (snd r))
  = [[S754_nan; S754_infinity false; S754_infinity false]].
Proof. cbv zeta. split; vm_compute; reflexivity. Qed.


Section RetryCount.

Local Open Scope Q_scope.

Lemma to_Q_lower :
  forall (m : positive) (e : Z),
    (-3 <= Zpos (digits2_pos m) + e)%Z ->
    1 # 16 <= B64.to_Q (S754_finite false m e).
Proof.
  intros m e H. unfold B64.to_Q.
  destruct e as [|p|p].
  - unfold Qle. cbn [Qnum Qden inject_Z]. lia.
  - unfold Qle. cbn [Qnum Qden inject_Z].
    pose proof (Z.pow_pos_nonneg 2 (Zpos p)). nia.
  - unfold Qle. cbn [Qnum Qden].
    rewrite Pos2Z.inj_pow. rewrite digits_log2 in H.
    pose proof (Z.log2_spec (Zpos m) (Pos2Z.is_pos m)) as [Hlo _].
    assert (Hp : (2 ^ Zpos p <= 2 ^ (Z.log2 (Zpos m) + 4))%Z)
      by (apply Z.pow_le_mono_r; lia).
    rewrite Z.pow_add_r in Hp by (try apply Z.log2_nonneg; lia).
    change (2 ^ 4)%Z with 16%Z in Hp. lia.
Qed.

Lemma floor_bound :
  forall q : Q, 1 # 16 <= q -> (0 <= Qfloor (3 / q) <= 48)%Z.
Proof.
  intros q Hq.
  assert (Hpos : 0 < q) by (eapply Qlt_le_trans; [|exact Hq]; reflexivity).
  split.
  - change 0%Z with (Qfloor 0). apply Qfloor_resp_le.
    apply Qle_shift_div_l; [exact Hpos|]. rewrite Qmult_0_l. discriminate.
  - change 48%Z with (Qfloor 48). apply Qfloor_resp_le.
    apply Qle_shift_div_r; [exact Hpos|].
    setoid_replace 3 with (48 * (1 # 16)) by reflexivity.
    apply Qmult_le_l; [reflexivity | exact Hq].
Qed.

Lemma small_counts :
  forall q : Z,
    (1 <= q <= 48)%Z ->
    B64.eqb (B64.of_Z q) B64.zero = false /\
    B64.trunc (B64.of_Z q) = Py.TInt q.
Proof.
  intros q Hq.
  assert (Hall : forallb
                   (fun k => let z := Z.of_nat k in
                             (negb (B64.eqb (B64.of_Z z) B64.zero) &&
                              match B64.trunc (B64.of_Z z) with
                              | Py.TInt r => Z.eqb r z
                              | _ => false
                              end)%bool)
                   (seq 1 48) = true) by (vm_compute; reflexivity).
  rewrite forallb_forall in Hall.
  specialize (Hall (Z.to_nat q)).
  rewrite Z2Nat.id in Hall by lia.
  assert (Hin : In (Z.to_nat q) (seq 1 48)) by (apply in_seq; lia).
  specialize (Hall Hin). cbv zeta in Hall.
  apply andb_prop in Hall. destruct Hall as [H1 H2].
  split.
  - destruct (B64.eqb (B64.of_Z q) B64.zero); [discriminate | reflexivity].
  - destruct (B64.trunc (B64.of_Z q)); try discriminate.
    apply Z.eqb_eq in H2. congruence.
Qed.

End RetryCount.

(** The retry count of lines 115-120 in binary64: [timeout + 0.1] is the
    float sum, and [//] takes the floor of the quotient of 3 by it, the
    quotient not being rounded (it is read as 0 when the sum is
    infinite). *)
Lemma init_retries_nr_run :
  forall (timeout : B64.float) (hw : @link B64.float) (w : world),
    B64.ltb B64.zero timeout = true ->
    init_retries_nr timeout hw w
    = (Ret (Z.max 1 (Qfloor (3 / B64.to_Q (B64.add timeout B64.tenth)))), w).
Proof.
  intros t hw w Hlt.
  destruct t as [s | s | | s m e]; try discriminate Hlt.
  - destruct s; [discriminate Hlt|]. vm_compute. reflexivity.
  - destruct s; [discriminate Hlt|].
    unfold init_retries_nr, py_float, py_floordiv, py_int.
    cbn [f_of_int f_add f_tenth f_floordiv f_eqb f_zero f_trunc B64.binary64].
    change (B64.of_int 3) with (Some (S754_finite false 6755399441055744 (-51))).
    run.
    assert (Hthree : forall x, (B64.to_Q (S754_finite false 6755399441055744 (-51)) / x
                                == 3 / x)%Q).
    { intros x. apply Qmult_comp; reflexivity. }
    destruct (add_tenth_magnitude m e) as [Hinf | [m' [e' [Hx Hmag]]]].
    + rewrite Hinf. vm_compute. reflexivity.
    + rewrite Hx.
      change (B64.eqb (S754_finite false m' e') B64.zero) with false.
      cbv iota. unfold B64.floordiv.
      rewrite (Qfloor_comp _ _ (Hthree (B64.to_Q (S754_finite false m' e')))).
      pose proof (floor_bound _ (to_Q_lower m' e' Hmag)) as Hq.
      destruct (Qfloor (3 / B64.to_Q (S754_finite false m' e'))) as [|q|q] eqn:Eq;
        try lia.
      *  reflexivity.
      *  destruct (small_counts (Zpos q)) as [H1 H2]; [lia|].
         cbn [xorb]. rewrite H1, H2.
         rewrite Z.max_r by lia. reflexivity.
Qed.

(** The run of [__init__] in binary64 for a positive timeout. *)
Lemma init_run :
  forall (AxisInfos alias : string) (timeout : B64.float)
         (EcamSource : option (list (Z * string)))
         (hw : @link B64.float) (w : world),
    B64.ltb B64.zero timeout = true ->
    init AxisInfos alias timeout EcamSource hw w
    = (Ret tt,
       {| ctl := {| IcepapCtrlAlias := alias;
                    Timeout := timeout;
                    _time_mode := false;
                    _start_trigger_only := false;
                    _axis_info_list := map Py.str_strip (Py.split_on "," AxisInfos);
                    _retries_nr :=
                      Z.max 1 (Qfloor (3 / B64.to_Q (B64.add timeout B64.tenth)));
                    _last_id := None;
                    _motor_axis := None;
                    _motor_spu := B64.of_Z 1;
                    _is_tgtenc := false;
                    _ecam_source_dict := EcamSource;
                    _ecam_source := "AXIS" |};
          trace := trace w;
          log := log w ++ [(Debug, "IcePAPTriggerCtr init...."%string)] |}).
Proof.
  intros AxisInfos alias timeout EcamSource hw w Hlt.
  unfold init. run. rewrite (init_retries_nr_run timeout hw _ Hlt). reflexivity.
Qed.

(** C6, amended. For every positive binary64 timeout, [__init__] returns
    and the retry count it stores in [_retries_nr], the field the loops of
    [StateOne] and [SynchOne] count their attempts by, is
    [max(1, floor(3 / s))] where [s] is the float sum [timeout + 0.1] and
    the quotient [3 / s] is the exact one, not rounded to a float before
    the floor is taken (it is read as 0 when the sum is infinite). *)
Theorem init_retries_nr_formula :
  forall (AxisInfos alias : string) (timeout : B64.float)
         (EcamSource : option (list (Z * string)))
         (hw : @link B64.float) (w : world),
    B64.ltb B64.zero timeout = true ->
    fst (init AxisInfos alias timeout EcamSource hw w) = Ret tt /\
    _retries_nr (ctl (snd (init AxisInfos alias timeout EcamSource hw w)))
    = Z.max 1 (Qfloor (3 / B64.to_Q (B64.add timeout B64.tenth))).
Proof.
  intros AxisInfos alias timeout EcamSource hw w Hlt.
  rewrite (init_run AxisInfos alias timeout EcamSource hw w Hlt).
  split; reflexivity.
Qed.

(** A witness for C6 amended: the default timeout of 0.5 stores 5
    retries. *)
Lemma init_retries_nr_formula_witness :
  _retries_nr
    (ctl (snd (init "InfoA" "ipap" (S754_finite false 4503599627370496 (-53)) None
                 Examples.healthy (Examples.world_of Examples.fresh))))
  = 5.
Proof.
  etransitivity.
  - exact (proj2 (init_retries_nr_formula "InfoA" "ipap"
                    (S754_finite false 4503599627370496 (-53)) None
                    Examples.healthy (Examples.world_of Examples.fresh) eq_refl)).
  - vm_compute. reflexivity.
Defined.

(** C6 fails as stated: for a timeout of 0.1 the controller stores 14,
    where the formula gives 15, both with the operations of binary64
    (the sum is the float just above 0.2 and the float quotient rounds to
    15) and on the real numbers. *)
Lemma init_retries_nr_at_tenth :
  let r := init "InfoA" "ipap" B64.tenth None
             Examples.healthy (Examples.world_of Examples.fresh) in
  fst r = Ret tt /\
  _retries_nr (ctl (snd r)) = 14 /\
  spec_retries_nr B64.tenth = 15 /\
  Z.max 1 (Qfloor (3 / ((1 # 10) + (1 # 10)))) = 15.
Proof.
  cbv zeta. repeat split; vm_compute; reflexivity.
Qed.

(* ================================================================== *)
(** ** Further properties of the controller *)

Section TimeMode.

Context {F : Type} {PF : PyFloat F}.

(** X1. A time-driven group (no [Initial] entry) with at most one repeat
    switches the controller to time mode and returns; no call is sent and
    nothing is logged. *)
Theorem SynchOne_time_single_pulse :
  forall (hw : @link F) (w : world) (axis : Z)
         (g : synch_group F) (rest : list (synch_group F)) (n : Z),
    Repeats g = Some n ->
    Initial g = None ->
    n <= 1 ->
    SynchOne axis (g :: rest) hw w
    = (Ret None, {| ctl := set_time_mode true (ctl w);
                    trace := trace w;
                    log := log w |}).
Proof.
  intros hw w axis g rest n Hn Hi Hle.
  unfold SynchOne. rewrite Hn, Hi. run.
  replace (1 <? n) with false by (symmetry; apply Z.ltb_ge; lia).
  reflexivity.
Qed.

(** X2. A position-driven group whose target-encoder read fails (no axis
    object, or no text for TGTENC): [SynchOne] logs the error and returns
    [False]; the controller is in position mode, the read is the only
    call that may have been sent, and the positions of the group have not
    been looked at. *)
Theorem SynchOne_tgtenc_unreadable :
  forall (hw : @link F) (w : world) (axis : Z)
         (g : synch_group F) (rest : list (synch_group F))
         (n : Z) (i : domain_values F),
    Repeats g = Some n ->
    Initial g = Some i ->
    (has_axis hw (_motor_axis (ctl w)) = false \/
     forall t, answer hw (trace w) (GetCfg (_motor_axis (ctl w)) "TGTENC") <> Text t) ->
    SynchOne axis (g :: rest) hw w
    = (Ret (Some false),
       {| ctl := set_time_mode false (ctl w);
          trace := trace w ++
                   (if has_axis hw (_motor_axis (ctl w))
                    then [GetCfg (_motor_axis (ctl w)) "TGTENC"] else []);
          log := log w ++ [(Error, "SynchOne(%d).\nException:\n%s"%string)] |}).
Proof.
  intros hw w axis g rest n i Hn Hi Hfail.
  unfold SynchOne. rewrite Hn, Hi. run.
  destruct (has_axis hw (_motor_axis (ctl w))) eqn:Hax; run.
  - destruct Hfail as [Hf | Hf]; [discriminate|].
    destruct (answer hw (trace w) (GetCfg (_motor_axis (ctl w)) "TGTENC")) eqn:Ha;
      run; try reflexivity.
    exfalso. exact (Hf s eq_refl).
  - rewrite app_nil_r. reflexivity.
Qed.

End TimeMode.

(** A witness for X1: one pulse by time. *)
Lemma SynchOne_time_single_pulse_witness :
  SynchOne 0 [Examples.time_spec 1] Examples.healthy (Examples.world_of Examples.bound)
  = (Ret None, {| ctl := set_time_mode true Examples.bound; trace := []; log := [] |}).
Proof.
  apply (SynchOne_time_single_pulse Examples.healthy (Examples.world_of Examples.bound)
           0 (Examples.time_spec 1) [] 1); first [reflexivity | lia].
Defined.

(** A witness for X2: a position scan on an IcePAP that answers nothing. *)
Lemma SynchOne_tgtenc_unreadable_witness :
  fst (SynchOne 0 [Examples.spec_of_ints 0 1 3] Examples.dead
         (Examples.world_of Examples.bound)) = Ret (Some false).
Proof.
  rewrite (SynchOne_tgtenc_unreadable Examples.dead (Examples.world_of Examples.bound)
             0 (Examples.spec_of_ints 0 1 3) [] 3
             {| Position := Some (B64.of_Z 0); Time := None |} eq_refl eq_refl).
  - reflexivity.
  - right. intros t. cbn. discriminate.
Defined.

Section FieldFrames.

Context {F : Type} {PF : PyFloat F}.

Variable P : @controller F -> Prop.

Lemma keeps_ret : forall A (a : A), keeps P (ret a).
Proof. intros A a hw w H. exact H. Qed.

Lemma keeps_raise : forall A e, keeps P (@raise F A e).
Proof. intros A e hw w H. exact H. Qed.

Lemma keeps_self : keeps P (@self F).
Proof. intros hw w H. exact H. Qed.

Lemma keeps_log : forall l msg, keeps P (@log_msg F l msg).
Proof. intros l msg hw w H. exact H. Qed.

Lemma keeps_send : forall c, keeps P (@send F c).
Proof. intros c hw w H. exact H. Qed.

Lemma keeps_ipap_axis : forall a, keeps P (@ipap_axis F a).
Proof. intros a hw w H. unfold ipap_axis. destruct (has_axis hw a); exact H. Qed.

Lemma keeps_set_self :
  forall f : @controller F -> @controller F,
    (forall c, P c -> P (f c)) -> keeps P (set_self f).
Proof. intros f Hf hw w H. apply Hf. exact H. Qed.

Lemma keeps_bind :
  forall A B (m : @M F A) (k : A -> @M F B),
    keeps P m -> (forall a, keeps P (k a)) -> keeps P (bind m k).
Proof.
  intros A B m k Hm Hk hw w H. unfold bind.
  specialize (Hm hw w H).
  destruct (m hw w) as [[a|e] w']; cbn [snd] in *.
  - apply Hk. exact Hm.
  - exact Hm.
Qed.

Lemma keeps_try_except :
  forall A (m : @M F A) (h : Py.exn -> @M F A),
    keeps P m -> (forall e, keeps P (h e)) -> keeps P (try_except m h).
Proof.
  intros A m h Hm Hh hw w H. unfold try_except.
  specialize (Hm hw w H).
  destruct (m hw w) as [[a|e] w']; cbn [snd] in *.
  - exact Hm.
  - apply Hh. exact Hm.
Qed.

Lemma keeps_item : forall A (v : option A), keeps P (item v).
Proof. intros A [a|]; [apply keeps_ret | apply keeps_raise]. Qed.

Lemma keeps_expect_done : forall c, keeps P (@expect_done F c).
Proof.
  intros c. apply keeps_bind; [apply keeps_send|].
  intros []; first [apply keeps_ret | apply keeps_raise].
Qed.

Lemma keeps_expect_text : forall c, keeps P (@expect_text F c).
Proof.
  intros c. apply keeps_bind; [apply keeps_send|].
  intros []; first [apply keeps_ret | apply keeps_raise].
Qed.

Lemma keeps_expect_lines : forall c, keeps P (@expect_lines F c).
Proof.
  intros c. apply keeps_bind; [apply keeps_send|].
  intros []; first [apply keeps_ret | apply keeps_raise].
Qed.

Lemma keeps_expect_status : forall c, keeps P (@expect_status F c).
Proof.
  intros c. apply keeps_bind; [apply keeps_send|].
  intros []; first [apply keeps_ret | apply keeps_raise].
Qed.

Lemma keeps_expect_number : forall c, keeps P (@expect_number F c).
Proof.
  intros c. apply keeps_bind; [apply keeps_send|].
  intros []; first [apply keeps_ret | apply keeps_raise].
Qed.

Lemma keeps_reads_cfg_only :
  forall A (m : @M F A), reads_cfg_only m -> keeps P m.
Proof.
  intros A m Hm hw w H. rewrite (proj1 (Hm hw w)). exact H.
Qed.

Lemma keeps_clear_e0 : forall pmux, keeps P (clear_e0 pmux).
Proof.
  induction pmux as [|p r IH]; cbn [clear_e0]; [apply keeps_ret|].
  destruct (Py.contains "E0" p); [apply keeps_expect_done | exact IH].
Qed.

Lemma keeps_set_infos :
  forall infos axis value, keeps P (set_infos axis infos value).
Proof.
  induction infos as [|i r IH]; intros axis value; cbn [set_infos];
    [apply keeps_ret|].
  apply keeps_bind; [apply keeps_expect_done | intros _; apply IH].
Qed.

Lemma keeps_StateOne_read :
  forall attempts i, keeps P (StateOne_read attempts i).
Proof.
  induction attempts as [|k IH]; intros i; cbn [StateOne_read];
    [apply keeps_ret|].
  apply keeps_bind.
  - apply keeps_try_except.
    + apply keeps_bind; [apply keeps_self | intros s].
      apply keeps_bind; [apply keeps_ipap_axis | intros _].
      apply keeps_bind; [apply keeps_expect_status | intros st; apply keeps_ret].
    + intros e. apply keeps_bind; [apply keeps_log | intros _; apply keeps_ret].
  - intros [st|]; [apply keeps_ret | apply IH].
Qed.

Lemma keeps_SynchOne_load :
  forall attempts i table, keeps P (SynchOne_load attempts i table).
Proof.
  induction attempts as [|k IH]; intros i table; cbn [SynchOne_load];
    [apply keeps_ret|].
  apply keeps_bind.
  - apply keeps_try_except.
    + apply keeps_bind; [apply keeps_self | intros s].
      apply keeps_bind; [apply keeps_ipap_axis | intros _].
      apply keeps_bind; [apply keeps_expect_done | intros _; apply keeps_ret].
    + intros e. apply keeps_bind; [apply keeps_log | intros _; apply keeps_ret].
  - intros [|]; [apply keeps_ret | apply IH].
Qed.

(** [StateOne] keeps every property of the fields. *)
Lemma keeps_StateOne : forall axis, keeps P (StateOne axis).
Proof.
  intros axis. unfold StateOne.
  apply keeps_bind; [apply keeps_self | intros s].
  destruct (_motor_axis s); [|apply keeps_ret].
  apply keeps_bind; [apply keeps_StateOne_read | intros [st|]].
  - destruct (negb (is_poweron st)); [apply keeps_ret|].
    destruct (is_moving st || is_settling st)%bool; apply keeps_ret.
  - apply keeps_ret.
Qed.

(** [SynchOne] keeps what the two mode fields do not touch. *)
Lemma keeps_SynchOne :
  (forall b c, P c -> P (set_time_mode b c)) ->
  (forall b c, P c -> P (set_is_tgtenc b c)) ->
  forall axis configuration, keeps P (SynchOne axis configuration).
Proof.
  intros Htm Htg axis [|g rest]; unfold SynchOne; [apply keeps_raise|].
  apply keeps_bind; [apply keeps_item | intros n].
  destruct (Initial g).
  - apply keeps_bind; [apply keeps_set_self; apply Htm | intros _].
    apply keeps_bind.
    + apply keeps_try_except.
      * apply keeps_bind; [apply keeps_self | intros s].
        apply keeps_bind.
        { unfold get_cfg. apply keeps_bind;
            [apply keeps_ipap_axis | intros _; apply keeps_expect_text]. }
        intros t. apply keeps_bind;
          [apply keeps_set_self; apply Htg | intros _; apply keeps_ret].
      * intros e. apply keeps_bind; [apply keeps_log | intros _; apply keeps_ret].
    + intros read. destruct (negb read); [apply keeps_ret|].
      apply keeps_bind;
        [apply keeps_reads_cfg_only; apply SynchOne_bounds_reads | intros [[s0 d0] e0]].
      apply keeps_bind.
      * unfold SynchOne_table.
        apply keeps_bind; [apply keeps_self | intros c].
        destruct (_start_trigger_only c).
        { apply keeps_bind; [apply keeps_log | intros _; apply keeps_ret]. }
        destruct (MAX_ECAM_VALUES <? n); [apply keeps_raise|].
        apply keeps_bind.
        { unfold np_linspace. destruct (n <? 0);
            [apply keeps_raise | apply keeps_ret]. }
        intros tb. apply keeps_bind; [apply keeps_log | intros _; apply keeps_ret].
      * intros tb. apply keeps_bind; [apply keeps_self | intros c].
        apply keeps_bind; [apply keeps_SynchOne_load | intros [|]];
          [apply keeps_ret | apply keeps_raise].
  - destruct (1 <? n); [apply keeps_raise|].
    apply keeps_bind; [apply keeps_set_self; apply Htm | intros _; apply keeps_ret].
Qed.

(** [_set_out] keeps what the two source fields do not touch. *)
Lemma keeps__set_out :
  (forall s c, P c -> P (set_ecam_source s c)) ->
  (forall d c, P c -> P (set_ecam_source_dict d c)) ->
  forall out axis, keeps P (_set_out out axis).
Proof.
  intros Hs Hd out axis. unfold _set_out.
  apply keeps_bind; [apply keeps_self | intros s].
  apply keeps_bind; [apply keeps_ipap_axis | intros _].
  destruct (axis =? 0); [|apply keeps_set_infos].
  apply keeps_bind; [apply keeps_expect_done | intros _].
  destruct (ecam_entry s) as [[a configured]|];
    [|apply keeps_set_self; apply Hs].
  apply keeps_bind.
  - destruct (String.eqb _ "TGTENC"); [|apply keeps_ret].
    apply keeps_bind; [apply keeps_expect_text | intros e].
    apply keeps_bind; [apply keeps_set_self; intros c; apply Hd | intros _].
    apply keeps_ret.
  - intros enc. destruct (Py.str_in enc ECAM_SOURCE_VALUES).
    + apply keeps_bind; [apply keeps_self | intros s'].
      destruct (ecam_entry s') as [[a' src]|];
        [apply keeps_set_self; apply Hs | apply keeps_raise].
    + apply keeps_bind; [apply keeps_log | intros _].
      apply keeps_set_self; apply Hs.
Qed.

(** [_configureMotor] keeps what the three binding fields do not touch. *)
Lemma keeps__configureMotor :
  (forall a c, P c -> P (set_motor_axis a c)) ->
  (forall x c, P c -> P (set_motor_spu x c)) ->
  (forall i c, P c -> P (set_last_id i c)) ->
  forall id_ axis, keeps P (_configureMotor id_ axis).
Proof.
  intros Ha Hx Hi id_ axis. unfold _configureMotor.
  apply keeps_bind; [apply keeps_self | intros s].
  apply keeps_bind; [apply keeps_expect_done | intros _].
  apply keeps_bind; [apply keeps_set_self; apply Ha | intros _].
  apply keeps_bind; [apply keeps_expect_number | intros spu].
  apply keeps_bind; [apply keeps_set_self; apply Hx | intros _].
  apply keeps_bind; [apply keeps_self | intros s'].
  destruct (match _last_id s' with Some l => id_ =? l | None => false end);
    [apply keeps_ret|].
  apply keeps_bind; [apply keeps_set_self; apply Hi | intros _].
  destruct (axis =? 0); [|apply keeps_ret].
  apply keeps_bind; [apply keeps_expect_lines | intros pmux].
  apply keeps_bind; [apply keeps_clear_e0 | intros _].
  apply keeps_bind; [apply keeps_self | intros s''].
  apply keeps_bind; [apply keeps_expect_done | intros _].
  apply keeps_bind; [apply keeps_expect_lines | intros pmux'].
  apply keeps_log.
Qed.

End FieldFrames.

Section Ownership.

Context {F : Type} {PF : PyFloat F}.

(** X3. Whatever the configuration and the link, and whether it returns
    or raises, [SynchOne] changes no field of the controller other than
    [_time_mode] and [_is_tgtenc]: the bound motor, its scale, the
    selected source, the retry count and [StartTriggerOnly] stay. *)
Theorem SynchOne_changes_mode_only :
  forall (hw : @link F) (w : world) (axis : Z)
         (configuration : list (synch_group F)),
    same_but_mode (ctl w) (ctl (snd (SynchOne axis configuration hw w))).
Proof.
  intros hw w axis configuration.
  apply (keeps_SynchOne (same_but_mode (ctl w))).
  - intros b c H. exact H.
  - intros b c H. exact H.
  - repeat split; reflexivity.
Qed.

Lemma keeps_PreStartOne :
  forall (P : @controller F -> Prop),
    (forall s c, P c -> P (set_ecam_source s c)) ->
    (forall d c, P c -> P (set_ecam_source_dict d c)) ->
    forall axis, keeps P (PreStartOne axis).
Proof.
  intros P Hs Hd axis. unfold PreStartOne.
  apply keeps_bind; [apply keeps_self | intros s].
  apply keeps_bind; [|intros _; apply keeps_ret].
  destruct (_time_mode s); apply keeps__set_out; assumption.
Qed.

Lemma keeps_StartOne :
  forall (P : @controller F -> Prop),
    (forall s c, P c -> P (set_ecam_source s c)) ->
    (forall d c, P c -> P (set_ecam_source_dict d c)) ->
    forall axis, keeps P (StartOne axis).
Proof.
  intros P Hs Hd axis. unfold StartOne.
  apply keeps_bind; [apply keeps_self | intros s].
  destruct (_time_mode s).
  - apply keeps_bind; [|intros _]; apply keeps__set_out; assumption.
  - destruct (_is_tgtenc s); [|apply keeps_ret].
    apply keeps_bind; [apply keeps_ipap_axis | intros _].
    apply keeps_bind; [apply keeps_expect_text | intros name].
    apply keeps_bind; [apply keeps_log | intros _].
    apply keeps_bind; [apply keeps_ipap_axis | intros _].
    apply keeps_expect_done.
Qed.

Lemma keeps_AbortOne :
  forall (P : @controller F -> Prop),
    (forall s c, P c -> P (set_ecam_source s c)) ->
    (forall d c, P c -> P (set_ecam_source_dict d c)) ->
    forall axis, keeps P (AbortOne axis).
Proof.
  intros P Hs Hd axis. unfold AbortOne.
  apply keeps_bind; [apply keeps_log | intros _].
  apply keeps__set_out; assumption.
Qed.

Lemma keeps_SetAxisPar :
  forall (P : @controller F -> Prop),
    (forall a c, P c -> P (set_motor_axis a c)) ->
    (forall x c, P c -> P (set_motor_spu x c)) ->
    (forall i c, P c -> P (set_last_id i c)) ->
    forall axis par value, keeps P (SetAxisPar axis par value).
Proof.
  intros P Ha Hx Hi axis par value. unfold SetAxisPar.
  destruct ((axis =? 0) && String.eqb par "active_input")%bool;
    [apply keeps__configureMotor; assumption | apply keeps_raise].
Qed.

(** X4. [PreStartOne], [StartOne] and [AbortOne] change no field other
    than the selected source ([_ecam_source], [_ecam_source_dict]),
    whatever the link answers: in particular an abort keeps the mode, the
    bound motor and its scale. *)
Theorem output_methods_change_source_only :
  forall (hw : @link F) (w : world) (axis : Z),
    same_but_source (ctl w) (ctl (snd (PreStartOne axis hw w))) /\
    same_but_source (ctl w) (ctl (snd (StartOne axis hw w))) /\
    same_but_source (ctl w) (ctl (snd (AbortOne axis hw w))).
Proof.
  intros hw w axis.
  assert (H0 : same_but_source (ctl w) (ctl w)) by (repeat split; reflexivity).
  split; [|split].
  - apply (keeps_PreStartOne (same_but_source (ctl w)));
      [intros ? ? H; exact H | intros ? ? H; exact H | exact H0].
  - apply (keeps_StartOne (same_but_source (ctl w)));
      [intros ? ? H; exact H | intros ? ? H; exact H | exact H0].
  - apply (keeps_AbortOne (same_but_source (ctl w)));
      [intros ? ? H; exact H | intros ? ? H; exact H | exact H0].
Qed.

(** X5. Once built, the controller never changes the fields [__init__]
    derived from its properties: the retry count, the list of info
    outputs, the alias and the timeout are the same after [StateOne],
    [SynchOne], [PreStartOne], [StartOne], [AbortOne], [SetAxisPar] and
    [setStartTriggerOnly], whatever they were called with and however
    they ended. *)
Theorem methods_keep_config :
  forall (hw : @link F) (w : world) (axis : Z)
         (configuration : list (synch_group F)) (par : string) (value : Z)
         (flag : bool),
    same_config (ctl w) (ctl (snd (StateOne axis hw w))) /\
    same_config (ctl w) (ctl (snd (SynchOne axis configuration hw w))) /\
    same_config (ctl w) (ctl (snd (PreStartOne axis hw w))) /\
    same_config (ctl w) (ctl (snd (StartOne axis hw w))) /\
    same_config (ctl w) (ctl (snd (AbortOne axis hw w))) /\
    same_config (ctl w) (ctl (snd (SetAxisPar axis par value hw w))) /\
    same_config (ctl w) (ctl (snd (setStartTriggerOnly axis flag hw w))).
Proof.
  intros hw w axis configuration par value flag.
  assert (H0 : same_config (ctl w) (ctl w)) by (repeat split; reflexivity).
  refine (conj _ (conj _ (conj _ (conj _ (conj _ (conj _ _)))))).
  - apply (keeps_StateOne (same_config (ctl w))). exact H0.
  - apply (keeps_SynchOne (same_config (ctl w)));
      [intros ? ? H; exact H | intros ? ? H; exact H | exact H0].
  - apply (keeps_PreStartOne (same_config (ctl w)));
      [intros ? ? H; exact H | intros ? ? H; exact H | exact H0].
  - apply (keeps_StartOne (same_config (ctl w)));
      [intros ? ? H; exact H | intros ? ? H; exact H | exact H0].
  - apply (keeps_AbortOne (same_config (ctl w)));
      [intros ? ? H; exact H | intros ? ? H; exact H | exact H0].
  - apply (keeps_SetAxisPar (same_config (ctl w)));
      [intros ? ? H; exact H | intros ? ? H; exact H
      | intros ? ? H; exact H | exact H0].
  - exact H0.
Qed.

End Ownership.

Section Retries.

Context {F : Type} {PF : PyFloat F}.

Lemma repeat_app_one :
  forall (A : Type) (x : A) (k : nat), repeat x k ++ [x] = x :: repeat x k.
Proof.
  intros A x k. induction k as [|k IH]; [reflexivity|].
  cbn [repeat app]. rewrite IH. reflexivity.
Qed.

(** The reading loop returns, sends state reads only and at most one per
    attempt. *)
Lemma StateOne_read_shape :
  forall (hw : @link F) (attempts : nat) (i : Z) (w : world),
    let r := StateOne_read attempts i hw w in
    (exists o, fst r = Ret o) /\
    exists l,
      trace (snd r) = trace w ++ l /\
      forallb is_state_read l = true /\
      (List.length l <= attempts)%nat.
Proof.
  intros hw attempts. induction attempts as [|n IH]; intros i w r; subst r.
  - cbn. split; [eexists; reflexivity|].
    exists []. rewrite app_nil_r. repeat split; auto.
  - cbn [StateOne_read]. run.
    destruct (has_axis hw (_motor_axis (ctl w))); run.
    + destruct (answer hw (trace w) (ReadState (_motor_axis (ctl w))))
        as [| | t | ls | st | x]; run.
      5: { split; [eexists; reflexivity|].
           exists [ReadState (_motor_axis (ctl w))]. repeat split; cbn; lia. }
      all: match goal with
           | |- context [StateOne_read _ ?j _ ?w1] =>
               destruct (IH j w1) as [Ho [l [Ht [Hl Hn]]]]
           end;
        cbn [trace] in Ht;
        (split; [exact Ho|]);
        exists (ReadState (_motor_axis (ctl w)) :: l);
        rewrite Ht, <- app_assoc;
        (split; [reflexivity|]);
        (split; [cbn [forallb is_state_read]; exact Hl | cbn [List.length]; lia]).
    + match goal with
      | |- context [StateOne_read _ ?j _ ?w1] =>
          destruct (IH j w1) as [Ho [l [Ht [Hl Hn]]]]
      end.
      cbn [trace] in Ht.
      split; [exact Ho|]. exists l. repeat split; try assumption. lia.
Qed.

(** X6. [StateOne] never raises and changes no field: whatever the link
    answers, it returns a state and a message, and what it has sent are
    state reads, at most [_retries_nr] of them. *)
Theorem StateOne_always_answers :
  forall (hw : @link F) (w : world) (axis : Z),
    let r := StateOne axis hw w in
    (exists st msg, fst r = Ret (st, msg)) /\
    ctl (snd r) = ctl w /\
    forallb is_state_read (calls_since w (snd r)) = true /\
    (List.length (calls_since w (snd r)) <= Z.to_nat (_retries_nr (ctl w)))%nat.
Proof.
  intros hw w axis r.
  assert (Hc : ctl (snd r) = ctl w).
  { subst r. apply (keeps_StateOne (fun c => c = ctl w)). reflexivity. }
  split; [|split; [exact Hc|]]; subst r; unfold StateOne; run.
  - destruct (_motor_axis (ctl w)); [|eexists; eexists; reflexivity].
    destruct (StateOne_read_shape hw (Z.to_nat (_retries_nr (ctl w))) 0 w)
      as [[o Ho] _].
    destruct (StateOne_read _ 0 hw w) as [o' w']. cbn [fst] in Ho. subst o'.
    destruct o as [st|]; [|eexists; eexists; reflexivity].
    destruct (negb (is_poweron st)); [eexists; eexists; reflexivity|].
    destruct (is_moving st || is_settling st)%bool; eexists; eexists; reflexivity.
  - destruct (_motor_axis (ctl w)).
    2: { unfold calls_since. cbn [snd]. rewrite skipn_all. split; [reflexivity|].
         cbn. lia. }
    destruct (StateOne_read_shape hw (Z.to_nat (_retries_nr (ctl w))) 0 w)
      as [[o Ho] [l [Ht [Hl Hn]]]].
    destruct (StateOne_read _ 0 hw w) as [o' w']. cbn [fst snd] in *. subst o'.
    assert (Hcs : calls_since w w' = l) by (apply calls_since_app; exact Ht).
    destruct o as [st|]; run.
    + destruct (negb (is_poweron st)); run;
        [rewrite Hcs; split; assumption|].
      destruct (is_moving st || is_settling st)%bool; run;
        rewrite Hcs; split; assumption.
    + rewrite Hcs. split; assumption.
Qed.

(** The reading loop stops at the first state it can read. *)
Lemma StateOne_read_until :
  forall (hw : @link F) (st : hw_state) (attempts : nat) (i : Z) (w : world)
         (k : nat),
    has_axis hw (_motor_axis (ctl w)) = true ->
    (k < attempts)%nat ->
    (forall j, (j < k)%nat ->
       forall s, answer hw (trace w ++ repeat (ReadState (_motor_axis (ctl w))) j)
                   (ReadState (_motor_axis (ctl w))) <> Status s) ->
    answer hw (trace w ++ repeat (ReadState (_motor_axis (ctl w))) k)
      (ReadState (_motor_axis (ctl w))) = Status st ->
    StateOne_read attempts i hw w
    = (Ret (Some st),
       {| ctl := ctl w;
          trace := trace w ++ repeat (ReadState (_motor_axis (ctl w))) (S k);
          log := log w ++ repeat (Error, "State reading error retry: {0}"%string) k |}).
Proof.
  intros hw st attempts. induction attempts as [|n IH]; intros i w k Hax Hk Hfail Hok;
    [lia|].
  cbn [StateOne_read]. run. rewrite Hax. run.
  destruct k as [|k].
  - cbn [repeat] in Hok. rewrite app_nil_r in Hok. rewrite Hok. run.
    rewrite app_nil_r. reflexivity.
  - pose proof (Hfail 0%nat (Nat.lt_0_succ k)) as H0.
    cbn [repeat] in H0. rewrite app_nil_r in H0.
    destruct (answer hw (trace w) (ReadState (_motor_axis (ctl w)))) eqn:Ha; run;
      try (exfalso; exact (H0 _ eq_refl)).
    all: match goal with
         | |- StateOne_read _ ?j _ ?w1 = _ =>
             rewrite (IH j w1 k)
         end;
      cbn [ctl trace log];
      [ rewrite <- !app_assoc; reflexivity
      | exact Hax
      | lia
      | intros j Hj ?; rewrite <- app_assoc; apply (Hfail (S j)); lia
      | rewrite <- app_assoc; exact Hok ].
Qed.

(** X7. With a motor bound, [StateOne] reports the first state it manages
    to read: after [k] failed reads, [k] below [_retries_nr], and a read
    that delivers [st], it has sent [k + 1] reads, logged [k] errors, and
    answers Alarm when the power is off, Moving when the axis moves or
    settles, On otherwise. *)
Theorem StateOne_first_readable_state :
  forall (hw : @link F) (w : world) (axis a : Z) (st : hw_state) (k : nat),
    _motor_axis (ctl w) = Some a ->
    has_axis hw (Some a) = true ->
    (k < Z.to_nat (_retries_nr (ctl w)))%nat ->
    (forall j, (j < k)%nat ->
       forall s, answer hw (trace w ++ repeat (ReadState (Some a)) j)
                   (ReadState (Some a)) <> Status s) ->
    answer hw (trace w ++ repeat (ReadState (Some a)) k) (ReadState (Some a))
    = Status st ->
    exists msg,
      StateOne axis hw w
      = (Ret (state_of st, msg),
         {| ctl := ctl w;
            trace := trace w ++ repeat (ReadState (Some a)) (S k);
            log := log w ++ repeat (Error, "State reading error retry: {0}"%string) k |}).
Proof.
  intros hw w axis a st k Ha Hax Hk Hfail Hok.
  unfold StateOne. unfold bind at 1, self at 1. rewrite Ha.
  unfold bind.
  rewrite (StateOne_read_until hw st (Z.to_nat (_retries_nr (ctl w))) 0 w k);
    rewrite ?Ha; try assumption.
  unfold state_of.
  destruct (negb (is_poweron st)); [eexists; reflexivity|].
  destruct (is_moving st || is_settling st)%bool; eexists; reflexivity.
Qed.

End Retries.

(** A witness for X7: two failed reads, then a moving axis. *)
Lemma StateOne_first_readable_state_witness :
  exists msg,
    StateOne 0 (Cases.reads_from 2 Cases.moving) (Examples.world_of Examples.bound)
    = (Ret (Moving, msg),
       {| ctl := Examples.bound;
          trace := repeat (ReadState (Some 1)) 3;
          log := repeat (Error, "State reading error retry: {0}"%string) 2 |}).
Proof.
  apply (StateOne_first_readable_state (Cases.reads_from 2 Cases.moving)
           (Examples.world_of Examples.bound) 0 1 Cases.moving 2).
  - reflexivity.
  - reflexivity.
  - cbn. lia.
  - intros j Hj s.
    destruct j as [|[|j]]; [cbn; discriminate | cbn; discriminate | lia].
  - reflexivity.
Defined.

Section LoadRetries.

Context {F : Type} {PF : PyFloat F}.

(** The loading loop stops at the first load the IcePAP accepts. *)
Lemma SynchOne_load_until :
  forall (hw : @link F) (table : list F) (attempts : nat) (i : Z) (w : world)
         (k : nat),
    has_axis hw (_motor_axis (ctl w)) = true ->
    (k < attempts)%nat ->
    (forall j, (j < k)%nat ->
       answer hw (trace w ++ repeat (load_call w table) j) (load_call w table)
       <> Done) ->
    answer hw (trace w ++ repeat (load_call w table) k) (load_call w table) = Done ->
    SynchOne_load attempts i table hw w
    = (Ret true,
       {| ctl := ctl w;
          trace := trace w ++ repeat (load_call w table) (S k);
          log := log w ++ repeat retry_warning k |}).
Proof.
  intros hw table attempts.
  induction attempts as [|n IH]; intros i w k Hax Hk Hfail Hok; [lia|].
  cbn [SynchOne_load]. run. rewrite Hax. run.
  unfold load_call in *.
  destruct k as [|k].
  - cbn [repeat] in Hok. rewrite app_nil_r in Hok. rewrite Hok. run.
    rewrite app_nil_r. reflexivity.
  - pose proof (Hfail 0%nat (Nat.lt_0_succ k)) as H0.
    cbn [repeat] in H0. rewrite app_nil_r in H0.
    destruct (answer hw (trace w) _) eqn:Ha; run;
      try (exfalso; exact (H0 eq_refl)).
    all: match goal with
         | |- SynchOne_load _ ?j _ _ ?w1 = _ =>
             rewrite (IH j w1 k)
         end;
      cbn [ctl trace log];
      [ rewrite <- !app_assoc; reflexivity
      | exact Hax
      | lia
      | intros j Hj; rewrite <- app_assoc; apply (Hfail (S j)); lia
      | rewrite <- app_assoc; exact Hok ].
Qed.

(** The loading loop makes every attempt when none is accepted. *)
Lemma SynchOne_load_exhausted :
  forall (hw : @link F) (table : list F) (attempts : nat) (i : Z) (w : world),
    has_axis hw (_motor_axis (ctl w)) = true ->
    (forall j, (j < attempts)%nat ->
       answer hw (trace w ++ repeat (load_call w table) j) (load_call w table)
       <> Done) ->
    SynchOne_load attempts i table hw w
    = (Ret false,
       {| ctl := ctl w;
          trace := trace w ++ repeat (load_call w table) attempts;
          log := log w ++ repeat retry_warning attempts |}).
Proof.
  intros hw table attempts.
  induction attempts as [|n IH]; intros i w Hax Hfail.
  - cbn. rewrite !app_nil_r. destruct w; reflexivity.
  - cbn [SynchOne_load]. run. rewrite Hax. run.
    unfold load_call in *.
    pose proof (Hfail 0%nat (Nat.lt_0_succ n)) as H0.
    cbn [repeat] in H0. rewrite app_nil_r in H0.
    destruct (answer hw (trace w) _) eqn:Ha; run;
      try (exfalso; exact (H0 eq_refl)).
    all: match goal with
         | |- SynchOne_load _ ?j _ _ ?w1 = _ =>
             rewrite (IH j w1)
         end;
      cbn [ctl trace log];
      [ rewrite <- !app_assoc; reflexivity
      | exact Hax
      | intros j Hj; rewrite <- app_assoc; apply (Hfail (S j)); lia ].
Qed.

(** X8. A position-driven [SynchOne] with all triggers asked for retries
    the load of its table until the IcePAP accepts it: after [k] refused
    loads, [k] below [_retries_nr], and an accepted one, it returns
    normally having sent the same table [k + 1] times and logged [k]
    warnings. *)
Theorem SynchOne_retries_until_loaded :
  forall (hw : @link F) (w w2 : world) (axis : Z)
         (g : synch_group F) (rest : list (synch_group F))
         (n : Z) (i : domain_values F) (t : string) (start delta end_ : F)
         (k : nat),
    Repeats g = Some n ->
    Initial g = Some i ->
    0 <= n <= MAX_ECAM_VALUES ->
    _start_trigger_only (ctl w) = false ->
    has_axis hw (_motor_axis (ctl w)) = true ->
    answer hw (trace w) (GetCfg (_motor_axis (ctl w)) "TGTENC") = Text t ->
    SynchOne_bounds g n hw (after_tgtenc w t) = (Ret (start, delta, end_), w2) ->
    let c := load_call w2 (linspace start (f_sub end_ delta) n) in
    (k < Z.to_nat (_retries_nr (ctl w)))%nat ->
    (forall j, (j < k)%nat -> answer hw (trace w2 ++ repeat c j) c <> Done) ->
    answer hw (trace w2 ++ repeat c k) c = Done ->
    SynchOne axis (g :: rest) hw w
    = (Ret None,
       {| ctl := ctl w2;
          trace := trace w2 ++ repeat c (S k);
          log := log (table_built w2) ++ repeat retry_warning k |}).
Proof.
  intros hw w w2 axis g rest n i t start delta end_ k
         Hn Hi Hrange Hst Hax Hans Hb c Hk Hfail Hok.
  rewrite (SynchOne_position_eq hw w axis g rest n i t Hn Hi Hax Hans).
  rewrite (SynchOne_rest_eq hw (after_tgtenc w t) w2 g n start delta end_ Hb Hst Hrange).
  pose proof (SynchOne_bounds_ctl hw _ w2 g n _ Hb) as Hc.
  unfold bind.
  rewrite (SynchOne_load_until hw (linspace start (f_sub end_ delta) n)
             (Z.to_nat (_retries_nr (ctl w2))) 0 (table_built w2) k).
  - reflexivity.
  - cbn [table_built ctl]. rewrite Hc. exact Hax.
  - rewrite Hc. exact Hk.
  - exact Hfail.
  - exact Hok.
Qed.

(** X9. When the IcePAP refuses every load, [SynchOne] gives up after
    [_retries_nr] attempts with the cannot-send [RuntimeError]; with a
    retry count of zero or less it raises without having sent the table
    at all. *)
Theorem SynchOne_gives_up_loading :
  forall (hw : @link F) (w w2 : world) (axis : Z)
         (g : synch_group F) (rest : list (synch_group F))
         (n : Z) (i : domain_values F) (t : string) (start delta end_ : F),
    Repeats g = Some n ->
    Initial g = Some i ->
    0 <= n <= MAX_ECAM_VALUES ->
    _start_trigger_only (ctl w) = false ->
    has_axis hw (_motor_axis (ctl w)) = true ->
    answer hw (trace w) (GetCfg (_motor_axis (ctl w)) "TGTENC") = Text t ->
    SynchOne_bounds g n hw (after_tgtenc w t) = (Ret (start, delta, end_), w2) ->
    let c := load_call w2 (linspace start (f_sub end_ delta) n) in
    let attempts := Z.to_nat (_retries_nr (ctl w)) in
    (forall j, (j < attempts)%nat -> answer hw (trace w2 ++ repeat c j) c <> Done) ->
    SynchOne axis (g :: rest) hw w
    = (Raise TableLoadFailed,
       {| ctl := ctl w2;
          trace := trace w2 ++ repeat c attempts;
          log := log (table_built w2) ++ repeat retry_warning attempts |}).
Proof.
  intros hw w w2 axis g rest n i t start delta end_
         Hn Hi Hrange Hst Hax Hans Hb c attempts Hfail.
  rewrite (SynchOne_position_eq hw w axis g rest n i t Hn Hi Hax Hans).
  rewrite (SynchOne_rest_eq hw (after_tgtenc w t) w2 g n start delta end_ Hb Hst Hrange).
  pose proof (SynchOne_bounds_ctl hw _ w2 g n _ Hb) as Hc.
  unfold bind.
  rewrite (SynchOne_load_exhausted hw (linspace start (f_sub end_ delta) n)
             (Z.to_nat (_retries_nr (ctl w2))) 0 (table_built w2)).
  - subst attempts.
    replace (_retries_nr (ctl w2)) with (_retries_nr (ctl w))
      by (rewrite Hc; reflexivity).
    reflexivity.
  - cbn [table_built ctl]. rewrite Hc. exact Hax.
  - rewrite Hc. exact Hfail.
Qed.

End LoadRetries.

(** A witness for X8: the third load is the first one accepted. *)
Lemma SynchOne_retries_until_loaded_witness :
  let w := Examples.world_of Examples.on_encoder in
  let r := SynchOne 0 [Examples.spec_of_ints 0 1 3] (Cases.loads_from 2) w in
  fst r = Ret None /\ List.length (loaded_tables (trace (snd r))) = 3%nat.
Proof.
  intros w r.
  assert (H : r = (Ret None,
                   {| ctl := Examples.on_encoder;
                      trace := trace (snd r);
                      log := log (snd r) |})).
  { subst r.
    rewrite (SynchOne_retries_until_loaded (Cases.loads_from 2) w
               (snd (SynchOne_bounds (Examples.spec_of_ints 0 1 3) 3
                       (Cases.loads_from 2) (after_tgtenc w "ENCIN")))
               0 (Examples.spec_of_ints 0 1 3) [] 3
               {| Position := Some (B64.of_Z 0); Time := None |} "ENCIN"%string
               (B64.of_Z 0) (B64.of_Z 125) (B64.of_Z 375) 2);
      try reflexivity.
    - unfold MAX_ECAM_VALUES. lia.
    - cbn. lia.
    - intros j Hj.
      destruct j as [|[|j]]; [vm_compute; discriminate | vm_compute; discriminate | lia]. }
  rewrite H. split; [reflexivity|]. vm_compute. reflexivity.
Defined.

(** A witness for X9: five retries on an IcePAP refusing nine loads. *)
Lemma SynchOne_gives_up_loading_witness :
  let w := Examples.world_of Examples.on_encoder in
  let r := SynchOne 0 [Examples.spec_of_ints 0 1 3] (Cases.loads_from 9) w in
  fst r = Raise TableLoadFailed /\
  List.length (loaded_tables (trace (snd r))) = 5%nat.
Proof.
  intros w r.
  assert (H : r = (Raise TableLoadFailed,
                   {| ctl := Examples.on_encoder;
                      trace := trace (snd r);
                      log := log (snd r) |})).
  { subst r.
    rewrite (SynchOne_gives_up_loading (Cases.loads_from 9) w
               (snd (SynchOne_bounds (Examples.spec_of_ints 0 1 3) 3
                       (Cases.loads_from 9) (after_tgtenc w "ENCIN")))
               0 (Examples.spec_of_ints 0 1 3) [] 3
               {| Position := Some (B64.of_Z 0); Time := None |} "ENCIN"%string
               (B64.of_Z 0) (B64.of_Z 125) (B64.of_Z 375));
      try reflexivity.
    - unfold MAX_ECAM_VALUES. lia.
    - intros j Hj. change (Z.to_nat (_retries_nr (ctl w))) with 5%nat in Hj.
      destruct j as [|[|[|[|[|j]]]]]; try (vm_compute; discriminate). lia. }
  rewrite H. split; [reflexivity|]. vm_compute. reflexivity.
Defined.

Section TableVariants.

Context {F : Type} {PF : PyFloat F}.

Lemma SynchOne_rest_first_only_eq :
  forall (hw : @link F) (w1 w2 : world) g n start delta end_,
    SynchOne_bounds g n hw w1 = (Ret (start, delta, end_), w2) ->
    _start_trigger_only (ctl w1) = true ->
    SynchOne_rest g n hw w1
    = (table_loaded <-
         SynchOne_load (Z.to_nat (_retries_nr (ctl w2))) 0 [start] ;;
       if (table_loaded : bool) then ret None else raise TableLoadFailed)
        hw {| ctl := ctl w2;
              trace := trace w2;
              log := log w2 ++ [(Debug, "Start trigger only flag is active."%string)] |}.
Proof.
  intros hw w1 w2 g n start delta end_ Hb Hst.
  pose proof (SynchOne_bounds_ctl hw w1 w2 g n _ Hb) as Hc.
  unfold SynchOne_rest. unfold bind at 1. rewrite Hb.
  unfold SynchOne_table. run.
  rewrite <- Hc in Hst. rewrite Hst. run. reflexivity.
Qed.

(** X10. After [setStartTriggerOnly(axis, True)] a position-driven
    [SynchOne] hands the one-point table [[start]] to [set_ecam_table],
    whatever the number of repeats, above 20477 or below 1 included: the
    count is not looked at. *)
Theorem SynchOne_after_setStartTriggerOnly :
  forall (hw : @link F) (w0 w2 : world) (a axis : Z)
         (g : synch_group F) (rest : list (synch_group F))
         (n : Z) (i : domain_values F) (t : string) (start delta end_ : F),
    let w := snd (setStartTriggerOnly a true hw w0) in
    Repeats g = Some n ->
    Initial g = Some i ->
    has_axis hw (_motor_axis (ctl w)) = true ->
    answer hw (trace w) (GetCfg (_motor_axis (ctl w)) "TGTENC") = Text t ->
    SynchOne_bounds g n hw (after_tgtenc w t) = (Ret (start, delta, end_), w2) ->
    0 < _retries_nr (ctl w) ->
    let r := SynchOne axis (g :: rest) hw w in
    (fst r = Ret None \/ fst r = Raise TableLoadFailed) /\
    exists k,
      (0 < k)%nat /\
      loaded_tables (calls_since w (snd r)) = repeat [start] k.
Proof.
  intros hw w0 w2 a axis g rest n i t start delta end_ w
         Hn Hi Hax Hans Hb Hretries r.
  subst r.
  rewrite (SynchOne_position_eq hw w axis g rest n i t Hn Hi Hax Hans).
  rewrite (SynchOne_rest_first_only_eq hw (after_tgtenc w t) w2 g n
             start delta end_ Hb eq_refl).
  pose proof (SynchOne_bounds_ctl hw _ w2 g n _ Hb) as Hc.
  destruct (proj2 (SynchOne_bounds_reads g n hw (after_tgtenc w t)))
    as [l [Ht2 Hl]].
  rewrite Hb in Ht2. cbn [snd after_tgtenc trace] in Ht2.
  unfold bind.
  match goal with
  | |- context [SynchOne_load ?att 0 [start] hw ?w3] =>
      destruct (SynchOne_load_effects hw [start] att 0 w3)
        as [Hc' [[b Hb'] [k [Hk [Ht Hpos]]]]];
      destruct (SynchOne_load att 0 [start] hw w3) as [o w4]
  end.
  cbn [fst snd ctl trace log] in *. subst o.
  split.
  - destruct b; [left | right]; reflexivity.
  - exists k. split.
    + apply Hpos.
      * rewrite Hc. exact Hax.
      * rewrite Hc. cbn [after_tgtenc ctl _retries_nr set_is_tgtenc set_time_mode].
        lia.
    + assert (Hw4 : trace w4 = trace w ++
                      (GetCfg (_motor_axis (ctl w)) "TGTENC" :: l) ++
                      repeat (SetEcamTable (_motor_axis (ctl w2)) [start]
                                (_ecam_source (ctl w2))) k).
      { rewrite Ht, Ht2, <- !app_assoc. reflexivity. }
      assert (Hcs : calls_since w w4 = _) by (apply calls_since_app; exact Hw4).
      destruct b; cbv [ret raise]; cbn [snd]; rewrite Hcs;
        rewrite loaded_tables_app;
        change (GetCfg (_motor_axis (ctl w)) "TGTENC" :: l)
          with ([GetCfg (_motor_axis (ctl w)) "TGTENC"] ++ l);
        rewrite loaded_tables_app, (loaded_tables_cfg_reads l Hl);
        cbn [loaded_tables app];
        apply (loaded_tables_repeat
                 {| ctl := ctl w2; trace := trace w2; log := log w2 |} [start] k).
Qed.

Lemma linspace_last :
  forall (start stop : F) (n : Z),
    1 < n ->
    nth_error (linspace start stop n) (Z.to_nat n - 1) = Some stop.
Proof.
  intros start stop n Hn. unfold linspace.
  replace (1 <? n) with true by (symmetry; apply Z.ltb_lt; lia).
  set (y := map (fun v => f_add v start) _).
  assert (Hlen : List.length y = Z.to_nat n).
  { subst y. rewrite length_map.
    destruct (0 <? n - 1); try destruct (f_eqb _ f_zero);
      rewrite !length_map; apply arange_from_length. }
  rewrite nth_error_set_last by lia.
  replace (S (Z.to_nat n - 1)) with (List.length y) by lia.
  rewrite Nat.eqb_refl. reflexivity.
Qed.

(** X11. In any arithmetic, binary64 included, every table a
    position-driven [SynchOne] loads for more than one point ends exactly
    at [end - delta], the position of the last pulse: the end point is
    written in, not accumulated. *)
Theorem SynchOne_table_last_point :
  forall (hw : @link F) (w w2 : world) (axis : Z)
         (g : synch_group F) (rest : list (synch_group F))
         (n : Z) (i : domain_values F) (t : string) (start delta end_ : F)
         (table : list F),
    Repeats g = Some n ->
    Initial g = Some i ->
    1 < n <= MAX_ECAM_VALUES ->
    _start_trigger_only (ctl w) = false ->
    has_axis hw (_motor_axis (ctl w)) = true ->
    answer hw (trace w) (GetCfg (_motor_axis (ctl w)) "TGTENC") = Text t ->
    SynchOne_bounds g n hw (after_tgtenc w t) = (Ret (start, delta, end_), w2) ->
    0 < _retries_nr (ctl w) ->
    In table (loaded_tables (calls_since w (snd (SynchOne axis (g :: rest) hw w)))) ->
    nth_error table (Z.to_nat n - 1) = Some (f_sub end_ delta).
Proof.
  intros hw w w2 axis g rest n i t start delta end_ table
         Hn Hi Hrange Hst Hax Hans Hb Hretries Hin.
  destruct (SynchOne_position_loads hw w w2 axis g rest n i t start delta end_
              Hn Hi) as [_ [k [_ Hk]]]; try assumption; [lia|].
  rewrite Hk in Hin. apply repeat_spec in Hin. subst table.
  apply linspace_last. lia.
Qed.

End TableVariants.

(** A witness for X10: 20478 repeats with the flag set. *)
Lemma SynchOne_after_setStartTriggerOnly_witness :
  let w := snd (setStartTriggerOnly 0 true Examples.healthy
                  (Examples.world_of Examples.on_encoder)) in
  exists k,
    (0 < k)%nat /\
    loaded_tables
      (calls_since w (snd (SynchOne 0 [Examples.spec_of_ints 7 1 20478]
                             Examples.healthy w)))
    = repeat [B64.of_Z 875] k.
Proof.
  intros w.
  apply (SynchOne_after_setStartTriggerOnly Examples.healthy
           (Examples.world_of Examples.on_encoder)
           (snd (SynchOne_bounds (Examples.spec_of_ints 7 1 20478) 20478
                   Examples.healthy (after_tgtenc w "ENCIN")))
           0 0 (Examples.spec_of_ints 7 1 20478) [] 20478
           {| Position := Some (B64.of_Z 7); Time := None |} "ENCIN"%string
           (B64.of_Z 875) (B64.of_Z 125) (B64.of_Z 2560625)); reflexivity.
Defined.

(** A witness for X11: the table of the encoder scenario ends at 250. *)
Lemma SynchOne_table_last_point_witness :
  nth_error (map B64.of_Z [0; 125; 250]) (Z.to_nat 3 - 1)
  = Some (f_sub (B64.of_Z 375) (B64.of_Z 125)).
Proof.
  apply (SynchOne_table_last_point Examples.healthy
           (Examples.world_of Examples.on_encoder)
           (snd (SynchOne_bounds (Examples.spec_of_ints 0 1 3) 3 Examples.healthy
                   (after_tgtenc (Examples.world_of Examples.on_encoder) "ENCIN")))
           0 (Examples.spec_of_ints 0 1 3) [] 3
           {| Position := Some (B64.of_Z 0); Time := None |} "ENCIN"%string
           (B64.of_Z 0) (B64.of_Z 125) (B64.of_Z 375)
           (map B64.of_Z [0; 125; 250])); try reflexivity.
  - unfold MAX_ECAM_VALUES. lia.
  - vm_compute. left. reflexivity.
Defined.

Section Bounds.

Context {F : Type} {PF : PyFloat F}.

(** X12. On the raw axis (selected source AXIS, in any case of letters)
    the bounds are not converted and no register is read:
    [start = start_user * spu], [delta = delta_user * spu] and
    [end = start + delta * nr_points], the number of points being
    converted to a float and [delta] being formatted for the debug line. *)
Theorem SynchOne_bounds_on_axis :
  forall (hw : @link F) (w : world) (g : synch_group F) (n : Z)
         (i tot : domain_values F) (start_user delta_user nf : F) (z : Z),
    Initial g = Some i ->
    Position i = Some start_user ->
    Total g = Some tot ->
    Position tot = Some delta_user ->
    f_of_int n = Some nf ->
    has_axis hw (_motor_axis (ctl w)) = true ->
    Py.upper (_ecam_source (ctl w)) = "AXIS"%string ->
    f_trunc (f_mul delta_user (_motor_spu (ctl w))) = Py.TInt z ->
    let start := f_mul start_user (_motor_spu (ctl w)) in
    let delta := f_mul delta_user (_motor_spu (ctl w)) in
    SynchOne_bounds g n hw w
    = (Ret (start, delta, f_add start (f_mul delta nf)),
       {| ctl := ctl w;
          trace := trace w;
          log := log w ++
                 [(Debug, "IcepapTriggerCtr configuration: %f %f %d %d"%string)] |}).
Proof.
  intros hw w g n i tot start_user delta_user nf z
         Hi Hs Ht Hd Hn Hax Hsrc Htr start delta.
  unfold SynchOne_bounds, py_float, py_int.
  rewrite Hi. run. rewrite Hs. run. rewrite Ht. run. rewrite Hd. run.
  rewrite Hn. run. rewrite Hax, Hsrc. run.
  rewrite String.eqb_refl. cbn [negb]. run.
  subst start delta. rewrite Htr. reflexivity.
Qed.

(** X13. A position-driven group that lacks a position (no [Position]
    under [Initial], no [Total], or no [Position] under [Total]) raises
    [KeyError], and only after the target encoder has been read: the
    controller is already in position mode, and no table is loaded. *)
Theorem SynchOne_missing_position :
  forall (hw : @link F) (w : world) (axis : Z)
         (g : synch_group F) (rest : list (synch_group F))
         (n : Z) (i : domain_values F) (t : string),
    Repeats g = Some n ->
    Initial g = Some i ->
    has_axis hw (_motor_axis (ctl w)) = true ->
    answer hw (trace w) (GetCfg (_motor_axis (ctl w)) "TGTENC") = Text t ->
    (Position i = None \/ Total g = None \/
     exists tot, Total g = Some tot /\ Position tot = None) ->
    SynchOne axis (g :: rest) hw w = (Raise Py.KeyError, after_tgtenc w t).
Proof.
  intros hw w axis g rest n i t Hn Hi Hax Hans Hmiss.
  rewrite (SynchOne_position_eq hw w axis g rest n i t Hn Hi Hax Hans).
  unfold SynchOne_rest, SynchOne_bounds. rewrite Hi. run.
  destruct (Position i) as [su|]; run; [|reflexivity].
  destruct Hmiss as [Hm | [Hm | [tot [Hm1 Hm2]]]]; [discriminate | |].
  - rewrite Hm. reflexivity.
  - rewrite Hm1. run. rewrite Hm2. reflexivity.
Qed.


End Bounds.

(** A witness for X12: the bound motor on the raw axis. *)
Lemma SynchOne_bounds_on_axis_witness :
  fst (SynchOne_bounds (Examples.spec_of_ints 2 3 4) 4 Examples.dead
         (Examples.world_of Examples.bound))
  = Ret (B64.of_Z 2, B64.of_Z 3, B64.of_Z 14).
Proof.
  rewrite (SynchOne_bounds_on_axis Examples.dead (Examples.world_of Examples.bound)
             (Examples.spec_of_ints 2 3 4) 4
             {| Position := Some (B64.of_Z 2); Time := None |}
             {| Position := Some (B64.of_Z 3); Time := None |}
             (B64.of_Z 2) (B64.of_Z 3) (B64.of_Z 4) 3); reflexivity.
Defined.

(** A witness for X13: a group with a start and no step. *)
Lemma SynchOne_missing_position_witness :
  fst (SynchOne 0 [Cases.no_step] Examples.healthy (Examples.world_of Examples.bound))
  = Raise Py.KeyError.
Proof.
  rewrite (SynchOne_missing_position Examples.healthy
             (Examples.world_of Examples.bound) 0 Cases.no_step [] 3
             {| Position := Some (B64.of_Z 0); Time := None |} "ENCIN"%string
             eq_refl eq_refl eq_refl eq_refl).
  - reflexivity.
  - right. left. reflexivity.
Defined.


Section EncoderConversion.

Context {F : Type} {PF : PyFloat F}.


End EncoderConversion.


Section StartAndArm.

Context {F : Type} {PF : PyFloat F}.

Lemma keeps_SynchOne_rest :
  forall (P : @controller F -> Prop) g n, keeps P (SynchOne_rest g n).
Proof.
  intros P g n. unfold SynchOne_rest.
  apply keeps_bind;
    [apply keeps_reads_cfg_only; apply SynchOne_bounds_reads | intros [[s0 d0] e0]].
  apply keeps_bind.
  - unfold SynchOne_table.
    apply keeps_bind; [apply keeps_self | intros c].
    destruct (_start_trigger_only c).
    { apply keeps_bind; [apply keeps_log | intros _; apply keeps_ret]. }
    destruct (MAX_ECAM_VALUES <? n); [apply keeps_raise|].
    apply keeps_bind.
    { unfold np_linspace. destruct (n <? 0); [apply keeps_raise | apply keeps_ret]. }
    intros tb. apply keeps_bind; [apply keeps_log | intros _; apply keeps_ret].
  - intros tb. apply keeps_bind; [apply keeps_self | intros c].
    apply keeps_bind; [apply keeps_SynchOne_load | intros [|]];
      [apply keeps_ret | apply keeps_raise].
Qed.

(** X16. A position-driven [SynchOne] that could read the target encoder
    as [t] leaves the controller in position mode with [_is_tgtenc] set
    exactly when [t] is the text NONE, however the rest of it ends.  A
    [StartOne] that follows then does nothing at all when [t] is not NONE,
    and when it is, reads the name of the motor and sends one ESYNC. *)
Theorem SynchOne_then_StartOne :
  forall (hw : @link F) (w : world) (axis : Z)
         (g : synch_group F) (rest : list (synch_group F))
         (n : Z) (i : domain_values F) (t : string),
    Repeats g = Some n ->
    Initial g = Some i ->
    has_axis hw (_motor_axis (ctl w)) = true ->
    answer hw (trace w) (GetCfg (_motor_axis (ctl w)) "TGTENC") = Text t ->
    let w' := snd (SynchOne axis (g :: rest) hw w) in
    ctl w' = set_is_tgtenc (String.eqb t "NONE") (set_time_mode false (ctl w)) /\
    (t <> "NONE"%string ->
     forall (hw' : @link F) (axis' : Z), StartOne axis' hw' w' = (Ret tt, w')) /\
    (t = "NONE"%string ->
     forall (hw' : @link F) (axis' : Z) (name : string),
       has_axis hw' (_motor_axis (ctl w)) = true ->
       answer hw' (trace w') (ReadName (_motor_axis (ctl w))) = Text name ->
       answer hw' (trace w' ++ [ReadName (_motor_axis (ctl w))])
         (Esync (_motor_axis (ctl w))) = Done ->
       StartOne axis' hw' w'
       = (Ret tt,
          {| ctl := ctl w';
             trace := trace w' ++ [ReadName (_motor_axis (ctl w));
                                   Esync (_motor_axis (ctl w))];
             log := log w' ++ [(Info, "Send ESYNC to motor: %s"%string)] |})).
Proof.
  intros hw w axis g rest n i t Hn Hi Hax Hans w'.
  assert (Hc : ctl w' = set_is_tgtenc (String.eqb t "NONE")
                          (set_time_mode false (ctl w))).
  { subst w'.
    rewrite (SynchOne_position_eq hw w axis g rest n i t Hn Hi Hax Hans).
    apply (keeps_SynchOne_rest (fun c => c = ctl (after_tgtenc w t))).
    reflexivity. }
  split; [exact Hc|]. split.
  - intros Hne hw' axis'. apply String.eqb_neq in Hne.
    unfold StartOne. run. rewrite Hc. run. rewrite Hne. reflexivity.
  - intros -> hw' axis' name Hax' Hname Hsync.
    rewrite String.eqb_refl in Hc.
    unfold StartOne. run. rewrite Hc. run. rewrite Hax'. run.
    rewrite Hname. run. rewrite Hsync. run.
    rewrite ?Hc, <- app_assoc. reflexivity.
Qed.

(** X17. On line 0 [PreStartOne] writes the output level [low] in time
    mode and [ecam] in position mode, with polarity [normal]; when the
    IcePAP accepts the write and no source is configured for the motor, it
    returns [True] with the raw axis selected, and when the IcePAP refuses
    the write, the error of the link leaves [PreStartOne]. *)
Theorem PreStartOne_writes_level :
  forall (hw : @link F) (w : world),
    has_axis hw (_motor_axis (ctl w)) = true ->
    let out := if _time_mode (ctl w) then LOW else ECAM in
    (answer hw (trace w) (level_write (ctl w) out) = Done ->
     ecam_entry (ctl w) = None ->
     PreStartOne 0 hw w
     = (Ret true, {| ctl := set_ecam_source "AXIS" (ctl w);
                     trace := trace w ++ [level_write (ctl w) out];
                     log := log w |})) /\
    (answer hw (trace w) (level_write (ctl w) out) <> Done ->
     PreStartOne 0 hw w
     = (Raise Py.LinkError, {| ctl := ctl w;
                               trace := trace w ++ [level_write (ctl w) out];
                               log := log w |})).
Proof.
  intros hw w Hax out. subst out. unfold PreStartOne, level_write.
  destruct (_time_mode (ctl w)) eqn:Htm.
  - split.
    + intros Hd He. run. rewrite Htm. unfold _set_out. run.
      rewrite Hax. cbn [Z.eqb]. run. rewrite Hd. run. rewrite He. reflexivity.
    + intros Hd. run. rewrite Htm. unfold _set_out. run.
      rewrite Hax. cbn [Z.eqb]. run.
      destruct (answer hw (trace w) _); run; try reflexivity. congruence.
  - split.
    + intros Hd He. run. rewrite Htm. unfold _set_out. run.
      rewrite Hax. cbn [Z.eqb]. run. rewrite Hd. run. rewrite He. reflexivity.
    + intros Hd. run. rewrite Htm. unfold _set_out. run.
      rewrite Hax. cbn [Z.eqb]. run.
      destruct (answer hw (trace w) _); run; try reflexivity. congruence.
Qed.

(** X18. In time mode, on line 0 with no source configured for the motor,
    [StartOne] writes [high] and then [low]: it returns once both writes
    are accepted, and when the IcePAP accepts [high] but refuses [low] it
    raises with the output left written high. *)
Theorem StartOne_time_pulse :
  forall (hw : @link F) (w : world),
    _time_mode (ctl w) = true ->
    has_axis hw (_motor_axis (ctl w)) = true ->
    ecam_entry (ctl w) = None ->
    let high := level_write (ctl w) HIGH in
    let low := level_write (ctl w) LOW in
    answer hw (trace w) high = Done ->
    (answer hw (trace w ++ [high]) low = Done ->
     StartOne 0 hw w
     = (Ret tt, {| ctl := set_ecam_source "AXIS" (ctl w);
                   trace := trace w ++ [high; low];
                   log := log w |})) /\
    (answer hw (trace w ++ [high]) low <> Done ->
     StartOne 0 hw w
     = (Raise Py.LinkError, {| ctl := set_ecam_source "AXIS" (ctl w);
                               trace := trace w ++ [high; low];
                               log := log w |})).
Proof.
  intros hw w Htm Hax He high low Hhigh. subst high low. unfold level_write in *.
  assert (He' : ecam_entry (set_ecam_source "AXIS" (ctl w)) = None) by exact He.
  unfold StartOne. run. rewrite Htm. unfold _set_out. run.
  rewrite Hax. cbn [Z.eqb]. run. rewrite Hhigh. run. rewrite He. run.
  rewrite Hax. run.
  split.
  - intros Hlow. rewrite Hlow. run. rewrite He'. run.
    rewrite <- app_assoc. reflexivity.
  - intros Hlow.
    destruct (answer hw (trace w ++ _) _); run;
      try (rewrite <- app_assoc; reflexivity).
    congruence.
Qed.

End StartAndArm.

(** A witness for X16: an IcePAP without target encoder. *)
Lemma SynchOne_then_StartOne_witness :
  let w := Examples.world_of Examples.bound in
  let w' := snd (SynchOne 0 [Examples.spec_of_ints 0 1 3] Cases.no_target_encoder w) in
  _is_tgtenc (ctl w') = true /\
  trace (snd (StartOne 0 Cases.no_target_encoder w'))
  = trace w' ++ [ReadName (Some 1); Esync (Some 1)].
Proof.
  intros w w'.
  destruct (SynchOne_then_StartOne Cases.no_target_encoder w 0
              (Examples.spec_of_ints 0 1 3) [] 3
              {| Position := Some (B64.of_Z 0); Time := None |} "NONE"%string
              eq_refl eq_refl eq_refl eq_refl) as [Hc [_ Hsync]].
  fold w' in Hc, Hsync. split.
  - rewrite Hc. reflexivity.
  - rewrite (Hsync eq_refl Cases.no_target_encoder 0 "mot01"%string);
      reflexivity.
Defined.

(** A witness for X17: arming in position mode writes [ecam]. *)
Lemma PreStartOne_writes_level_witness :
  PreStartOne 0 Examples.healthy (Examples.world_of Examples.bound)
  = (Ret true,
     {| ctl := Examples.bound;
        trace := [SetAttr (Some 1) "syncaux" [ECAM; "normal"%string]];
        log := [] |}).
Proof.
  rewrite (proj1 (PreStartOne_writes_level Examples.healthy
                    (Examples.world_of Examples.bound) eq_refl));
    reflexivity.
Defined.

(** A witness for X18: the pulse of a time-driven start. *)
Lemma StartOne_time_pulse_witness :
  trace (snd (StartOne 0 Examples.healthy (Examples.world_of Cases.timed)))
  = [SetAttr (Some 1) "syncaux" [HIGH; "normal"%string];
     SetAttr (Some 1) "syncaux" [LOW; "normal"%string]].
Proof.
  rewrite (proj1 (StartOne_time_pulse Examples.healthy
                    (Examples.world_of Cases.timed)
                    eq_refl eq_refl eq_refl eq_refl));
    reflexivity.
Defined.

Section SourceSelection.

Context {F : Type} {PF : PyFloat F}.

Lemma dict_get_set :
  forall (a : Z) (e : string) (d : list (Z * string)),
    dict_get a (dict_set a e d) = Some e.
Proof.
  intros a e d. induction d as [|[k v] r IH]; cbn [dict_set dict_get].
  - rewrite Z.eqb_refl. reflexivity.
  - destruct (a =? k) eqn:E; cbn [dict_get].
    + rewrite Z.eqb_refl. reflexivity.
    + rewrite E. exact IH.
Qed.

Lemma ecam_entry_axis :
  forall (c : @controller F) a configured,
    ecam_entry c = Some (a, configured) -> _motor_axis c = Some a.
Proof.
  intros c a configured. unfold ecam_entry.
  destruct (_ecam_source_dict c); [|discriminate].
  destruct (_motor_axis c) as [m|]; [|discriminate].
  destruct (dict_get m l); [|discriminate].
  cbn. intros H. inversion H. reflexivity.
Qed.

Lemma ecam_entry_update :
  forall (c : @controller F) a configured e,
    ecam_entry c = Some (a, configured) ->
    ecam_entry (set_ecam_source_dict
                  (option_map (dict_set a e) (_ecam_source_dict c)) c)
    = Some (a, e).
Proof.
  intros c a configured e H.
  pose proof (ecam_entry_axis c a configured H) as Ha.
  unfold ecam_entry in *. cbn [_ecam_source_dict _motor_axis set_ecam_source_dict].
  destruct (_ecam_source_dict c) as [d|]; [|discriminate].
  rewrite Ha. cbn [option_map]. rewrite dict_get_set. reflexivity.
Qed.

Lemma supported_is_upper :
  forall e, Py.str_in e ECAM_SOURCE_VALUES = true -> Py.upper e = e.
Proof.
  intros e H. unfold Py.str_in, ECAM_SOURCE_VALUES in H. cbn [existsb] in H.
  repeat (apply orb_prop in H; destruct H as [H | H]);
    try discriminate; apply String.eqb_eq in H; subst e; reflexivity.
Qed.

(** X19. On line 0, with an ASCII name other than TGTENC configured for
    the bound motor and the level write accepted, [_set_out] selects the
    configured source when its name, whatever the case of its letters, is
    ENCIN, ABSENC or INPOS, keeping the spelling it was configured with;
    any other ASCII name selects the raw axis and is logged as an error.
    The level write is the only call sent. *)
Theorem set_out_selects_source :
  forall (hw : @link F) (w : world) (out : string) (a : Z) (configured : string),
    has_axis hw (_motor_axis (ctl w)) = true ->
    answer hw (trace w) (level_write (ctl w) out) = Done ->
    ecam_entry (ctl w) = Some (a, configured) ->
    Py.is_ascii configured = true ->
    Py.upper configured <> "TGTENC"%string ->
    let supported := Py.str_in (Py.upper configured) ECAM_SOURCE_VALUES in
    _set_out out 0 hw w
    = (Ret tt,
       {| ctl := set_ecam_source (if supported then configured else "AXIS"%string)
                   (ctl w);
          trace := trace w ++ [level_write (ctl w) out];
          log := log w ++
                 (if supported then []
                  else [(Error, "Ecam source {} not supported, AXIS will be used"%string)]) |}).
Proof.
  intros hw w out a configured Hax Hd He _ Hne supported. subst supported.
  unfold level_write in *. unfold _set_out. run.
  rewrite Hax. cbn [Z.eqb]. run. rewrite Hd. run. rewrite He.
  apply String.eqb_neq in Hne. rewrite Hne. run.
  destruct (Py.str_in (Py.upper configured) ECAM_SOURCE_VALUES); run.
  - rewrite He. run. rewrite app_nil_r. reflexivity.
  - reflexivity.
Qed.

(** X20. On line 0, with TGTENC configured for the bound motor, [_set_out]
    asks the IcePAP for its target encoder right after the level write and
    stores the answer [e] in place of TGTENC, so that the entry of the
    motor is [e] from then on.  The answer is compared as it is: it is
    selected when it is exactly ENCIN, ABSENC or INPOS, and any other
    answer, NONE included, selects the raw axis with an error logged. *)
Theorem set_out_resolves_target_encoder :
  forall (hw : @link F) (w : world) (out : string) (a : Z)
         (configured e : string),
    has_axis hw (_motor_axis (ctl w)) = true ->
    answer hw (trace w) (level_write (ctl w) out) = Done ->
    ecam_entry (ctl w) = Some (a, configured) ->
    Py.upper configured = "TGTENC"%string ->
    answer hw (trace w ++ [level_write (ctl w) out])
      (GetCfg (_motor_axis (ctl w)) "TGTENC") = Text e ->
    let supported := Py.str_in e ECAM_SOURCE_VALUES in
    let w' := snd (_set_out out 0 hw w) in
    fst (_set_out out 0 hw w) = Ret tt /\
    trace w' = trace w ++ [level_write (ctl w) out;
                           GetCfg (_motor_axis (ctl w)) "TGTENC"] /\
    _ecam_source (ctl w') = (if supported then e else "AXIS"%string) /\
    ecam_entry (ctl w') = Some (a, e).
Proof.
  intros hw w out a configured e Hax Hd He Hup Hcfg supported w'.
  subst supported w'. unfold level_write in *.
  pose proof (ecam_entry_update (ctl w) a configured e He) as Hupd.
  unfold _set_out. run.
  rewrite Hax. cbn [Z.eqb]. run. rewrite Hd. run. rewrite He.
  rewrite Hup. rewrite String.eqb_refl. run. rewrite Hcfg. run.
  destruct (Py.str_in e ECAM_SOURCE_VALUES); run.
  - rewrite Hupd. run. rewrite <- app_assoc.
    repeat split; try reflexivity. exact Hupd.
  - rewrite <- app_assoc. repeat split; try reflexivity. exact Hupd.
Qed.

(** [_set_out] selects a source [SynchOne] has registers for. *)
Lemma set_out_source_ok :
  forall (out : string) (axis : Z), keeps (@source_ok F) (_set_out out axis).
Proof.
  intros out axis hw w H. unfold _set_out. run.
  destruct (has_axis hw (_motor_axis (ctl w))); run; [|exact H].
  destruct (axis =? 0).
  2: { apply (keeps_set_infos source_ok). exact H. }
  run.
  destruct (answer hw (trace w) _); run; try exact H.
  destruct (ecam_entry (ctl w)) as [[a configured]|] eqn:He; run;
    [|reflexivity].
  destruct (String.eqb (Py.upper configured) "TGTENC") eqn:Et; run.
  - destruct (answer hw _ (GetCfg _ _)) as [| | e | | |]; run; try exact H.
    destruct (Py.str_in e ECAM_SOURCE_VALUES) eqn:Hv; run; [|reflexivity].
    rewrite (ecam_entry_update (ctl w) a configured e He). run.
    unfold source_ok. cbn [_ecam_source set_ecam_source].
    rewrite (supported_is_upper e Hv).
    unfold Py.str_in in *. cbn [existsb]. rewrite Hv. apply orb_true_r.
  - destruct (Py.str_in (Py.upper configured) ECAM_SOURCE_VALUES) eqn:Hv; run;
      [|reflexivity].
    rewrite He. run.
    unfold source_ok. cbn [_ecam_source set_ecam_source].
    unfold Py.str_in in *. cbn [existsb]. rewrite Hv. apply orb_true_r.
Qed.

(** X21. The selected source is always one of AXIS, ENCIN, ABSENC and
    INPOS, up to the case of its letters: [__init__] selects AXIS, and
    every method keeps the property, however it ends.  The registers
    [SynchOne] reads for a source that is not the raw axis are therefore
    those of one of the three encoders, never the fallback pair. *)
Theorem source_stays_known :
  (forall (AxisInfos alias : string) (timeout : F)
          (EcamSource : option (list (Z * string))) (hw : @link F) (w w' : world),
      init AxisInfos alias timeout EcamSource hw w = (Ret tt, w') ->
      source_ok (ctl w')) /\
  (forall (hw : @link F) (w : world) (axis : Z)
          (configuration : list (synch_group F)) (par : string) (value : Z)
          (flag : bool),
      source_ok (ctl w) ->
      source_ok (ctl (snd (PreStartOne axis hw w))) /\
      source_ok (ctl (snd (StartOne axis hw w))) /\
      source_ok (ctl (snd (AbortOne axis hw w))) /\
      source_ok (ctl (snd (SynchOne axis configuration hw w))) /\
      source_ok (ctl (snd (StateOne axis hw w))) /\
      source_ok (ctl (snd (SetAxisPar axis par value hw w))) /\
      source_ok (ctl (snd (setStartTriggerOnly axis flag hw w)))) /\
  (forall c : @controller F,
      source_ok c ->
      Py.upper (_ecam_source c) <> "AXIS"%string ->
      In (resolution_keys (Py.upper (_ecam_source c)))
         [("EINNSTEP", "EINNTURN"); ("ABSNSTEP", "ABSNTURN");
          ("INPNSTEP", "INPNTURN")]%string).
Proof.
  split; [|split].
  - intros AxisInfos alias timeout EcamSource hw w w'.
    unfold init. run.
    destruct (init_retries_nr timeout hw _) as [[r|e] w1]; [|discriminate].
    unfold py_float. destruct (f_of_int 1); run; [|discriminate].
    intros H. inversion H; subst. reflexivity.
  - intros hw w axis configuration par value flag H.
    refine (conj _ (conj _ (conj _ (conj _ (conj _ (conj _ _)))))).
    + unfold PreStartOne. apply keeps_bind; [apply keeps_self | intros s | exact H].
      apply keeps_bind; [|intros _; apply keeps_ret].
      destruct (_time_mode s); apply set_out_source_ok.
    + unfold StartOne. apply keeps_bind; [apply keeps_self | intros s | exact H].
      destruct (_time_mode s).
      * apply keeps_bind; [|intros _]; apply set_out_source_ok.
      * destruct (_is_tgtenc s); [|apply keeps_ret].
        apply keeps_bind; [apply keeps_ipap_axis | intros _].
        apply keeps_bind; [apply keeps_expect_text | intros name].
        apply keeps_bind; [apply keeps_log | intros _].
        apply keeps_bind; [apply keeps_ipap_axis | intros _].
        apply keeps_expect_done.
    + unfold AbortOne. apply keeps_bind; [apply keeps_log | intros _ | exact H].
      apply set_out_source_ok.
    + apply (keeps_SynchOne source_ok);
        [intros ? ? H'; exact H' | intros ? ? H'; exact H' | exact H].
    + apply (keeps_StateOne source_ok). exact H.
    + apply (keeps_SetAxisPar source_ok);
        [intros ? ? H'; exact H' | intros ? ? H'; exact H'
        | intros ? ? H'; exact H' | exact H].
    + exact H.
  - intros c H Hne. unfold source_ok, Py.str_in, ECAM_SOURCE_VALUES in H.
    cbn [existsb] in H. unfold resolution_keys.
    apply String.eqb_neq in Hne.
    rewrite String.eqb_sym in Hne.
    repeat (apply orb_prop in H; destruct H as [H | H]); try discriminate.
    + rewrite String.eqb_sym in H. congruence.
    + rewrite H. cbn. auto.
    + destruct (String.eqb _ "ENCIN"); [cbn; auto|]. rewrite H. cbn. auto.
    + destruct (String.eqb _ "ENCIN"); [cbn; auto|].
      destruct (String.eqb _ "ABSENC"); [cbn; auto|]. rewrite H. cbn. auto.
Qed.

End SourceSelection.

(** A witness for X19: the source configured in lower case. *)
Lemma set_out_selects_source_witness :
  _ecam_source (ctl (snd (_set_out ECAM 0 Examples.healthy
                            (Examples.world_of (Cases.configured "encin")))))
  = "encin"%string.
Proof.
  rewrite (set_out_selects_source Examples.healthy
             (Examples.world_of (Cases.configured "encin")) ECAM 1 "encin"%string
             eq_refl eq_refl eq_refl eq_refl).
  - reflexivity.
  - cbn. discriminate.
Defined.

(** A witness for X20: the target encoder resolved to ENCIN. *)
Lemma set_out_resolves_target_encoder_witness :
  let w' := snd (_set_out ECAM 0 Examples.healthy
                   (Examples.world_of (Cases.configured "tgtenc"))) in
  _ecam_source (ctl w') = "ENCIN"%string /\
  ecam_entry (ctl w') = Some (1, "ENCIN"%string).
Proof.
  intros w'.
  destruct (set_out_resolves_target_encoder Examples.healthy
              (Examples.world_of (Cases.configured "tgtenc")) ECAM 1
              "tgtenc"%string "ENCIN"%string
              eq_refl eq_refl eq_refl eq_refl eq_refl) as (_ & _ & Hs & He).
  split; [exact Hs | exact He].
Defined.

(** A witness for X21: aborting with a source configured. *)
Lemma source_stays_known_witness :
  source_ok (ctl (snd (AbortOne 0 Examples.healthy
                         (Examples.world_of (Cases.configured "absenc"))))).
Proof.
  apply (proj1 (proj2 source_stays_known) Examples.healthy
           (Examples.world_of (Cases.configured "absenc")) 0 [] ""%string 0 false).
  reflexivity.
Defined.

Section Binding.

Context {F : Type} {PF : PyFloat F}.

(** On an IcePAP that accepts [clear_pmux], the loop of lines 172-175
    clears line e0 once when some link in the list names E0, and not
    otherwise. *)
Lemma clear_e0_run :
  forall (pmux : list string) (hw : @link F) (w : world),
    (forall h, answer hw h (ClearPmux "e0") = Done) ->
    clear_e0 pmux hw w
    = (Ret tt,
       {| ctl := ctl w;
          trace := trace w ++
                   (if existsb (Py.contains "E0") pmux then [ClearPmux "e0"] else []);
          log := log w |}).
Proof.
  induction pmux as [|p r IH]; intros hw w Hclear; cbn [clear_e0 existsb].
  - rewrite app_nil_r. destruct w; reflexivity.
  - destruct (Py.contains "E0" p); cbn [orb].
    + run. rewrite Hclear. reflexivity.
    + apply IH. exact Hclear.
Qed.

(** X22. A first binding of motor [id_] on line 0, on collaborators that
    answer: the controller opens the motor device and reads its
    [step_per_unit], lists the multiplexer links, clears line e0 exactly
    when one of them names E0, connects the motor to e0 (aux and hard set,
    pos not), and lists the links again.  Motor, scale and id are
    recorded. *)
Theorem configureMotor_connects :
  forall (hw : @link F) (w : world) (id_ : Z) (spu : F) (pmux : list string),
    _last_id (ctl w) <> Some id_ ->
    let alias := IcepapCtrlAlias (ctl w) in
    (forall h, answer hw h (OpenDevice alias id_) = Done) ->
    (forall h, answer hw h (ReadAttribute alias id_ "step_per_unit") = Number spu) ->
    (forall h, answer hw h GetPmux = Lines pmux) ->
    (forall h, answer hw h (ClearPmux "e0") = Done) ->
    (forall h, answer hw h (AddPmux (Some id_) "e0" false true true) = Done) ->
    _configureMotor id_ 0 hw w
    = (Ret tt,
       {| ctl := set_last_id (Some id_)
                   (set_motor_spu spu (set_motor_axis (Some id_) (ctl w)));
          trace := trace w ++
                   [OpenDevice alias id_;
                    ReadAttribute alias id_ "step_per_unit";
                    GetPmux] ++
                   (if existsb (Py.contains "E0") pmux then [ClearPmux "e0"] else []) ++
                   [AddPmux (Some id_) "e0" false true true; GetPmux];
          log := log w ++ [(Debug, "_connectMotor PMUX={0}"%string)] |}).
Proof.
  intros hw w id_ spu pmux Hnew alias Hopen Hread Hpmux Hclear Hadd.
  subst alias. unfold _configureMotor. run.
  rewrite Hopen. run. rewrite Hread. run.
  assert (Hid : match _last_id (ctl w) with
                | Some l => id_ =? l
                | None => false
                end = false).
  { destruct (_last_id (ctl w)) as [l|]; [|reflexivity].
    apply Z.eqb_neq. intros ->. apply Hnew. reflexivity. }
  rewrite Hid. cbn [Z.eqb]. run. rewrite Hpmux. run.
  rewrite clear_e0_run by exact Hclear. run.
  rewrite Hadd. run. rewrite Hpmux. run.
  rewrite <- !app_assoc. reflexivity.
Qed.

(** X23. Every binding that returns has opened the motor device and read
    its [step_per_unit] again, also when the motor was bound already: the
    controller then holds the motor as its axis and as the last id, and
    the scale is the value just read. *)
Theorem configureMotor_refreshes_scale :
  forall (hw : @link F) (w w1 : world) (id_ axis : Z),
    _configureMotor id_ axis hw w = (Ret tt, w1) ->
    let alias := IcepapCtrlAlias (ctl w) in
    _motor_axis (ctl w1) = Some id_ /\
    _last_id (ctl w1) = Some id_ /\
    answer hw (trace w) (OpenDevice alias id_) = Done /\
    answer hw (trace w ++ [OpenDevice alias id_])
      (ReadAttribute alias id_ "step_per_unit")
    = Number (_motor_spu (ctl w1)).
Proof.
  intros hw w w1 id_ axis H alias. subst alias.
  pose proof (_configureMotor_records_id hw w w1 id_ axis H) as Hid.
  revert H. unfold _configureMotor. run.
  destruct (answer hw (trace w) (OpenDevice (IcepapCtrlAlias (ctl w)) id_)) eqn:Ho;
    run; try discriminate.
  destruct (answer hw _ (ReadAttribute _ _ _)) eqn:Hr; run; try discriminate.
  destruct (match _last_id (ctl w) with
            | Some l => id_ =? l
            | None => false
            end).
  - intros H. inversion H; subst. run. repeat split; try reflexivity. exact Hid.
  - match goal with
    | |- ?m ?h ?w0 = _ -> _ =>
        intros H;
        pose proof (_configureMotor_pmux_ctl h w0 w1 axis (Ret tt)) as Hc
    end.
    rewrite Hc by (run; exact H). run.
    repeat split; reflexivity.
Qed.

(** X24. [SetAxisPar] accepts one parameter on one line: for any other
    line or any other name it raises [ValueError] and does nothing else,
    and for [active_input] on line 0 it is the binding of the motor. *)
Theorem SetAxisPar_dispatch :
  forall (hw : @link F) (w : world) (axis : Z) (par : string) (value : Z),
    (axis <> 0 \/ par <> "active_input"%string ->
     SetAxisPar axis par value hw w
     = (Raise (Py.ValueError "unsupported axis par {} for axis {}"), w)) /\
    (axis = 0 -> par = "active_input"%string ->
     SetAxisPar axis par value hw w = _configureMotor value axis hw w).
Proof.
  intros hw w axis par value. unfold SetAxisPar. split.
  - intros [Ha | Hp].
    + apply Z.eqb_neq in Ha. rewrite Ha. reflexivity.
    + apply String.eqb_neq in Hp. rewrite Hp, andb_false_r. reflexivity.
  - intros -> ->. reflexivity.
Qed.

Lemma set_infos_run :
  forall (infos : list string) (motor : option Z) (value : list string)
         (hw : @link F) (w : world),
    (forall h info, In info infos ->
       answer hw h (SetAttr motor info value) = Done) ->
    set_infos motor infos value hw w
    = (Ret tt,
       {| ctl := ctl w;
          trace := trace w ++ map (fun info => SetAttr motor info value) infos;
          log := log w |}).
Proof.
  induction infos as [|info r IH]; intros motor value hw w Hacc;
    cbn [set_infos map].
  - rewrite app_nil_r. destruct w; reflexivity.
  - run. rewrite (Hacc _ info) by (left; reflexivity). run.
    rewrite IH by (intros h i Hi; apply Hacc; right; exact Hi).
    cbn [ctl trace log]. rewrite <- app_assoc. reflexivity.
Qed.

(** X25. On a line other than 0, [_set_out] writes the level to each of
    the info outputs of [AxisInfos], in their order, and selects no
    source: with every write accepted it returns with the fields of the
    controller as they were. *)
Theorem set_out_other_lines :
  forall (hw : @link F) (w : world) (out : string) (axis : Z),
    axis <> 0 ->
    has_axis hw (_motor_axis (ctl w)) = true ->
    let value := [out; "normal"%string] in
    (forall h info, In info (_axis_info_list (ctl w)) ->
       answer hw h (SetAttr (_motor_axis (ctl w)) info value) = Done) ->
    _set_out out axis hw w
    = (Ret tt,
       {| ctl := ctl w;
          trace := trace w ++
                   map (fun info => SetAttr (_motor_axis (ctl w)) info value)
                       (_axis_info_list (ctl w));
          log := log w |}).
Proof.
  intros hw w out axis Haxis Hax value Hacc. subst value.
  unfold _set_out. run. rewrite Hax. run.
  apply Z.eqb_neq in Haxis. rewrite Haxis.
  apply set_infos_run. exact Hacc.
Qed.

End Binding.

(** A witness for X22: motor 1 bound on the fresh controller. *)
Lemma configureMotor_connects_witness :
  trace (snd (_configureMotor 1 0 Examples.healthy (Examples.world_of Examples.fresh)))
  = [OpenDevice "ipap" 1; ReadAttribute "ipap" 1 "step_per_unit"; GetPmux;
     AddPmux (Some 1) "e0" false true true; GetPmux].
Proof.
  rewrite (configureMotor_connects Examples.healthy
             (Examples.world_of Examples.fresh) 1 (B64.of_Z 100) []).
  - reflexivity.
  - cbn. discriminate.
  - intros h. reflexivity.
  - intros h. reflexivity.
  - intros h. reflexivity.
  - intros h. reflexivity.
  - intros h. reflexivity.
Defined.

(** A witness for X23: motor 1 bound again picks up the scale 100. *)
Lemma configureMotor_refreshes_scale_witness :
  _motor_spu (ctl (snd (_configureMotor 1 0 Examples.healthy
                          (Examples.world_of Examples.bound))))
  = B64.of_Z 100.
Proof.
  destruct (configureMotor_refreshes_scale Examples.healthy
              (Examples.world_of Examples.bound)
              (snd (_configureMotor 1 0 Examples.healthy
                      (Examples.world_of Examples.bound)))
              1 0 eq_refl) as (_ & _ & _ & H).
  cbn in H. inversion H. reflexivity.
Defined.

(** A witness for X24: a parameter the controller does not know. *)
Lemma SetAxisPar_dispatch_witness :
  SetAxisPar 0 "offset" 3 Examples.healthy (Examples.world_of Examples.bound)
  = (Raise (Py.ValueError "unsupported axis par {} for axis {}"),
     Examples.world_of Examples.bound).
Proof.
  apply (proj1 (SetAxisPar_dispatch Examples.healthy
                  (Examples.world_of Examples.bound) 0 "offset"%string 3)).
  right. discriminate.
Defined.

(** A witness for X25: the level written to InfoA on line 1. *)
Lemma set_out_other_lines_witness :
  _set_out LOW 1 Examples.healthy (Examples.world_of Examples.bound)
  = (Ret tt,
     {| ctl := Examples.bound;
        trace := [SetAttr (Some 1) "InfoA" [LOW; "normal"%string]];
        log := [] |}).
Proof.
  apply (set_out_other_lines Examples.healthy (Examples.world_of Examples.bound)
           LOW 1).
  - discriminate.
  - reflexivity.
  - intros h info _. reflexivity.
Defined.
